(* ===== verification/_CoqProject ===== *)
-Q . S2P
Prelude.v
Buffer.v
Curl.v
Download.v
EchoServer.v
Input.v
Settings.v
SettingsDraw.v
App.v
