(* ===== verification/Prelude.v ===== *)
(** * Universal-Updater: a verification development

    This library models, in Rocq, the three C++ source files of the
    Universal-Updater excerpt and proves the properties that make them
    correct.  It is a shallow embedding: every C++ function that the
    development covers is a Rocq function of the same name, global
    variables are fields of a state record passed explicitly, calls to the
    console's libraries are either modelled (where the code depends on what
    they return) or recorded as events in an ordered trace.

    ** The program and its parts

    - [src/source/actions/Downloading.cpp] is a small HTTP downloader.
      [handle_data] is the libcurl write callback: it appends every chunk
      that libcurl receives to a process-wide buffer ([ResultBuf],
      [Result_Size], [Result_Written]) that starts at 4096 bytes and doubles
      its capacity with [Result_Size <<= 1] until the chunk fits.
      [setupContext] configures the transfer, [downloadToFile] runs it,
      writes the buffer to the destination file and releases the buffer.
    - [src/source/menu/settings.cpp] is the settings menu: a page index
      (main, directories, auto-update, GUI, language) and a selection
      cursor driven by the buttons ([hDown], [hRepeat]) and the touch
      screen; selecting an item flips a configuration toggle, sets a path,
      the language or the theme, or moves to another page.
    - [src/source/nds/UniversalUpdater.cpp] is the application's bootstrap
      and main loop; the loop calls [downloadToFile] once the console has
      a 10.x.x.x address.

    ** Files, and how they model the code

    - [Prelude] (this file): the result type [res] of C code that may hang
      or fault, with its monad instances; [size_t] arithmetic on the
      32-bit ARM ([wrap], [shl1]); generic bit lemmas; the hint databases
      and tactics shared by the components.
    - [Buffer] (module [Buffer]): the growable buffer of Downloading.cpp.
      The three globals [ResultBuf], [Result_Size], [Result_Written] are
      the record [DlState]; [handle_data] (lines 43-74) is composed of
      [ensure_buffer] (the lazy [malloc]), [grow] (the [<<= 1] loop, with
      fuel) and [fit_and_copy]/[copy_chunk] (the [realloc] and [memcpy]).
      The allocator is the interface class [Heap].
    - [Curl] (module [Curl]): the part of libcurl the downloader relies on,
      modelled from its documented contract (it is not code of this
      repository): options, redirect limit, delivery of the body to the
      write callback (the interface class [WriteCallback]) and result
      codes.
    - [Download] (module [Download]): [setupContext] and [downloadToFile]
      over [Buffer], [Curl] ([handle_data] is the [WriteCallback] instance)
      and a file system ([gmap] from paths to contents, [Storage] saying
      which paths [fopen] opens).
    - [EchoServer] (module [EchoServer]): [appwifi_echoserver] and
      [appwifi_echoserver_tick] of UniversalUpdater.cpp over a model of
      lwIP: return codes from the environment, a client as the segments it
      sends and how it ends, [recv] on a blocking socket; and the three
      Wi-Fi callbacks [appwifi_log], [appwifi_connect],
      [appwifi_reconnect].  The globals [lSocket] and [sLocalAddr] (lines
      40-41) are the record [echo_globals]: [appwifi_echoserver] takes and
      returns them, every tick reads [lSocket] from them.
    - [Input]: the 3DS key masks, touch positions, hit rectangles and
      [touching] that settings.cpp uses (library code, modelled from its
      meaning).
    - [Settings] (module [Settings]): the menu of settings.cpp.  The
      reference parameters and globals the handlers write are the record
      [Menu]; the five page handlers and [SettingsHandle] are functions of
      one frame ([Inputs]) with the answers of overlays and prompts from
      [Env], and every library call recorded in [menu_log].
    - [SettingsDraw] (module [SettingsDraw]): [DrawSettings] and the five
      draw functions of settings.cpp as the lists of drawing calls they
      make, every array read bounds-checked.
    - [App] (module [App]): [UU::Initialize], [UU::Draw],
      [UU::SwitchTopMode], [UU::ScanInput] and [UU::Handler] of
      UniversalUpdater.cpp.  The object's members, the echo server's and
      the download's globals and the SD card are the record [UU]; one
      iteration of the main loop
      is [frame], a run of frames [run], and [reachable] the states the
      loop reaches (an inductive step relation).

    ** What the theorems show

    - The buffer: [handle_data] refines an append-only byte list
      ([handle_data_accepts]); for every allocator it never hangs or
      faults within [2^31] bytes ([handle_data_safe]); the doubling loop
      computes the least power-of-two capacity ([grow_computes_min_cap])
      and [handle_data] never allocates more than that
      ([handle_data_capacity_least]); the loop stops exactly when at most
      [2^31] bytes are needed ([grow_stops_iff]); beyond that it spins for
      ever ([handle_data_hangs]).
    - The download: a successful transfer writes exactly the body
      ([downloadToFile_writes_body]); every exit frees and resets the
      globals ([downloadToFile_exit]); each error branch (transfer error,
      too many redirects, unopenable destination) returns what the code
      returns; [downloadToFile] returns within [2^31] bytes and, with
      working allocations, hangs beyond ([downloadToFile_returns]); how
      libcurl splits the body into chunks does not change the buffer
      ([deliver_chunking_equiv]); the debug [printf("==%s==")] of the
      buffer reads past the body whenever it holds no NUL, and past the
      block when the body fills it exactly, and gets NULL when no body
      came ([downloadToFile_print_reads]).
    - The echo server: its setup ([appwifi_echoserver_spec]), the echo
      round trip ([appwifi_echoserver_tick_echoes]) and the block on a
      silent client ([appwifi_echoserver_tick_blocks]).
    - The menu: the invariant [menu_wf] is kept by every frame of
      [SettingsHandle], with the functional behaviour of each page's keys;
      the drawing reads no array out of range in a well-formed state with
      one theme, always shows the language cursor, and reads [ThemeNames]
      out of range with more than one theme.
    - The application: the loop invariant by induction on [reachable]
      ([reachable_loop_inv]), the download frame, the stall it enters for
      good ([download_stalls_forever]),
      START, the NitroFS fallback chain of [Initialize] and the IP byte
      order.  Composed with the echo server and the downloader: the loop
      hangs only on a client that connects and stays silent
      ([run_hangs_only_on_silent_client]), and every [fcntl] and [accept]
      of every frame uses the socket [appwifi_echoserver] bound during
      [Initialize] ([Handler_serves_bound_socket]).  The touch scaling of
      [UU::ScanInput] and the views of [UU::SwitchTopMode], which the loop
      no longer calls, are proved as well.

    ** Bounds and fuel

    [size_t] is 32 bits on the console, so [Result_Size <<= 1] is
    multiplication by 2 modulo [2^32] ([shl1]).  The doubling loop is
    modelled with fuel [GROW_FUEL = 33]: from a power of two [2^k] the loop
    either stops within [32 - k] iterations or reaches [0] and never stops,
    and [Buffer.grow_fuel_enough] proves that 33 iterations decide which.
    The echo loop runs with fuel one more than the bytes the client sends
    ([EchoServer.peer_fuel]): each [recv] that returns data consumes at
    least one byte, and [echo_loop_ok] / [echo_loop_silent] show the fuel
    never runs out.  The main loop is not run with fuel: [run] follows a
    given finite sequence of frames and [reachable] any number of them.

    ** Undefined behaviour

    [Fault] is the out-of-bounds write the code can make: the [memcpy] of
    [handle_data] past its block, which would corrupt the heap the rest
    of the program uses.  The out-of-bounds read of line 119
    ([printf("==%s==")] of a buffer without NUL) is not a [Fault]: it
    changes no state, and on the console's ARM9, which does not protect
    the heap's neighbourhood, it does not trap.  What it reads is recorded
    as an event ([Download.print_read]) and [downloadToFile_print_reads]
    states exactly when it leaves the body and when it leaves the block;
    the theorems in which [downloadToFile] returns [Ok] include that read.

    ** Not modelled

    The graphics, font and sprite libraries, the UniStore catalog classes
    ([UniStore], [TopGrid], [TopList], [Tabs]), [Lang], [Overlays] and the
    configuration's file format are not in the excerpt: their calls are
    recorded as events and their answers come from the environment.
    libcurl's transport (DNS, TLS, HTTP) is not modelled beyond the
    outcome of a transfer, and the configuration, overlays, prompts and
    loaders beyond the answers they give: their code is not in the
    excerpt, so those two components stay partly modelled.  The
    [close] and [iprintf] on the failure paths of [appwifi_echoserver]
    are not recorded: the function then spins for ever ([Hang]), which
    is what the theorems distinguish.  Text sizes and fonts of the
    drawing calls, and partial [send]s, are not modelled.  What remains
    of the three files outside the map is the licence, the includes, the
    comments and the [extern] declarations of settings.cpp (lines 34-35,
    whose variables are the [exiting] field of [Settings.Menu] and the
    [QueueRuns] answer of [Settings.Env]): every function of the excerpt
    is modelled, and the parts still listed as not or partly modelled
    have no code in it. *)

From stdpp Require Export base list gmap strings.
From Stdlib Require Export ZArith Lia.

Declare Scope uu_scope.
Delimit Scope uu_scope with uu.

(** Bytes, as the [char] buffers of the C code hold them. *)
Abbreviation byte := Byte.byte.

#[export] Instance byte_eq_dec : EqDecision byte := Byte.byte_eq_dec.

(** ** Results of C code *)

(** A C function either returns, runs forever ([Hang]: a [while] loop whose
    condition never becomes false), or has undefined behaviour ([Fault]: a
    [memcpy] past the end of an allocation). *)
Inductive res (A : Type) : Type :=
| Ok (a : A)
| Hang
| Fault.
Arguments Ok {A} a.
Arguments Hang {A}.
Arguments Fault {A}.

#[export] Instance res_ret : MRet res := @Ok.
#[export] Instance res_bind : MBind res := fun A B f r =>
  match r with
  | Ok a => f a
  | Hang => Hang
  | Fault => Fault
  end.
#[export] Instance res_fmap : FMap res := fun A B f r =>
  match r with
  | Ok a => Ok (f a)
  | Hang => Hang
  | Fault => Fault
  end.

(** ** [size_t] arithmetic: 32 bits on the ARM9 *)

Open Scope Z_scope.

Definition SIZE_T_BITS : Z := 32.
Definition SIZE_MOD : Z := 2 ^ SIZE_T_BITS.

(** The value an unsigned [size_t] expression takes: its value modulo [2^32]. *)
Definition wrap (z : Z) : Z := z mod SIZE_MOD.

(** [x <<= 1] on a [size_t]. *)
Definition shl1 (z : Z) : Z := wrap (Z.shiftl z 1).

Lemma res_bind_Ok {A B} (a : A) (f : A -> res B) : (Ok a ≫= f) = f a.
Proof. reflexivity. Qed.

Lemma res_bind_Ok_inv {A B} (r : res A) (f : A -> res B) (b : B) :
  (r ≫= f) = Ok b -> exists a, r = Ok a /\ f a = Ok b.
Proof. destruct r; simpl; intros H; [eauto | discriminate | discriminate]. Qed.

Lemma SIZE_MOD_eq : SIZE_MOD = 4294967296.
Proof. reflexivity. Qed.

Lemma wrap_small z : 0 <= z < SIZE_MOD -> wrap z = z.
Proof. intros H. unfold wrap. apply Z.mod_small. exact H. Qed.

Lemma wrap_range z : 0 <= wrap z < SIZE_MOD.
Proof. unfold wrap. apply Z.mod_pos_bound. reflexivity. Qed.

Lemma shl1_double z : 0 <= z -> shl1 z = wrap (2 * z).
Proof.
  intros Hz. unfold shl1. rewrite Z.shiftl_mul_pow2 by lia.
  f_equal. lia.
Qed.

(** Doubling a power of two below [2^31] is exact ... *)
Lemma shl1_pow2 k : 0 <= k < 31 -> shl1 (2 ^ k) = 2 ^ (k + 1).
Proof.
  intros Hk. rewrite shl1_double by lia.
  rewrite Z.pow_add_r, Z.pow_1_r, Z.mul_comm by lia.
  apply wrap_small. rewrite SIZE_MOD_eq.
  assert (2 ^ k <= 2 ^ 30) by (apply Z.pow_le_mono_r; lia).
  assert (0 < 2 ^ k) by lia. lia.
Qed.

(** ... and doubling [2^31] overflows to [0], which doubling keeps at [0]. *)
Lemma shl1_top : shl1 (2 ^ 31) = 0.
Proof. reflexivity. Qed.

Lemma shl1_0 : shl1 0 = 0.
Proof. reflexivity. Qed.

(** A value below [2^n] has no bit set at [n] or above. *)
Lemma testbit_small x n i : 0 <= x < 2 ^ n -> 0 <= n <= i -> Z.testbit x i = false.
Proof.
  intros Hx Hi. apply Z.testbit_false; [lia |]. rewrite Z.div_small; [reflexivity |].
  split; [lia |]. apply Z.lt_le_trans with (2 ^ n); [lia | apply Z.pow_le_mono_r; lia].
Qed.

(** ** Tactics and hints shared by the components *)

Create HintDb uu.
Create Rewrite HintDb uu_rw.
#[export] Hint Rewrite shl1_top shl1_0 : uu_rw.
#[export] Hint Resolve wrap_range : uu.

(** Case analysis on the boolean comparisons the C conditions become. *)
Ltac case_cmp :=
  repeat match goal with
  | |- context [Z.ltb ?a ?b] => destruct (Z.ltb_spec a b)
  | |- context [Z.leb ?a ?b] => destruct (Z.leb_spec a b)
  | |- context [Z.eqb ?a ?b] => destruct (Z.eqb_spec a b)
  end.

(** Closing arithmetic side goals after case analysis. *)
Ltac cmp_lia := case_cmp; try lia.
