(* ===== verification/Buffer.v ===== *)
(** * The growable download buffer of Downloading.cpp

    The three globals [ResultBuf], [Result_Size] and [Result_Written] as the
    record [DlState], the C heap as the interface class [Heap], the doubling
    loop of [handle_data] as [grow] (with fuel), and [handle_data] itself.
    The theorems give the closed form of the capacity ([min_cap]), the
    termination and divergence of the loop, the invariant [buf_inv] kept by
    every accepted chunk, and the refinement of the buffer by an append-only
    list of bytes. *)

From S2P Require Import Prelude.

Module Buffer.
Open Scope Z_scope.

(** ** Data *)

(** A block returned by [malloc]/[realloc]: its size and the bytes written
    into it so far (the initialised prefix). *)
Record block := Block { blk_cap : Z; blk_data : list byte }.

(** [static char *ResultBuf = nullptr; static size_t Result_Size = 0;
     static size_t Result_Written = 0;] *)
Record DlState := MkDlState {
  ResultBuf : option block;
  Result_Size : Z;
  Result_Written : Z
}.

(** The globals at program start, and after
    [free(ResultBuf); ResultBuf = NULL; Result_Size = 0; Result_Written = 0;]. *)
Definition dl_reset : DlState := MkDlState None 0 0.

(** The calls the callback makes to the C heap, in order. *)
Inductive heap_call :=
| Malloc (n : Z)
| Realloc (n : Z).

(** ** The C heap: which requests succeed *)

(** What the downloader needs of the allocator: whether a request for [n]
    bytes succeeds.  [malloc] and [realloc] return [NULL] exactly when it
    does not. *)
Class Heap := { alloc_ok : Z -> bool }.

(** An allocator that never fails, to run concrete transfers. *)
#[export] Instance heap_unbounded : Heap := {| alloc_ok := fun _ => true |}.

Section WithHeap.
Context `{Heap}.

(** [malloc(n)]: a fresh block with nothing written. *)
Definition malloc (n : Z) : option block :=
  if alloc_ok n then Some (Block n []) else None.

(** [realloc(p, n)]: a block of [n] bytes keeping the first [n] bytes of
    [p]; [realloc(NULL, n)] is [malloc(n)].  On failure the old block is
    left as it was, which the caller keeps in [ResultBuf]. *)
Definition realloc (p : option block) (n : Z) : option block :=
  if alloc_ok n then
    Some (Block n (match p with
                   | Some b => take (Z.to_nat n) (blk_data b)
                   | None => []
                   end))
  else None.

(** ** The doubling loop

    [while (Result_Written + Bsz > Result_Size) { Result_Size <<= 1;
     need_realloc = true; }] with [need = Result_Written + Bsz] (a
    [size_t] sum, so wrapped).  [None] means the fuel ran out. *)
Fixpoint grow (fuel : nat) (need size : Z) (need_realloc : bool) : option (Z * bool) :=
  match fuel with
  | O => None
  | S fuel' =>
      if size <? need then grow fuel' need (shl1 size) true
      else Some (size, need_realloc)
  end.

(** Enough iterations to decide whether the loop stops ([grow_fuel_enough]). *)
Definition GROW_FUEL : nat := 33.

(** The [memcpy(ResultBuf + Result_Written, Ptr, Bsz);
     Result_Written += Bsz; return Bsz;] tail of the callback, after the
    [if (!ResultBuf) return 0;] guard.  Writing past the block is
    undefined behaviour. *)
Definition copy_chunk (Ptr : list byte) (Bsz : Z) (s : DlState) : res (Z * DlState) :=
  match ResultBuf s with
  | None => Ok (0, s)
  | Some b =>
      if blk_cap b <? Result_Written s + Bsz then Fault
      else Ok (Bsz, MkDlState (Some (Block (blk_cap b) (blk_data b ++ take (Z.to_nat Bsz) Ptr)))
                              (Result_Size s) (wrap (Result_Written s + Bsz)))
  end.

(** [if (Result_Size == 0 || !ResultBuf) { Result_Size = 0x1000;
     ResultBuf = (char* )malloc(Result_Size); }] *)
Definition ensure_buffer (s : DlState) : DlState * list heap_call :=
  if (Result_Size s =? 0) || bool_decide (ResultBuf s = None)
  then (MkDlState (malloc 4096) 4096 (Result_Written s), [Malloc 4096])
  else (s, []).

(** Lines 52-73 of the callback, after the buffer exists: the doubling
    loop, then [if (need_realloc) { char *NewBuf = (char* )realloc(ResultBuf,
    Result_Size); if (!NewBuf) return 0; ResultBuf = NewBuf; }], then the
    copy.  [log1] is the list of heap calls made so far. *)
Definition fit_and_copy (Ptr : list byte) (Bsz : Z) (s1 : DlState) (log1 : list heap_call)
  : res (Z * DlState * list heap_call) :=
  match grow GROW_FUEL (wrap (Result_Written s1 + Bsz)) (Result_Size s1) false with
  | None => Hang
  | Some (size', need_realloc) =>
      if need_realloc then
        match realloc (ResultBuf s1) size' with
        | None => Ok (0, MkDlState (ResultBuf s1) size' (Result_Written s1),
                      log1 ++ [Realloc size'])
        | Some nb =>
            '(r, s3) ← copy_chunk Ptr Bsz (MkDlState (Some nb) size' (Result_Written s1));
            Ok (r, s3, log1 ++ [Realloc size'])
        end
      else
        '(r, s3) ← copy_chunk Ptr Bsz (MkDlState (ResultBuf s1) size' (Result_Written s1));
        Ok (r, s3, log1)
  end.

(** [static size_t handle_data(char *Ptr, size_t Size, size_t NMemb,
    void *UserData)]: the value returned to libcurl, the new globals and
    the heap calls made, in order.  [const size_t Bsz = Size * NMemb;] is a
    [size_t] product. *)
Definition handle_data (Ptr : list byte) (Size NMemb : Z) (s : DlState)
  : res (Z * DlState * list heap_call) :=
  let Bsz := wrap (Size * NMemb) in
  let '(s1, log1) := ensure_buffer s in
  fit_and_copy Ptr Bsz s1 log1.

End WithHeap.

(** ** Reference definitions *)

(** The capacity the buffer should have after [n] bytes: the least
    power-of-two multiple of 4096 that is at least [n]. *)
Definition min_cap (n : Z) : Z :=
  if n <=? 4096 then 4096 else 2 ^ Z.log2_up n.

(** The globals after the bytes [d] have been accepted: a block of the
    least admissible capacity holding [d]. *)
Definition acc_state (d : list byte) : DlState :=
  let n := Z.of_nat (length d) in
  MkDlState (Some (Block (min_cap n) d)) (min_cap n) n.

(** What the buffer holds, as a byte list. *)
Definition contents (s : DlState) : list byte :=
  match ResultBuf s with
  | Some b => blk_data b
  | None => []
  end.

(** The invariant of the globals between two accepted chunks: either no
    buffer and nothing written, or a block whose size is [Result_Size],
    holding exactly [Result_Written] bytes, with [Result_Size] the least
    admissible capacity for them, at most [2^31]. *)
Definition buf_inv (s : DlState) : Prop :=
  match ResultBuf s with
  | None => Result_Written s = 0
  | Some b =>
      blk_cap b = Result_Size s /\
      Z.of_nat (length (blk_data b)) = Result_Written s /\
      Result_Size s = min_cap (Result_Written s) /\
      Result_Written s <= 2 ^ 31
  end.

(** One step of the abstract accumulator: the globals [s'] hold the bytes
    of [s] followed by [Ptr], satisfy the invariant, and count the bytes. *)
Definition accepted (s : DlState) (Ptr : list byte) (s' : DlState) : Prop :=
  buf_inv s' /\ contents s' = contents s ++ Ptr /\
  Result_Written s' = Result_Written s + Z.of_nat (length Ptr).

(** Concrete inputs for the witnesses: two bytes, and an allocator that
    refuses more than one page of 4096 bytes. *)
Definition two_bytes : list byte := [Byte.x41; Byte.x42].
Definition one_page_heap : Heap := {| alloc_ok := fun n => n <=? 4096 |}.

(** Values the doubling loop can give [Result_Size]: [0] or [2^k]. *)
Definition pow2_or_0 (z : Z) : Prop := z = 0 \/ exists k, 0 <= k <= 31 /\ z = 2 ^ k.

(** ** The doubling loop: one iteration *)

Lemma grow_stop fuel need size b :
  need <= size -> grow (S fuel) need size b = Some (size, b).
Proof. intros H. simpl. case_cmp; [lia | reflexivity]. Qed.

Lemma grow_step fuel need size b :
  size < need -> grow (S fuel) need size b = grow fuel need (shl1 size) true.
Proof. intros H. simpl. case_cmp; [reflexivity | lia]. Qed.

(** ** Facts on [log2_up] and [min_cap] *)

Lemma log2_up_between k n :
  0 <= k -> 2 ^ k < n <= 2 ^ (k + 1) -> Z.log2_up n = k + 1.
Proof.
  intros Hk Hn. apply Z.log2_up_unique; [lia |].
  replace (Z.pred (k + 1)) with k by lia. exact Hn.
Qed.

Lemma log2_up_le n b : 0 <= b -> n <= 2 ^ b -> Z.log2_up n <= b.
Proof.
  intros Hb Hn. destruct (Z.leb_spec n 0) as [H0 | H0].
  - rewrite Z.log2_up_nonpos by exact H0. exact Hb.
  - apply Z.log2_up_le_pow2; lia.
Qed.

Lemma log2_up_gt n b : 0 <= b -> 2 ^ b < n -> b < Z.log2_up n.
Proof.
  intros Hb Hn. assert (0 < 2 ^ b) by lia.
  destruct (Z.ltb_spec b (Z.log2_up n)) as [|Hle]; [assumption |].
  apply (Z.log2_up_le_pow2 n b) in Hle; lia.
Qed.

Lemma min_cap_pow2 n : min_cap n = 2 ^ Z.max 12 (Z.log2_up n).
Proof.
  unfold min_cap. destruct (Z.leb_spec n 4096) as [H | H].
  - rewrite Z.max_l; [reflexivity |]. apply (log2_up_le n 12); lia.
  - rewrite Z.max_r; [reflexivity |].
    pose proof (log2_up_gt n 12 ltac:(lia) ltac:(simpl; lia)). lia.
Qed.

Lemma min_cap_exp_range n : n <= 2 ^ 31 -> 12 <= Z.max 12 (Z.log2_up n) <= 31.
Proof. intros H. pose proof (log2_up_le n 31 ltac:(lia) H). lia. Qed.

Lemma min_cap_ge n : n <= min_cap n.
Proof.
  unfold min_cap. destruct (Z.leb_spec n 4096); [lia |].
  apply Z.log2_up_le_pow2; lia.
Qed.

Lemma min_cap_le_pow2 n k : 12 <= k -> n <= 2 ^ k -> min_cap n <= 2 ^ k.
Proof.
  intros Hk Hn. rewrite min_cap_pow2. apply Z.pow_le_mono_r; [lia |].
  pose proof (log2_up_le n k ltac:(lia) Hn). lia.
Qed.

Lemma pow2_or_0_le z : pow2_or_0 z -> 0 <= z <= 2 ^ 31.
Proof.
  intros [-> | (k & Hk & ->)]; [lia |].
  split; [lia | apply Z.pow_le_mono_r; lia].
Qed.

Lemma pow2_or_0_shl1 z : pow2_or_0 z -> pow2_or_0 (shl1 z).
Proof.
  intros [-> | (k & Hk & ->)]; [left; reflexivity |].
  destruct (Z.eqb_spec k 31) as [-> | Hne].
  - left. reflexivity.
  - right. exists (k + 1). split; [lia | apply shl1_pow2; lia].
Qed.

(** ** The doubling loop: closed form, termination, divergence *)

(** From a power of two, with enough fuel, the loop stops at the least
    power of two that is at least [need], when [need <= 2^31]. *)
Lemma grow_pow2 fuel k need b :
  0 <= k <= 31 -> 0 <= need <= 2 ^ 31 -> 32 - k <= Z.of_nat fuel ->
  grow fuel need (2 ^ k) b =
    Some (if need <=? 2 ^ k then 2 ^ k else 2 ^ Z.log2_up need, b || (2 ^ k <? need)).
Proof.
  revert k b. induction fuel as [|fuel IH]; intros k b Hk Hn Hf; [lia |].
  destruct (Z.leb_spec need (2 ^ k)) as [Hle | Hlt].
  - rewrite grow_stop by lia.
    replace (2 ^ k <? need) with false by (symmetry; apply Z.ltb_ge; lia).
    rewrite orb_false_r. reflexivity.
  - assert (k < 31).
    { destruct (Z.ltb_spec k 31) as [|Hk31]; [assumption |].
      assert (2 ^ 31 <= 2 ^ k) by (apply Z.pow_le_mono_r; lia). lia. }
    rewrite grow_step, shl1_pow2 by lia.
    rewrite (IH (k + 1)) by lia.
    replace (2 ^ k <? need) with true by (symmetry; apply Z.ltb_lt; lia).
    rewrite orb_true_r. simpl.
    destruct (Z.leb_spec need (2 ^ (k + 1))); [| reflexivity].
    rewrite (log2_up_between k need) by lia. reflexivity.
Qed.


(** Once the needed size exceeds [2^31], doubling reaches [2^31], wraps to
    [0] and stays there: no amount of fuel makes the loop stop. *)
Lemma grow_none fuel need size b :
  pow2_or_0 size -> 2 ^ 31 < need -> grow fuel need size b = None.
Proof.
  revert size b. induction fuel as [|fuel IH]; intros size b Hs Hn; [reflexivity |].
  pose proof (pow2_or_0_le size Hs).
  rewrite grow_step by lia. apply IH; [apply pow2_or_0_shl1 |]; assumption.
Qed.

(** From the capacity kept for [W] bytes the loop reaches the capacity for
    [need >= W] bytes, and asks for a [realloc] exactly when it grew. *)
Lemma grow_min_cap W need b :
  0 <= W <= need -> need <= 2 ^ 31 ->
  grow GROW_FUEL need (min_cap W) b = Some (min_cap need, b || (min_cap W <? need)).
Proof.
  intros HW Hn. rewrite (min_cap_pow2 W).
  pose proof (min_cap_exp_range W ltac:(lia)).
  rewrite grow_pow2 by (unfold GROW_FUEL; lia). do 2 f_equal.
  rewrite min_cap_pow2.
  pose proof (Z.log2_up_le_mono W need ltac:(lia)).
  destruct (Z.leb_spec need (2 ^ Z.max 12 (Z.log2_up W))) as [Hle | Hlt].
  - pose proof (log2_up_le need (Z.max 12 (Z.log2_up W)) ltac:(lia) Hle).
    f_equal. lia.
  - assert (2 ^ 12 <= 2 ^ Z.max 12 (Z.log2_up W)) by (apply Z.pow_le_mono_r; lia).
    assert (2 ^ 12 < need) by lia.
    pose proof (log2_up_gt need 12 ltac:(lia) ltac:(assumption)).
    f_equal. lia.
Qed.


Lemma min_cap_ge_4096 n : 4096 <= min_cap n.
Proof.
  rewrite min_cap_pow2. change 4096 with (2 ^ 12).
  apply Z.pow_le_mono_r; lia.
Qed.

Lemma min_cap_mono m n : m <= n -> min_cap m <= min_cap n.
Proof.
  intros H. rewrite !min_cap_pow2. apply Z.pow_le_mono_r; [lia |].
  pose proof (Z.log2_up_le_mono m n H). lia.
Qed.

(** A capacity that already fits [n] bytes is the capacity for [n]. *)
Lemma min_cap_stable W n : W <= n -> n <= min_cap W -> min_cap n = min_cap W.
Proof.
  intros H1 H2. pose proof (min_cap_mono W n H1).
  assert (min_cap n <= min_cap W); [| lia].
  rewrite (min_cap_pow2 W). apply min_cap_le_pow2; [lia |].
  rewrite <- min_cap_pow2. exact H2.
Qed.

(** ** States of the buffer *)

Lemma acc_state_app d Ptr :
  acc_state (d ++ Ptr) =
    MkDlState (Some (Block (min_cap (Z.of_nat (length d) + Z.of_nat (length Ptr))) (d ++ Ptr)))
              (min_cap (Z.of_nat (length d) + Z.of_nat (length Ptr)))
              (Z.of_nat (length d) + Z.of_nat (length Ptr)).
Proof. unfold acc_state. rewrite length_app, Nat2Z.inj_add. reflexivity. Qed.

Lemma acc_state_inv d : Z.of_nat (length d) <= 2 ^ 31 -> buf_inv (acc_state d).
Proof. intros H. unfold buf_inv, acc_state. simpl. auto. Qed.

Lemma buf_inv_acc_state s b :
  ResultBuf s = Some b -> buf_inv s -> s = acc_state (blk_data b).
Proof.
  destruct s as [p S W], b as [c d]. simpl. intros -> (Hc & Hl & HS & _).
  simpl in *. subst. reflexivity.
Qed.

Lemma buf_inv_written s : buf_inv s -> 0 <= Result_Written s <= 2 ^ 31.
Proof. unfold buf_inv. destruct (ResultBuf s); lia. Qed.

Lemma contents_length s : buf_inv s -> Z.of_nat (length (contents s)) = Result_Written s.
Proof. unfold buf_inv, contents. destruct (ResultBuf s); [tauto | intros ->; reflexivity]. Qed.

Lemma contents_acc_state d : contents (acc_state d) = d.
Proof. reflexivity. Qed.

Lemma accepted_acc d Ptr :
  Z.of_nat (length d) + Z.of_nat (length Ptr) <= 2 ^ 31 ->
  accepted (acc_state d) Ptr (acc_state (d ++ Ptr)).
Proof.
  intros H. split; [apply acc_state_inv; rewrite length_app; lia |].
  split; [reflexivity |]. cbn. rewrite length_app. lia.
Qed.

Lemma accepted_null S Ptr :
  Z.of_nat (length Ptr) <= 2 ^ 31 -> accepted (MkDlState None S 0) Ptr (acc_state Ptr).
Proof. intros H. split; [apply acc_state_inv; lia | split; reflexivity]. Qed.

#[local] Hint Resolve acc_state_inv : uu.

(** ** The callback, block by block *)

Section CallbackLemmas.
Context `{Heap}.

Lemma ensure_buffer_acc d : ensure_buffer (acc_state d) = (acc_state d, []).
Proof.
  unfold ensure_buffer, acc_state. simpl.
  pose proof (min_cap_ge_4096 (Z.of_nat (length d))).
  case_cmp; [lia | reflexivity].
Qed.

Lemma ensure_buffer_null S W :
  ensure_buffer (MkDlState None S W) = (MkDlState (malloc 4096) 4096 W, [Malloc 4096]).
Proof.
  unfold ensure_buffer. simpl. rewrite orb_true_r. reflexivity.
Qed.

Lemma copy_chunk_fits c d Ptr S :
  Z.of_nat (length d) + Z.of_nat (length Ptr) <= c ->
  Z.of_nat (length d) + Z.of_nat (length Ptr) < SIZE_MOD ->
  copy_chunk Ptr (Z.of_nat (length Ptr)) (MkDlState (Some (Block c d)) S (Z.of_nat (length d))) =
    Ok (Z.of_nat (length Ptr),
        MkDlState (Some (Block c (d ++ Ptr))) S (Z.of_nat (length d) + Z.of_nat (length Ptr))).
Proof.
  intros Hc Hm. unfold copy_chunk. simpl. case_cmp; [lia |].
  rewrite Nat2Z.id, firstn_all, wrap_small by lia. reflexivity.
Qed.

(** The body after the buffer exists, from the state that holds [d]. *)
Lemma fit_and_copy_acc d Ptr log1 :
  Z.of_nat (length d) + Z.of_nat (length Ptr) <= 2 ^ 31 ->
  let n := Z.of_nat (length d) + Z.of_nat (length Ptr) in
  fit_and_copy Ptr (Z.of_nat (length Ptr)) (acc_state d) log1 =
    if min_cap (Z.of_nat (length d)) <? n then
      if alloc_ok (min_cap n) then Ok (Z.of_nat (length Ptr), acc_state (d ++ Ptr), log1 ++ [Realloc (min_cap n)])
      else Ok (0, MkDlState (Some (Block (min_cap (Z.of_nat (length d))) d)) (min_cap n) (Z.of_nat (length d)),
               log1 ++ [Realloc (min_cap n)])
    else Ok (Z.of_nat (length Ptr), acc_state (d ++ Ptr), log1).
Proof.
  intros Hb n. unfold n; clear n.
  unfold fit_and_copy, acc_state. cbn [Result_Written Result_Size ResultBuf].
  rewrite length_app, Nat2Z.inj_add.
  set (ld := Z.of_nat (length d)) in *. set (lP := Z.of_nat (length Ptr)) in *.
  rewrite (wrap_small (ld + lP)) by (rewrite SIZE_MOD_eq; lia).
  rewrite grow_min_cap by lia. cbn [orb].
  pose proof (min_cap_ge (ld + lP)).
  destruct (Z.ltb_spec (min_cap ld) (ld + lP)) as [Hlt | Hge].
  - unfold realloc. destruct (alloc_ok (min_cap (ld + lP))); [| reflexivity].
    rewrite take_ge by (cbn [blk_data]; unfold ld, lP in *; lia). cbn [blk_data].
    rewrite copy_chunk_fits by (rewrite ?SIZE_MOD_eq; unfold ld, lP in *; lia).
    reflexivity.
  - pose proof (min_cap_stable ld (ld + lP) ltac:(lia) Hge) as Hst.
    cbn [ResultBuf].
    rewrite copy_chunk_fits by (rewrite ?SIZE_MOD_eq; unfold ld, lP in *; lia).
    rewrite Hst. reflexivity.
Qed.

(** The body when [malloc] failed at entry: [realloc(NULL, n)] may still
    succeed when the chunk needs more than 4096 bytes. *)
Lemma fit_and_copy_null Ptr log1 :
  Z.of_nat (length Ptr) <= 2 ^ 31 ->
  let m := min_cap (Z.of_nat (length Ptr)) in
  fit_and_copy Ptr (Z.of_nat (length Ptr)) (MkDlState None 4096 0) log1 =
    if 4096 <? Z.of_nat (length Ptr) then
      if alloc_ok m then Ok (Z.of_nat (length Ptr), acc_state Ptr, log1 ++ [Realloc m])
      else Ok (0, MkDlState None m 0, log1 ++ [Realloc m])
    else Ok (0, MkDlState None 4096 0, log1).
Proof.
  intros Hb m. unfold m; clear m.
  unfold fit_and_copy. cbn [Result_Written Result_Size ResultBuf].
  set (lP := Z.of_nat (length Ptr)) in *.
  rewrite Z.add_0_l, (wrap_small lP) by (rewrite SIZE_MOD_eq; lia).
  change 4096 with (min_cap 0) at 1. rewrite grow_min_cap by lia. cbn [orb].
  change (min_cap 0) with 4096.
  pose proof (min_cap_ge lP).
  destruct (Z.ltb_spec 4096 lP).
  2: { replace (min_cap lP) with 4096 by (unfold min_cap; case_cmp; lia). reflexivity. }
  unfold realloc. destruct (alloc_ok (min_cap lP)); [| reflexivity].
  pose proof (copy_chunk_fits (min_cap lP) [] Ptr (min_cap lP)) as Hc.
  change (Z.of_nat (length (@nil byte))) with 0 in Hc. cbn [app] in Hc.
  fold lP in Hc. rewrite Z.add_0_l in Hc.
  rewrite Hc by (rewrite ?SIZE_MOD_eq; unfold lP in *; lia). reflexivity.
Qed.

(** The buffer that [ensure_buffer] leaves is a power of two. *)
Lemma ensure_buffer_pow2 s :
  buf_inv s -> pow2_or_0 (Result_Size (fst (ensure_buffer s))) /\
               Result_Written (fst (ensure_buffer s)) = Result_Written s.
Proof.
  destruct s as [[b |] S W]; intros Hinv.
  - pose proof Hinv as (_ & Hl & _ & HW). cbn in Hl, HW.
    pose proof (min_cap_exp_range (Z.of_nat (length (blk_data b))) ltac:(lia)).
    rewrite (buf_inv_acc_state (MkDlState (Some b) S W) b eq_refl Hinv), ensure_buffer_acc.
    cbn. split; [| reflexivity]. right. rewrite min_cap_pow2.
    eexists; split; [| reflexivity]. lia.
  - rewrite ensure_buffer_null. split; [right; exists 12; split; [lia | reflexivity] | reflexivity].
Qed.

End CallbackLemmas.

(** ** Properties of the doubling loop *)

Lemma grow_fuel_mono fuel extra need size b r :
  grow fuel need size b = Some r -> grow (fuel + extra) need size b = Some r.
Proof.
  revert size b. induction fuel as [|fuel IH]; intros size b H; [discriminate |].
  simpl in *. destruct (size <? need); [apply IH |]; exact H.
Qed.

(** A loop started from a power of two that stops needed at most [2^31]
    bytes. *)
Lemma grow_some_bound fuel k need b r :
  0 <= k <= 31 -> grow fuel need (2 ^ k) b = Some r -> need <= 2 ^ 31.
Proof.
  intros Hk Hr. destruct (Z.leb_spec need (2 ^ 31)) as [| Hgt]; [assumption |].
  rewrite grow_none in Hr; [discriminate | right; eauto | exact Hgt].
Qed.

(** C7. The doubling loop started from a nonzero power of two [2^k] stops
    (for some number of iterations) if and only if the bytes needed,
    [Result_Written + Bsz], are at most [2^31]. *)
Theorem grow_stops_iff k need b :
  0 <= k <= 31 -> 0 <= need ->
  (exists fuel r, grow fuel need (2 ^ k) b = Some r) <-> need <= 2 ^ 31.
Proof.
  intros Hk Hn. split.
  - intros (fuel & r & Hr). exact (grow_some_bound fuel k need b r Hk Hr).
  - intros Hle. exists GROW_FUEL. eexists. apply grow_pow2; unfold GROW_FUEL; lia.
Qed.

(** The fuel [GROW_FUEL] is enough: whenever the loop stops, it stops
    within [GROW_FUEL] iterations with the same result. *)
Lemma grow_fuel_enough fuel k need b r :
  0 <= k <= 31 -> 0 <= need ->
  grow fuel need (2 ^ k) b = Some r -> grow GROW_FUEL need (2 ^ k) b = Some r.
Proof.
  intros Hk Hn Hr.
  pose proof (grow_some_bound fuel k need b r Hk Hr).
  pose proof (grow_fuel_mono fuel GROW_FUEL need (2 ^ k) b r Hr) as H1.
  assert (Hg : grow GROW_FUEL need (2 ^ k) b =
               Some (if need <=? 2 ^ k then 2 ^ k else 2 ^ Z.log2_up need, b || (2 ^ k <? need)))
    by (apply grow_pow2; unfold GROW_FUEL; lia).
  pose proof (grow_fuel_mono GROW_FUEL fuel need (2 ^ k) b _ Hg) as H2.
  rewrite Nat.add_comm, H1 in H2. rewrite Hg. symmetry. exact H2.
Qed.

(** C6. Equivalence of the doubling loop with the closed form: from the
    capacity [min_cap W] kept for [W] bytes, the loop of [handle_data]
    reaches [min_cap need], the least power-of-two multiple of 4096 that is
    at least [need], and asks for a [realloc] exactly when the capacity
    grew. *)
Theorem grow_computes_min_cap W need :
  0 <= W <= need -> need <= 2 ^ 31 ->
  grow GROW_FUEL need (min_cap W) false = Some (min_cap need, min_cap W <? need).
Proof. intros H1 H2. apply grow_min_cap; assumption. Qed.

(** [min_cap n] is the least power-of-two multiple of 4096 that holds
    [n] bytes, and stays at most [2^31]. *)
Lemma min_cap_least n :
  0 <= n <= 2 ^ 31 ->
  n <= min_cap n /\ (exists k, 12 <= k <= 31 /\ min_cap n = 2 ^ k) /\
  (forall k, 12 <= k -> n <= 2 ^ k -> min_cap n <= 2 ^ k).
Proof.
  intros Hn. split; [apply min_cap_ge |]. split.
  - exists (Z.max 12 (Z.log2_up n)). split; [apply min_cap_exp_range; lia | apply min_cap_pow2].
  - apply min_cap_le_pow2.
Qed.

(** ** Properties of the callback *)

Section CallbackTheorems.
Context `{Heap}.

(** Closes a branch of [handle_data_safe]: the chunk was accepted, or an
    allocation recorded in a hypothesis failed on a non-empty chunk. *)
Local Ltac case_lt :=
  match goal with |- context [?a <? ?b] => destruct (Z.ltb_spec a b) end.

Local Ltac safe_case :=
  do 3 eexists; split; [reflexivity |];
  first [ left; split; [reflexivity |];
          first [ apply accepted_acc | apply accepted_null ]; cbn in *; lia
        | right; split; [reflexivity |]; split; [cbn in *; lia | eexists; eassumption] ].

(** With every allocation working, a chunk within [2^31] bytes is appended. *)
Lemma handle_data_acc Ptr s :
  (forall n, alloc_ok n = true) -> buf_inv s ->
  Result_Written s + Z.of_nat (length Ptr) <= 2 ^ 31 ->
  exists log, handle_data Ptr 1 (Z.of_nat (length Ptr)) s =
              Ok (Z.of_nat (length Ptr), acc_state (contents s ++ Ptr), log).
Proof.
  intros Hok Hinv Hb. pose proof (buf_inv_written s Hinv). unfold handle_data.
  rewrite Z.mul_1_l, wrap_small by (rewrite SIZE_MOD_eq; lia).
  destruct s as [[b |] S W].
  - rewrite (buf_inv_acc_state (MkDlState (Some b) S W) b eq_refl Hinv) in *. rewrite ensure_buffer_acc.
    rewrite fit_and_copy_acc by exact Hb. rewrite Hok.
    destruct (_ <? _); eexists; reflexivity.
  - cbn in Hinv, Hb. subst W. rewrite ensure_buffer_null. unfold malloc. rewrite Hok.
    change (MkDlState (Some (Block 4096 [])) 4096 0) with (acc_state []).
    rewrite fit_and_copy_acc by (cbn; lia). rewrite Hok.
    destruct (_ <? _); eexists; reflexivity.
Qed.

(** C2. Functional behaviour and refinement: when every allocation
    succeeds and the total stays within [2^31] bytes, [handle_data] accepts
    the whole chunk (returns its length), the buffer holds what it held
    followed by the chunk, and the globals are those of [acc_state]:
    capacity [min_cap] of the bytes written. *)
Theorem handle_data_accepts Ptr s :
  (forall n, alloc_ok n = true) -> buf_inv s ->
  Result_Written s + Z.of_nat (length Ptr) <= 2 ^ 31 ->
  exists log, handle_data Ptr 1 (Z.of_nat (length Ptr)) s =
              Ok (Z.of_nat (length Ptr), acc_state (contents s ++ Ptr), log).
Proof. exact (handle_data_acc Ptr s). Qed.

(** Every chunk within [2^31] bytes is either accepted, extending the
    buffer, or refused with 0 after a failed allocation. *)
Lemma handle_data_total Ptr s :
  buf_inv s -> Result_Written s + Z.of_nat (length Ptr) <= 2 ^ 31 ->
  exists r s' log,
    handle_data Ptr 1 (Z.of_nat (length Ptr)) s = Ok (r, s', log) /\
    ((r = Z.of_nat (length Ptr) /\ accepted s Ptr s') \/
     (r = 0 /\ 0 < Z.of_nat (length Ptr) /\ exists n, alloc_ok n = false)).
Proof.
  intros Hinv Hb. pose proof (buf_inv_written s Hinv). unfold handle_data.
  rewrite Z.mul_1_l, wrap_small by (rewrite SIZE_MOD_eq; lia).
  destruct s as [[b |] S W].
  - pose proof (min_cap_ge (Z.of_nat (length (blk_data b)))).
    rewrite (buf_inv_acc_state (MkDlState (Some b) S W) b eq_refl Hinv) in *.
    rewrite ensure_buffer_acc, fit_and_copy_acc by exact Hb.
    case_lt; [destruct (alloc_ok (min_cap _)) eqn:E |]; safe_case.
  - cbn in Hinv, Hb. subst W. rewrite ensure_buffer_null. unfold malloc.
    destruct (alloc_ok 4096) eqn:E4.
    + change (MkDlState (Some (Block 4096 [])) 4096 0) with (acc_state []).
      rewrite fit_and_copy_acc by (cbn; lia).
      change (min_cap (Z.of_nat (length (@nil byte)))) with 4096.
      case_lt; [destruct (alloc_ok (min_cap _)) eqn:E |]; safe_case.
    + rewrite fit_and_copy_null by lia.
      case_lt; [destruct (alloc_ok (min_cap _)) eqn:E |]; [safe_case | safe_case |].
      destruct (Z.eqb_spec (Z.of_nat (length Ptr)) 0) as [Hz | Hz]; [| safe_case].
      destruct Ptr; [| discriminate]. do 3 eexists. split; [reflexivity |].
      left. split; [reflexivity |]. split; [reflexivity | split; reflexivity].
Qed.

(** Past [2^31] bytes without wrap, the doubling loop never stops. *)
Lemma handle_data_overflow Ptr Size NMemb s :
  buf_inv s ->
  2 ^ 31 < Result_Written s + wrap (Size * NMemb) < SIZE_MOD ->
  handle_data Ptr Size NMemb s = Hang.
Proof.
  intros Hinv Hb. unfold handle_data.
  destruct (ensure_buffer_pow2 s Hinv) as [Hp Hw].
  destruct (ensure_buffer s) as [s1 log1]. cbn in Hp, Hw.
  unfold fit_and_copy. rewrite Hw, wrap_small by lia.
  rewrite grow_none by (assumption || lia). reflexivity.
Qed.

(** C3. Safety for every allocator: within [2^31] bytes, [handle_data]
    neither hangs nor writes past its block; it either accepts the chunk,
    with the buffer extended by it, or returns 0 because an allocation
    failed. *)
Theorem handle_data_safe Ptr s :
  buf_inv s -> Result_Written s + Z.of_nat (length Ptr) <= 2 ^ 31 ->
  exists r s' log,
    handle_data Ptr 1 (Z.of_nat (length Ptr)) s = Ok (r, s', log) /\
    ((r = Z.of_nat (length Ptr) /\ accepted s Ptr s') \/
     (r = 0 /\ 0 < Z.of_nat (length Ptr) /\ exists n, alloc_ok n = false)).
Proof. exact (handle_data_total Ptr s). Qed.

(** C8. Non-termination: once [Result_Written + Bsz] exceeds [2^31] (and
    does not wrap), the doubling loop overflows [Result_Size] to 0 and
    [handle_data] never returns, whatever the allocator.  Only the size
    [Bsz = Size * NMemb] matters, not the bytes at [Ptr]. *)
Theorem handle_data_hangs Ptr Size NMemb s :
  buf_inv s ->
  2 ^ 31 < Result_Written s + wrap (Size * NMemb) < SIZE_MOD ->
  handle_data Ptr Size NMemb s = Hang.
Proof. exact (handle_data_overflow Ptr Size NMemb s). Qed.

(** C13. [handle_data] never over-allocates: whatever the allocator, a
    call that takes a non-empty chunk leaves [Result_Size] the least
    power-of-two multiple of 4096 that holds the [Result_Written] bytes,
    and at most [2^31]. *)
Theorem handle_data_capacity_least Ptr s r s' log :
  buf_inv s -> Result_Written s + Z.of_nat (length Ptr) <= 2 ^ 31 -> 0 < Z.of_nat (length Ptr) ->
  handle_data Ptr 1 (Z.of_nat (length Ptr)) s = Ok (r, s', log) -> r = Z.of_nat (length Ptr) ->
  Result_Written s' = Result_Written s + Z.of_nat (length Ptr) /\
  Result_Written s' <= Result_Size s' /\
  (exists k, 12 <= k <= 31 /\ Result_Size s' = 2 ^ k) /\
  (forall k, 12 <= k -> Result_Written s' <= 2 ^ k -> Result_Size s' <= 2 ^ k).
Proof.
  intros Hinv Hb Hne Hd Hr. pose proof (buf_inv_written s Hinv).
  destruct (handle_data_total Ptr s Hinv Hb) as (r0 & s0 & l0 & Hd0 & Hc).
  rewrite Hd in Hd0. simplify_eq.
  destruct Hc as [[_ (Hi & _ & Hw)] | (? & ? & _)]; [| lia].
  unfold buf_inv in Hi. destruct (ResultBuf s0); [| lia].
  destruct Hi as (_ & _ & -> & _). split; [exact Hw |]. apply min_cap_least. lia.
Qed.

End CallbackTheorems.

(** ** Witnesses *)

Lemma handle_data_accepts_witness :
  (forall n, @alloc_ok heap_unbounded n = true) /\ buf_inv dl_reset /\
  Result_Written dl_reset + Z.of_nat (length two_bytes) <= 2 ^ 31 /\
  exists log, @handle_data heap_unbounded two_bytes 1 (Z.of_nat (length two_bytes)) dl_reset =
              Ok (Z.of_nat (length two_bytes), acc_state (contents dl_reset ++ two_bytes), log).
Proof.
  split; [intros; reflexivity |]. split; [reflexivity |]. split; [simpl; lia |].
  apply (@handle_data_accepts heap_unbounded two_bytes dl_reset);
    [intros; reflexivity | reflexivity | simpl; lia].
Defined.

Lemma handle_data_safe_witness :
  buf_inv (acc_state two_bytes) /\
  Result_Written (acc_state two_bytes) + Z.of_nat (length two_bytes) <= 2 ^ 31 /\
  exists r s' log,
    @handle_data one_page_heap two_bytes 1 (Z.of_nat (length two_bytes)) (acc_state two_bytes) = Ok (r, s', log) /\
    ((r = Z.of_nat (length two_bytes) /\ accepted (acc_state two_bytes) two_bytes s') \/
     (r = 0 /\ 0 < Z.of_nat (length two_bytes) /\ exists n, @alloc_ok one_page_heap n = false)).
Proof.
  split; [vm_compute; repeat split; discriminate |]. split; [simpl; lia |].
  apply (@handle_data_safe one_page_heap); [vm_compute; repeat split; discriminate | simpl; lia].
Defined.

Lemma handle_data_hangs_witness :
  buf_inv dl_reset /\ 2 ^ 31 < Result_Written dl_reset + wrap (1 * (2 ^ 31 + 1)) < SIZE_MOD /\
  @handle_data one_page_heap [] 1 (2 ^ 31 + 1) dl_reset = Hang.
Proof.
  split; [reflexivity |]. split; [vm_compute; split; reflexivity |].
  apply (@handle_data_hangs one_page_heap); [reflexivity | vm_compute; split; reflexivity].
Defined.

Lemma handle_data_capacity_least_witness :
  exists s' log,
    @handle_data heap_unbounded two_bytes 1 (Z.of_nat (length two_bytes)) (acc_state two_bytes) =
      Ok (Z.of_nat (length two_bytes), s', log) /\
    Result_Written s' = Result_Written (acc_state two_bytes) + Z.of_nat (length two_bytes) /\
    Result_Written s' <= Result_Size s' /\
    (exists k, 12 <= k <= 31 /\ Result_Size s' = 2 ^ k) /\
    (forall k, 12 <= k -> Result_Written s' <= 2 ^ k -> Result_Size s' <= 2 ^ k).
Proof.
  pose (res0 := @handle_data heap_unbounded two_bytes 1 (Z.of_nat (length two_bytes)) (acc_state two_bytes)).
  pose (s' := match res0 with Ok (_, s', _) => s' | _ => dl_reset end).
  pose (log := match res0 with Ok (_, _, l) => l | _ => [] end).
  assert (E : res0 = Ok (Z.of_nat (length two_bytes), s', log)) by (vm_compute; reflexivity).
  exists s', log. split; [exact E |].
  apply (@handle_data_capacity_least heap_unbounded two_bytes (acc_state two_bytes)
           (Z.of_nat (length two_bytes)) s' log);
    [vm_compute; repeat split; discriminate | cbn; lia | cbn; lia | exact E | reflexivity].
Defined.

Lemma grow_computes_min_cap_witness :
  0 <= 100 <= 10000 /\ 10000 <= 2 ^ 31 /\
  grow GROW_FUEL 10000 (min_cap 100) false = Some (min_cap 10000, min_cap 100 <? 10000).
Proof. split; [lia |]. split; [lia |]. apply grow_computes_min_cap; lia. Defined.

Lemma grow_stops_iff_witness :
  0 <= 12 <= 31 /\ 0 <= 5000 /\
  ((exists fuel r, grow fuel 5000 (2 ^ 12) false = Some r) <-> 5000 <= 2 ^ 31).
Proof. split; [lia |]. split; [lia |]. apply grow_stops_iff; lia. Defined.

End Buffer.
