(* ===== verification/Curl.v ===== *)
(** * The part of libcurl the downloader relies on

    libcurl is a library the downloader calls, not code of this
    repository: it is modelled from its documented contract.  The options
    a handle carries ([CurlOpts], set one at a time by [curl_easy_setopt]),
    what the server sends for one transfer ([Transfer]), the write
    callback as the interface class [WriteCallback] (the downloader's
    [handle_data] is its instance in [Download]), and
    [curl_easy_perform]: it hands the body to the callback chunk by chunk,
    stops with [CURLE_WRITE_ERROR] as soon as the callback returns less
    than the chunk's length, and otherwise ends with the transfer's own
    result. *)

From S2P Require Import Prelude.

Module Curl.
Open Scope Z_scope.

(** ** Result codes *)

Inductive CURLcode :=
| CURLE_OK
| CURLE_WRITE_ERROR                 (* the write callback took fewer bytes *)
| CURLE_TOO_MANY_REDIRECTS          (* more redirects than CURLOPT_MAXREDIRS *)
| CURLE_NETWORK (code : Z).         (* DNS, TLS, connection or HTTP/2 errors *)

#[export] Instance CURLcode_eq_dec : EqDecision CURLcode.
Proof. solve_decision. Defined.

(** ** Options of an easy handle *)

Record CurlOpts := MkCurlOpts {
  opt_buffersize : Z;
  opt_url : string;
  opt_noprogress : Z;
  opt_useragent : string;
  opt_followlocation : Z;
  opt_maxredirs : Z;
  opt_http_version : Z;
  opt_ssl_verifypeer : Z;
  opt_verbose : Z
}.

(** [CURL_HTTP_VERSION_2TLS] of curl.h. *)
Definition CURL_HTTP_VERSION_2TLS : Z := 4.

(** The options of a handle fresh from [curl_easy_init()]: curl's
    documented defaults. *)
Definition curl_easy_init : CurlOpts :=
  MkCurlOpts 16384 "" 1 "" 0 (-1) 0 1 0.

(** The options [setupContext] sets, with their values; the write function
    and the stderr stream are not data of the model. *)
Inductive CURLoption :=
| CURLOPT_BUFFERSIZE (v : Z)
| CURLOPT_URL (v : string)
| CURLOPT_NOPROGRESS (v : Z)
| CURLOPT_USERAGENT (v : string)
| CURLOPT_FOLLOWLOCATION (v : Z)
| CURLOPT_MAXREDIRS (v : Z)
| CURLOPT_HTTP_VERSION (v : Z)
| CURLOPT_WRITEFUNCTION
| CURLOPT_SSL_VERIFYPEER (v : Z)
| CURLOPT_VERBOSE (v : Z)
| CURLOPT_STDERR.

(** [curl_easy_setopt(Hnd, option, value)] *)
Definition curl_easy_setopt (o : CurlOpts) (opt : CURLoption) : CurlOpts :=
  let '(MkCurlOpts bs url np ua fl mr hv vp vb) := o in
  match opt with
  | CURLOPT_BUFFERSIZE v => MkCurlOpts v url np ua fl mr hv vp vb
  | CURLOPT_URL v => MkCurlOpts bs v np ua fl mr hv vp vb
  | CURLOPT_NOPROGRESS v => MkCurlOpts bs url v ua fl mr hv vp vb
  | CURLOPT_USERAGENT v => MkCurlOpts bs url np v fl mr hv vp vb
  | CURLOPT_FOLLOWLOCATION v => MkCurlOpts bs url np ua v mr hv vp vb
  | CURLOPT_MAXREDIRS v => MkCurlOpts bs url np ua fl v hv vp vb
  | CURLOPT_HTTP_VERSION v => MkCurlOpts bs url np ua fl mr v vp vb
  | CURLOPT_SSL_VERIFYPEER v => MkCurlOpts bs url np ua fl mr hv v vb
  | CURLOPT_VERBOSE v => MkCurlOpts bs url np ua fl mr hv vp v
  | CURLOPT_WRITEFUNCTION | CURLOPT_STDERR => o
  end.

(** ** One transfer, as the network delivers it *)

(** The number of redirects the server answers with before the final
    response, the chunks of the final body in the order libcurl receives
    them, and how the transfer ends once the body is delivered
    ([CURLE_OK], or a network error that may follow a partial body). *)
Record Transfer := MkTransfer {
  xfer_redirects : Z;
  xfer_body : list (list byte);
  xfer_result : CURLcode
}.

(** ** The write callback: the interface between libcurl and its client *)

(** [size_t write(char *ptr, size_t size, size_t nmemb, void *userdata)]
    over the client's state [Σ], with the client's trace of events [E].
    libcurl calls it with [size = 1] and [nmemb] the chunk's length. *)
Class WriteCallback (Σ E : Type) :=
  write_data : list byte -> Z -> Z -> Σ -> res (Z * Σ * list E).

Section Perform.
Context {Σ E : Type} `{WriteCallback Σ E}.

(** Hands the chunks to the callback in order; [false] when the callback
    took fewer bytes than a chunk had, after which nothing more is
    delivered. *)
Fixpoint deliver (chunks : list (list byte)) (s : Σ) : res (bool * Σ * list E) :=
  match chunks with
  | [] => Ok (true, s, [])
  | c :: cs =>
      '(r, s1, l1) ← write_data c 1 (Z.of_nat (length c)) s;
      if r =? Z.of_nat (length c) then
        '(ok, s2, l2) ← deliver cs s1;
        Ok (ok, s2, l1 ++ l2)
      else Ok (false, s1, l1)
  end.

(** The code the transfer ends with once the body has been delivered. *)
Definition perform_result (t : Transfer) (r : bool * Σ * list E) : CURLcode * Σ * list E :=
  let '(ok, s1, l) := r in (if ok then xfer_result t else CURLE_WRITE_ERROR, s1, l).

(** [curl_easy_perform(Hnd)]: too many redirects end the transfer before
    any body; otherwise the body goes to the callback, and a short write
    ends the transfer with [CURLE_WRITE_ERROR]. *)
Definition curl_easy_perform (o : CurlOpts) (t : Transfer) (s : Σ)
  : res (CURLcode * Σ * list E) :=
  if (negb (opt_followlocation o =? 0)) && (0 <=? opt_maxredirs o)
     && (opt_maxredirs o <? xfer_redirects t)
  then Ok (CURLE_TOO_MANY_REDIRECTS, s, [])
  else
    perform_result t <$> deliver (xfer_body t) s.

End Perform.

(** ** Lemmas on delivery, against the interface *)

Section PerformLemmas.
Context {Σ E : Type} `{WriteCallback Σ E}.

Lemma deliver_accept c cs s s1 l1 :
  write_data c 1 (Z.of_nat (length c)) s = Ok (Z.of_nat (length c), s1, l1) ->
  deliver (c :: cs) s = (λ '(ok, s2, l2), (ok, s2, l1 ++ l2)) <$> deliver cs s1.
Proof.
  intros Hw. cbn. rewrite Hw. cbn. rewrite Z.eqb_refl.
  destruct (deliver cs s1) as [[[ok s2] l2] | |]; reflexivity.
Qed.

Lemma deliver_reject c cs s r s1 l1 :
  write_data c 1 (Z.of_nat (length c)) s = Ok (r, s1, l1) -> r <> Z.of_nat (length c) ->
  deliver (c :: cs) s = Ok (false, s1, l1).
Proof.
  intros Hw Hr. cbn. rewrite Hw. cbn.
  destruct (Z.eqb_spec r (Z.of_nat (length c))); [contradiction | reflexivity].
Qed.

(** Within the redirect limit, the result is decided by the delivery. *)
Lemma curl_easy_perform_body o t s :
  opt_followlocation o <> 0 -> 0 <= opt_maxredirs o -> xfer_redirects t <= opt_maxredirs o ->
  curl_easy_perform o t s = perform_result t <$> deliver (xfer_body t) s.
Proof.
  intros Hf Hm Hr. unfold curl_easy_perform.
  destruct (Z.eqb_spec (opt_followlocation o) 0); [contradiction |].
  case_cmp; try lia. reflexivity.
Qed.

Lemma curl_easy_perform_redirects o t s :
  opt_followlocation o <> 0 -> 0 <= opt_maxredirs o -> opt_maxredirs o < xfer_redirects t ->
  curl_easy_perform o t s = Ok (CURLE_TOO_MANY_REDIRECTS, s, []).
Proof.
  intros Hf Hm Hr. unfold curl_easy_perform.
  destruct (Z.eqb_spec (opt_followlocation o) 0); [contradiction |].
  case_cmp; try lia. reflexivity.
Qed.

End PerformLemmas.

End Curl.
