(* ===== verification/Download.v ===== *)
(** * [setupContext] and [downloadToFile] of Downloading.cpp

    The download operation over the buffer of [Buffer], the libcurl model
    of [Curl] (with [handle_data] as the write callback instance) and a
    file system: a [gmap] from paths to contents, with the interface class
    [Storage] saying which paths [fopen(path, "wb")] can open.  The
    theorems follow every exit of [downloadToFile]: success writes exactly
    the bytes received, a failed transfer returns -1 and touches no file,
    an unopenable destination silently drops the download, every exit
    frees the buffer and resets the globals, and the debug print of the
    buffer ([print_buffer]: what [%s] reads up to the first NUL) reads
    past the body unless it holds a NUL. *)

From S2P Require Import Prelude Buffer Curl.

Module Download.
Import Buffer Curl.
Open Scope Z_scope.

(** ** Data *)

(** [handle_data] is the write callback libcurl calls. *)
#[export] Instance handle_data_cb `{Heap} : WriteCallback DlState heap_call := handle_data.

(** [#define USER_AGENT "Universal-Updater-v4.0.0"] *)
Definition USER_AGENT : string := "Universal-Updater-v4.0.0".

(** What [printf("==%s==\n", (char* )ResultBuf)] reads of the buffer:
    [%s] reads from [ResultBuf] up to the first NUL byte. *)
Inductive print_read :=
| PrintNull                  (* ResultBuf == NULL *)
| PrintStr (s : list byte)   (* the bytes before the first NUL the body holds *)
| PrintUninit                (* no NUL written: the read goes on into bytes never written *)
| PrintPastBlock.            (* no NUL and the block is full: the read leaves the block *)

(** What [downloadToFile] does that is visible outside its globals, in
    order. *)
Inductive dl_event :=
| EvHeap (c : heap_call)             (* malloc/realloc in handle_data *)
| EvPrint (msg : string)             (* printf of a fixed message *)
| EvPrintBuffer (r : print_read)     (* printf("==%s==\n", (char* )ResultBuf) *)
| EvVBlank                           (* swiWaitForVBlank() *)
| EvFOpen (path : string)            (* fopen(Path.c_str(), "wb") *)
| EvFWrite (path : string) (n : Z)   (* fwrite(ResultBuf, 1, n, In) *)
| EvFClose (path : string)           (* fclose(In) *)
| EvFree.                            (* free(ResultBuf) *)

(** The file system, and which destinations can be opened for writing. *)
Abbreviation files := (gmap string (list byte)).
Class Storage := { fopen_ok : string -> bool }.

(** ** Operations *)

(** Line 119: the bytes [%s] reads of the block [ResultBuf] points to.
    The block holds the bytes written so far ([blk_data]) and then
    [blk_cap] minus that many bytes [malloc]/[realloc] left unset. *)
Definition print_buffer (s : DlState) : print_read :=
  match ResultBuf s with
  | None => PrintNull
  | Some b =>
      match list_find (λ x, x = Byte.x00) (blk_data b) with
      | Some (i, _) => PrintStr (take i (blk_data b))
      | None => if Z.of_nat (length (blk_data b)) <? blk_cap b then PrintUninit else PrintPastBlock
      end
  end.

(** [static int setupContext(CURL *Hnd, const char *url)]: the options it
    sets, in order, and its return value (always 0). *)
Definition setupContext (Hnd : CurlOpts) (url : string) : CurlOpts * Z :=
  (fold_left curl_easy_setopt
     [CURLOPT_BUFFERSIZE 102400; CURLOPT_URL url; CURLOPT_NOPROGRESS 1;
      CURLOPT_USERAGENT USER_AGENT; CURLOPT_FOLLOWLOCATION 1; CURLOPT_MAXREDIRS 50;
      CURLOPT_HTTP_VERSION CURL_HTTP_VERSION_2TLS; CURLOPT_WRITEFUNCTION;
      CURLOPT_SSL_VERIFYPEER 0; CURLOPT_VERBOSE 1; CURLOPT_STDERR] Hnd, 0).

(** [int downloadToFile(const std::string &URL, const std::string &Path)]
    for the transfer [t] the network performs, from the globals [s] and
    the files [fs]: the return value, the globals, the files and the
    events.  Every exit runs [free(ResultBuf); ResultBuf = NULL;
    Result_Size = 0; Result_Written = 0;]. *)
Definition downloadToFile `{Heap} `{Storage} (URL Path : string) (t : Transfer)
    (s : DlState) (fs : files) : res (Z * DlState * files * list dl_event) :=
  let '(Hnd, Ret) := setupContext curl_easy_init URL in
  if negb (Ret =? 0) then Ok (Ret, dl_reset, fs, [EvFree])
  else
    '(CRes, s1, hl) ← curl_easy_perform Hnd t s;
    let ev := map EvHeap hl in
    if bool_decide (CRes = CURLE_OK) then
      if fopen_ok Path then
        Ok (0, dl_reset,
            <[Path := take (Z.to_nat (Result_Written s1)) (contents s1)]> fs,
            ev ++ [EvFOpen Path; EvPrintBuffer (print_buffer s1)] ++ repeat EvVBlank 60 ++
            [EvFWrite Path (Result_Written s1); EvFClose Path; EvFree])
      else Ok (0, dl_reset, fs, ev ++ [EvFOpen Path; EvFree])
    else Ok (-1, dl_reset, fs, ev ++ [EvPrint "Error in: curl"; EvFree]).

(** ** Reference definitions *)

(** The number of body bytes of a transfer. *)
Definition body_size (t : Transfer) : Z := Z.of_nat (length (concat (xfer_body t))).

(** ** Concrete transfers for the examples *)

(** The download the main loop starts ([UU::Handler]), an SD card that
    opens only its destination, and a card that opens nothing. *)
Definition hi_url : string := "https://home.pk11.us/files/hi.txt".
Definition hi_path : string := "sd:/hi.txt".
Definition sd_card : Storage := {| fopen_ok := fun p => String.eqb p hi_path |}.
Definition no_card : Storage := {| fopen_ok := fun _ => false |}.

(** A body of 10,000 bytes in chunks of 4000, 4000 and 2000. *)
Definition hi_transfer : Transfer :=
  MkTransfer 1 [repeat Byte.x41 4000; repeat Byte.x42 4000; repeat Byte.x43 2000] CURLE_OK.
(** The same server failing after the first chunk, and a redirect loop. *)
Definition reset_transfer : Transfer := MkTransfer 0 [repeat Byte.x41 100] (CURLE_NETWORK 56).
Definition loop_transfer : Transfer := MkTransfer 51 [] CURLE_OK.
(** A body of [3 * 2^30] bytes in three chunks of [2^30]: more than the
    32-bit buffer can hold.  Only reasoned about, never built. *)
Definition giant_transfer : Transfer :=
  MkTransfer 0 (repeat (repeat Byte.x61 (Z.to_nat (2 ^ 30))) 3) CURLE_OK.
(** A body of 4096 bytes without NUL, in chunks of 4000 and 96: it fills
    the first block exactly. *)
Definition page_transfer : Transfer :=
  MkTransfer 0 [repeat Byte.x61 4000; repeat Byte.x61 96] CURLE_OK.

(** ** Lemmas *)

Lemma setupContext_opts Hnd url :
  setupContext Hnd url =
    (MkCurlOpts 102400 url 1 USER_AGENT 1 50 CURL_HTTP_VERSION_2TLS 0 1, 0).
Proof. destruct Hnd. reflexivity. Qed.

Lemma accepted_nil s : buf_inv s -> accepted s [] s.
Proof. intros H. split; [exact H |]. rewrite app_nil_r. split; [reflexivity | cbn; lia]. Qed.

Lemma accepted_trans s a s1 b s2 :
  accepted s a s1 -> accepted s1 b s2 -> accepted s (a ++ b) s2.
Proof.
  intros (_ & Hc1 & Hw1) (Hi2 & Hc2 & Hw2). split; [exact Hi2 |].
  rewrite Hc2, Hc1, app_assoc, Hw2, Hw1, length_app. split; [reflexivity | lia].
Qed.

(** fwrite writes the whole buffer: under the invariant the buffer holds
    exactly [Result_Written] bytes. *)
Lemma buf_inv_take s : buf_inv s -> take (Z.to_nat (Result_Written s)) (contents s) = contents s.
Proof.
  unfold buf_inv, contents. destruct (ResultBuf s) as [b |]; [| intros _; apply take_nil].
  intros (_ & Hl & _). apply take_ge. lia.
Qed.

(** [%s] stops at the first NUL of the body. *)
Lemma list_find_first_nul pre post :
  Byte.x00 ∉ pre ->
  list_find (λ x, x = Byte.x00) (pre ++ Byte.x00 :: post) = Some (length pre, Byte.x00).
Proof.
  intros Hn. apply list_find_Some. split; [| split; [reflexivity |]].
  - rewrite lookup_app_r, Nat.sub_diag by lia. reflexivity.
  - intros j y Hj Hlt ->. apply Hn. rewrite lookup_app_l in Hj by exact Hlt.
    exact (list_elem_of_lookup_2 _ _ _ Hj).
Qed.

Lemma list_find_no_nul d :
  Byte.x00 ∉ d -> list_find (λ x, x = Byte.x00) d = None.
Proof.
  intros Hn. apply list_find_None, Forall_forall. intros x Hx ->. exact (Hn Hx).
Qed.

Section WithHeap.
Context `{Heap}.

(** Delivering a body: either every chunk is accepted and the buffer holds
    the whole body, or an allocation failed.  Never a hang or a fault
    within [2^31] bytes. *)
Lemma deliver_safe cs s :
  buf_inv s -> Result_Written s + Z.of_nat (length (concat cs)) <= 2 ^ 31 ->
  exists ok s' log, deliver cs s = Ok (ok, s', log) /\
    (ok = true -> accepted s (concat cs) s') /\
    (ok = false -> exists n, alloc_ok n = false).
Proof.
  revert s. induction cs as [| c cs IH]; intros s Hinv Hb.
  - exists true, s, []. split; [reflexivity |]. split; [intros _; apply accepted_nil; exact Hinv | discriminate].
  - cbn [concat] in Hb. rewrite length_app in Hb.
    destruct (handle_data_total c s Hinv ltac:(lia)) as (r & s1 & l1 & Hd & [[-> Hacc] | (-> & Hpos & Hfail)]).
    + pose proof Hacc as (Hi1 & _ & Hw1).
      destruct (IH s1 Hi1 ltac:(lia)) as (ok & s2 & l2 & Hd2 & Hok & Hko).
      rewrite (@deliver_accept _ _ handle_data_cb c cs s s1 l1 Hd), Hd2.
      exists ok, s2, (l1 ++ l2). split; [reflexivity |]. split; [| exact Hko].
      intros Ht. exact (accepted_trans _ _ _ _ _ Hacc (Hok Ht)).
    + rewrite (@deliver_reject _ _ handle_data_cb c cs s 0 s1 l1 Hd) by lia.
      exists false, s1, l1. split; [reflexivity |]. split; [discriminate | intros _; exact Hfail].
Qed.

(** With every allocation working, a non-empty list of chunks within
    [2^31] bytes is accepted whole and leaves the globals of [acc_state]. *)
Lemma deliver_acc cs s :
  (forall n, alloc_ok n = true) -> buf_inv s -> cs <> [] ->
  Result_Written s + Z.of_nat (length (concat cs)) <= 2 ^ 31 ->
  exists log, deliver cs s = Ok (true, acc_state (contents s ++ concat cs), log).
Proof.
  intros Hok. revert s. induction cs as [| c cs IH]; intros s Hinv Hne Hb; [congruence |].
  cbn [concat] in Hb. rewrite length_app in Hb. pose proof (contents_length s Hinv) as Hl.
  destruct (handle_data_acc c s Hok Hinv ltac:(lia)) as [l1 Hd].
  rewrite (@deliver_accept _ _ handle_data_cb c cs s _ l1 Hd).
  destruct cs as [| c' cs'].
  - cbn. rewrite !app_nil_r. eexists. reflexivity.
  - assert (Hi1 : buf_inv (acc_state (contents s ++ c)))
      by (apply acc_state_inv; rewrite length_app; lia).
    destruct (IH _ Hi1 ltac:(discriminate)) as [l2 H2].
    { cbn [Result_Written acc_state]. cbn [concat] in *. rewrite !length_app in *. lia. }
    rewrite contents_acc_state, <- app_assoc in H2. rewrite H2. eexists. reflexivity.
Qed.

(** With every allocation working, a delivery whose chunks each stay
    below [2^31] bytes hangs in the doubling loop of the chunk that takes
    the total past [2^31]. *)
Lemma deliver_overflow cs s :
  (forall n, alloc_ok n = true) -> buf_inv s ->
  Forall (λ c, Z.of_nat (length c) < 2 ^ 31) cs ->
  2 ^ 31 < Result_Written s + Z.of_nat (length (concat cs)) ->
  deliver cs s = Hang.
Proof.
  intros Hok. revert s. induction cs as [| c cs IH]; intros s Hinv Hc Hb;
    pose proof (buf_inv_written s Hinv); [cbn in Hb; lia |].
  apply Forall_cons in Hc as [Hc Hcs]. cbn [concat] in Hb. rewrite length_app in Hb.
  pose proof (contents_length s Hinv).
  destruct (Z.le_gt_cases (Result_Written s + Z.of_nat (length c)) (2 ^ 31)) as [Hle | Hgt].
  - destruct (handle_data_acc c s Hok Hinv Hle) as [l1 Hd].
    rewrite (@deliver_accept _ _ handle_data_cb c cs s _ l1 Hd).
    rewrite IH; [reflexivity | apply acc_state_inv; rewrite length_app; lia | exact Hcs |].
    cbn [Result_Written acc_state]. rewrite length_app. lia.
  - cbn [deliver]. unfold write_data, handle_data_cb.
    rewrite (handle_data_overflow c 1 (Z.of_nat (length c)) s Hinv); [reflexivity |].
    rewrite Z.mul_1_l, wrap_small; rewrite SIZE_MOD_eq; lia.
Qed.

(** After libcurl: what [downloadToFile] does with the delivery's
    outcome. *)
Lemma downloadToFile_after `{Storage} URL Path t s fs ok s1 hl :
  xfer_redirects t <= 50 -> deliver (xfer_body t) s = Ok (ok, s1, hl) ->
  downloadToFile URL Path t s fs =
    if bool_decide ((if ok then xfer_result t else CURLE_WRITE_ERROR) = CURLE_OK) then
      if fopen_ok Path then
        Ok (0, dl_reset,
            <[Path := take (Z.to_nat (Result_Written s1)) (contents s1)]> fs,
            map EvHeap hl ++ [EvFOpen Path; EvPrintBuffer (print_buffer s1)] ++ repeat EvVBlank 60 ++
            [EvFWrite Path (Result_Written s1); EvFClose Path; EvFree])
      else Ok (0, dl_reset, fs, map EvHeap hl ++ [EvFOpen Path; EvFree])
    else Ok (-1, dl_reset, fs, map EvHeap hl ++ [EvPrint "Error in: curl"; EvFree]).
Proof.
  intros Hr Hd. unfold downloadToFile. rewrite setupContext_opts.
  change (negb (0 =? 0)) with false. cbv iota beta.
  rewrite curl_easy_perform_body by (cbn; lia). rewrite Hd. reflexivity.
Qed.

(** Beyond [2^31] bytes, in chunks below [2^31], [downloadToFile] hangs. *)
Lemma downloadToFile_overflow `{Storage} URL Path t fs :
  (forall n, alloc_ok n = true) -> xfer_redirects t <= 50 ->
  Forall (λ c, Z.of_nat (length c) < 2 ^ 31) (xfer_body t) -> 2 ^ 31 < body_size t ->
  downloadToFile URL Path t dl_reset fs = Hang.
Proof.
  intros Hok Hr Hc Hb. unfold body_size in Hb. unfold downloadToFile. rewrite setupContext_opts.
  change (negb (0 =? 0)) with false. cbv iota beta.
  rewrite curl_easy_perform_body by (cbn; lia).
  rewrite (deliver_overflow (xfer_body t) dl_reset Hok eq_refl Hc) by (cbn; lia).
  reflexivity.
Qed.

(** A download that succeeds with every allocation writes the whole body. *)
Lemma downloadToFile_success `{Storage} URL Path t fs :
  (forall n, alloc_ok n = true) -> fopen_ok Path = true ->
  xfer_redirects t <= 50 -> xfer_result t = CURLE_OK -> body_size t <= 2 ^ 31 ->
  exists ev, downloadToFile URL Path t dl_reset fs =
             Ok (0, dl_reset, <[Path := concat (xfer_body t)]> fs, ev).
Proof.
  intros Hok Hopen Hr Hres Hb. unfold body_size in Hb.
  destruct (deliver_safe (xfer_body t) dl_reset eq_refl ltac:(cbn; lia))
    as ([] & s1 & hl & Hd & Hacc & Hfail).
  - destruct (Hacc eq_refl) as (Hi & Hc & _).
    rewrite (downloadToFile_after URL Path t dl_reset fs true s1 hl Hr Hd), Hres.
    rewrite bool_decide_true by reflexivity. rewrite Hopen, buf_inv_take, Hc by exact Hi.
    eexists. reflexivity.
  - destruct (Hfail eq_refl) as [n Hn]. rewrite Hok in Hn. discriminate.
Qed.

(** C1. Functional correctness of a successful download: when every
    allocation succeeds, the destination opens, the server redirects at
    most 50 times, the transfer ends with [CURLE_OK] and the body is at
    most [2^31] bytes, [downloadToFile] returns 0, the destination holds
    exactly the bytes of the body, in order, and the globals are reset. *)
Theorem downloadToFile_writes_body `{Storage} URL Path t fs :
  (forall n, alloc_ok n = true) -> fopen_ok Path = true ->
  xfer_redirects t <= 50 -> xfer_result t = CURLE_OK -> body_size t <= 2 ^ 31 ->
  exists ev, downloadToFile URL Path t dl_reset fs =
             Ok (0, dl_reset, <[Path := concat (xfer_body t)]> fs, ev).
Proof. exact (downloadToFile_success URL Path t fs). Qed.

(** C9. A transfer that fails ([curl_easy_perform] does not return
    [CURLE_OK]) makes [downloadToFile] return -1 and leave every file as it
    was, whatever the allocator does; the globals are reset. *)
Theorem downloadToFile_transfer_error `{Storage} URL Path t fs :
  xfer_redirects t <= 50 -> xfer_result t <> CURLE_OK -> body_size t <= 2 ^ 31 ->
  exists ev, downloadToFile URL Path t dl_reset fs = Ok (-1, dl_reset, fs, ev).
Proof.
  intros Hr Hres Hb. unfold body_size in Hb.
  destruct (deliver_safe (xfer_body t) dl_reset eq_refl ltac:(cbn; lia))
    as (ok & s1 & hl & Hd & _ & _).
  rewrite (downloadToFile_after URL Path t dl_reset fs ok s1 hl Hr Hd).
  rewrite bool_decide_false by (destruct ok; [exact Hres | discriminate]).
  eexists. reflexivity.
Qed.

(** Beyond the redirect limit no body reaches the callback. *)
Lemma downloadToFile_redirected `{Storage} URL Path t s fs :
  50 < xfer_redirects t ->
  downloadToFile URL Path t s fs = Ok (-1, dl_reset, fs, [EvPrint "Error in: curl"; EvFree]).
Proof.
  intros Hr. unfold downloadToFile. rewrite setupContext_opts.
  change (negb (0 =? 0)) with false. cbv iota beta.
  rewrite curl_easy_perform_redirects by (cbn; lia). reflexivity.
Qed.

(** C11. More than 50 redirects: [CURLOPT_MAXREDIRS] stops the transfer
    before any body is received, and [downloadToFile] returns -1 without
    touching a file or the heap. *)
Theorem downloadToFile_too_many_redirects `{Storage} URL Path t s fs :
  50 < xfer_redirects t ->
  downloadToFile URL Path t s fs = Ok (-1, dl_reset, fs, [EvPrint "Error in: curl"; EvFree]).
Proof. exact (downloadToFile_redirected URL Path t s fs). Qed.

(** C10. The destination cannot be opened: the code still returns 0,
    writes no file, and drops the downloaded bytes (the spec flags this as
    a likely defect). *)
Theorem downloadToFile_unopenable `{Storage} URL Path t fs :
  (forall n, alloc_ok n = true) -> fopen_ok Path = false ->
  xfer_redirects t <= 50 -> xfer_result t = CURLE_OK -> body_size t <= 2 ^ 31 ->
  exists ev, downloadToFile URL Path t dl_reset fs = Ok (0, dl_reset, fs, ev).
Proof.
  intros Hok Hopen Hr Hres Hb. unfold body_size in Hb.
  destruct (deliver_safe (xfer_body t) dl_reset eq_refl ltac:(cbn; lia))
    as ([] & s1 & hl & Hd & _ & Hfail).
  - rewrite (downloadToFile_after URL Path t dl_reset fs true s1 hl Hr Hd), Hres.
    rewrite bool_decide_true by reflexivity. rewrite Hopen. eexists. reflexivity.
  - destruct (Hfail eq_refl) as [n Hn]. rewrite Hok in Hn. discriminate.
Qed.

(** What every exit of [downloadToFile] does to the globals, the result,
    the events and the files. *)
Lemma downloadToFile_resets `{Storage} URL Path t s fs r s' fs' ev :
  downloadToFile URL Path t s fs = Ok (r, s', fs', ev) ->
  s' = dl_reset /\ (r = 0 \/ r = -1) /\ last ev = Some EvFree /\
  (fs' = fs \/ exists d, fs' = <[Path := d]> fs).
Proof.
  unfold downloadToFile. rewrite setupContext_opts.
  change (negb (0 =? 0)) with false. cbv iota beta.
  destruct (curl_easy_perform _ t s) as [[[CRes s1] hl] | |]; cbn; [| discriminate | discriminate].
  repeat case_match; intros [= <- <- <- <-];
    (split; [reflexivity |]); rewrite ?app_assoc, ?last_app; cbn; eauto 10.
Qed.

(** C5. Every exit of [downloadToFile] frees the buffer and resets the
    three globals, returns 0 or -1, ends its events with the [free], and
    changes at most the destination file. *)
Theorem downloadToFile_exit `{Storage} URL Path t s fs r s' fs' ev :
  downloadToFile URL Path t s fs = Ok (r, s', fs', ev) ->
  s' = dl_reset /\ (r = 0 \/ r = -1) /\ last ev = Some EvFree /\
  (fs' = fs \/ exists d, fs' = <[Path := d]> fs).
Proof. exact (downloadToFile_resets URL Path t s fs r s' fs' ev). Qed.

(** [downloadToFile] from clear globals returns within [2^31] bytes. *)
Lemma downloadToFile_total `{Storage} URL Path t fs :
  body_size t <= 2 ^ 31 ->
  exists r fs' ev, downloadToFile URL Path t dl_reset fs = Ok (r, dl_reset, fs', ev).
Proof.
  intros Hb. unfold body_size in Hb.
  destruct (Z.leb_spec (xfer_redirects t) 50) as [Hr | Hr].
  - destruct (deliver_safe (xfer_body t) dl_reset eq_refl ltac:(cbn; lia))
      as (ok & s1 & hl & Hd & _ & _).
    rewrite (downloadToFile_after URL Path t dl_reset fs ok s1 hl Hr Hd).
    repeat case_match; eauto.
  - rewrite downloadToFile_redirected by exact Hr. eauto.
Qed.

(** C12. Termination of a download decided by its size: within [2^31]
    body bytes [downloadToFile] returns, with the globals reset, for every
    allocator, destination and transfer outcome; with working allocations
    and libcurl's chunks below [2^31] bytes, a longer body makes it hang
    in the doubling loop of [handle_data]. *)
Theorem downloadToFile_returns `{Storage} URL Path t fs :
  (body_size t <= 2 ^ 31 ->
   exists r fs' ev, downloadToFile URL Path t dl_reset fs = Ok (r, dl_reset, fs', ev)) /\
  ((forall n, alloc_ok n = true) -> xfer_redirects t <= 50 ->
   Forall (λ c, Z.of_nat (length c) < 2 ^ 31) (xfer_body t) -> 2 ^ 31 < body_size t ->
   downloadToFile URL Path t dl_reset fs = Hang).
Proof.
  split; [exact (downloadToFile_total URL Path t fs) | exact (downloadToFile_overflow URL Path t fs)].
Qed.

(** C16. What the debug print of a successful download reads: [printf]'s
    [%s] gets [ResultBuf], which [handle_data] never terminates.  With no
    body delivered it is NULL; a body holding a NUL prints the bytes
    before the first one; a body without NUL is read past its last byte,
    into bytes of the block never written or, when the body fills its
    block exactly (a power of two of at least 4096 bytes), past the end of
    the block. *)
Theorem downloadToFile_print_reads `{Storage} URL Path t fs :
  (forall n, alloc_ok n = true) -> fopen_ok Path = true ->
  xfer_redirects t <= 50 -> xfer_result t = CURLE_OK -> body_size t <= 2 ^ 31 ->
  exists fs' ev rd, downloadToFile URL Path t dl_reset fs = Ok (0, dl_reset, fs', ev) /\
    EvPrintBuffer rd ∈ ev /\
    (xfer_body t = [] -> rd = PrintNull) /\
    (forall pre post, xfer_body t <> [] -> concat (xfer_body t) = pre ++ Byte.x00 :: post ->
       Byte.x00 ∉ pre -> rd = PrintStr pre) /\
    (xfer_body t <> [] -> Byte.x00 ∉ concat (xfer_body t) ->
       rd = if body_size t =? min_cap (body_size t) then PrintPastBlock else PrintUninit).
Proof.
  intros Hok Hopen Hr Hres Hb. unfold body_size in *.
  destruct (decide (xfer_body t = [])) as [He | Hne].
  - assert (Hd : deliver (xfer_body t) dl_reset = Ok (true, dl_reset, [])) by (rewrite He; reflexivity).
    rewrite (downloadToFile_after URL Path t _ fs _ _ _ Hr Hd), Hres, bool_decide_true, Hopen
      by reflexivity.
    eexists; eexists; exists PrintNull. split; [reflexivity |]. split; [set_solver |].
    split; [reflexivity |]. split; intros; contradiction.
  - destruct (deliver_acc (xfer_body t) dl_reset Hok eq_refl Hne ltac:(cbn; lia)) as [hl Hd].
    rewrite (downloadToFile_after URL Path t _ fs _ _ _ Hr Hd), Hres, bool_decide_true, Hopen
      by reflexivity.
    eexists; eexists; exists (print_buffer (acc_state ([] ++ concat (xfer_body t)))).
    split; [reflexivity |]. split; [set_solver |].
    unfold print_buffer, acc_state. cbn [contents ResultBuf dl_reset app blk_data blk_cap].
    split; [contradiction |]. split.
    + intros pre post _ -> Hn. rewrite list_find_first_nul, take_app_length by exact Hn. reflexivity.
    + intros _ Hn. rewrite list_find_no_nul by exact Hn.
      destruct (Z.eqb_spec (Z.of_nat (length (concat (xfer_body t))))
                  (min_cap (Z.of_nat (length (concat (xfer_body t)))))) as [Eq | Ne].
      * rewrite <- Eq, Z.ltb_irrefl. reflexivity.
      * pose proof (min_cap_ge (Z.of_nat (length (concat (xfer_body t))))).
        destruct (Z.ltb_spec (Z.of_nat (length (concat (xfer_body t))))
                    (min_cap (Z.of_nat (length (concat (xfer_body t)))))); [reflexivity | lia].
Qed.

(** C38. Chunking does not matter: with every allocation working, libcurl
    delivering a body of at most [2^31] bytes in any non-empty list of
    chunks leaves the same globals as one call of [handle_data] with the
    whole body: the buffer holds the body in a block of [min_cap] bytes. *)
Theorem deliver_chunking_equiv cs :
  (forall n, alloc_ok n = true) -> cs <> [] -> Z.of_nat (length (concat cs)) <= 2 ^ 31 ->
  exists s l1 l2, deliver cs dl_reset = Ok (true, s, l1) /\
    handle_data (concat cs) 1 (Z.of_nat (length (concat cs))) dl_reset =
      Ok (Z.of_nat (length (concat cs)), s, l2).
Proof.
  intros Hok Hne Hb.
  destruct (deliver_acc cs dl_reset Hok eq_refl Hne ltac:(cbn; lia)) as [l1 H1].
  destruct (handle_data_acc (concat cs) dl_reset Hok eq_refl ltac:(cbn; lia)) as [l2 H2].
  exists (acc_state (concat cs)), l1, l2. split; [exact H1 | exact H2].
Qed.

End WithHeap.

(** ** Examples and witnesses *)

(** The scenario of the spec: 10,000 bytes grow the buffer from 4096 to
    8192 to 16384 bytes (one malloc, two reallocs) and the file gets all
    10,000 bytes. *)
Example download_10000_bytes :
  match @downloadToFile heap_unbounded sd_card hi_url hi_path hi_transfer dl_reset ∅ with
  | Ok (r, s, fs, ev) =>
      r = 0 /\ s = dl_reset /\ (λ d, Z.of_nat (length d)) <$> (fs !! hi_path) = Some 10000 /\
      take 3 ev = [EvHeap (Malloc 4096); EvHeap (Realloc 8192); EvHeap (Realloc 16384)]
  | _ => False
  end.
Proof. vm_compute. repeat split. Qed.

Lemma deliver_chunking_equiv_witness :
  exists s l1 l2, @deliver _ _ (@handle_data_cb heap_unbounded) (xfer_body hi_transfer) dl_reset =
                    Ok (true, s, l1) /\
    @handle_data heap_unbounded (concat (xfer_body hi_transfer)) 1
      (Z.of_nat (length (concat (xfer_body hi_transfer)))) dl_reset =
      Ok (Z.of_nat (length (concat (xfer_body hi_transfer))), s, l2).
Proof.
  apply (@deliver_chunking_equiv heap_unbounded);
    [intros; reflexivity | discriminate | vm_compute; discriminate].
Defined.

(** The debug print of the 4096-byte body leaves the block. *)
Example page_print_past_block :
  match @downloadToFile heap_unbounded sd_card hi_url hi_path page_transfer dl_reset ∅ with
  | Ok (_, _, _, ev) => EvPrintBuffer PrintPastBlock ∈ ev
  | _ => False
  end.
Proof. vm_compute. apply list_elem_of_In. repeat (first [left; reflexivity | right]). Qed.

(** The 4096-byte body without NUL is read past its block. *)
Lemma downloadToFile_print_reads_witness :
  body_size page_transfer = min_cap (body_size page_transfer) /\
  exists fs' ev rd, @downloadToFile heap_unbounded sd_card hi_url hi_path page_transfer dl_reset ∅ =
      Ok (0, dl_reset, fs', ev) /\
    EvPrintBuffer rd ∈ ev /\
    (xfer_body page_transfer = [] -> rd = PrintNull) /\
    (forall pre post, xfer_body page_transfer <> [] ->
       concat (xfer_body page_transfer) = pre ++ Byte.x00 :: post ->
       Byte.x00 ∉ pre -> rd = PrintStr pre) /\
    (xfer_body page_transfer <> [] -> Byte.x00 ∉ concat (xfer_body page_transfer) ->
       rd = if body_size page_transfer =? min_cap (body_size page_transfer)
            then PrintPastBlock else PrintUninit).
Proof.
  split; [vm_compute; reflexivity |].
  apply (@downloadToFile_print_reads heap_unbounded sd_card);
    [intros; reflexivity | reflexivity | cbn; lia | reflexivity | vm_compute; discriminate].
Defined.

Lemma downloadToFile_writes_body_witness :
  (forall n, @alloc_ok heap_unbounded n = true) /\ @fopen_ok sd_card hi_path = true /\
  xfer_redirects hi_transfer <= 50 /\ xfer_result hi_transfer = CURLE_OK /\
  body_size hi_transfer <= 2 ^ 31 /\
  exists ev, @downloadToFile heap_unbounded sd_card hi_url hi_path hi_transfer dl_reset ∅ =
             Ok (0, dl_reset, <[hi_path := concat (xfer_body hi_transfer)]> ∅, ev).
Proof.
  split; [intros; reflexivity |]. split; [reflexivity |]. split; [simpl; lia |].
  split; [reflexivity |]. split; [vm_compute; discriminate |].
  apply (@downloadToFile_writes_body heap_unbounded sd_card);
    [intros; reflexivity | reflexivity | simpl; lia | reflexivity | vm_compute; discriminate].
Defined.

Lemma downloadToFile_transfer_error_witness :
  xfer_redirects reset_transfer <= 50 /\ xfer_result reset_transfer <> CURLE_OK /\
  body_size reset_transfer <= 2 ^ 31 /\
  exists ev, @downloadToFile one_page_heap sd_card hi_url hi_path reset_transfer dl_reset ∅ =
             Ok (-1, dl_reset, ∅, ev).
Proof.
  split; [simpl; lia |]. split; [discriminate |]. split; [vm_compute; discriminate |].
  apply (@downloadToFile_transfer_error one_page_heap sd_card);
    [simpl; lia | discriminate | vm_compute; discriminate].
Defined.

Lemma downloadToFile_too_many_redirects_witness :
  50 < xfer_redirects loop_transfer /\
  @downloadToFile heap_unbounded sd_card hi_url hi_path loop_transfer dl_reset ∅ =
    Ok (-1, dl_reset, ∅, [EvPrint "Error in: curl"; EvFree]).
Proof.
  split; [simpl; lia |].
  apply (@downloadToFile_too_many_redirects heap_unbounded sd_card). simpl. lia.
Defined.

Lemma downloadToFile_unopenable_witness :
  (forall n, @alloc_ok heap_unbounded n = true) /\ @fopen_ok no_card hi_path = false /\
  xfer_redirects hi_transfer <= 50 /\ xfer_result hi_transfer = CURLE_OK /\
  body_size hi_transfer <= 2 ^ 31 /\
  exists ev, @downloadToFile heap_unbounded no_card hi_url hi_path hi_transfer dl_reset ∅ =
             Ok (0, dl_reset, ∅, ev).
Proof.
  split; [intros; reflexivity |]. split; [reflexivity |]. split; [simpl; lia |].
  split; [reflexivity |]. split; [vm_compute; discriminate |].
  apply (@downloadToFile_unopenable heap_unbounded no_card);
    [intros; reflexivity | reflexivity | simpl; lia | reflexivity | vm_compute; discriminate].
Defined.

Lemma downloadToFile_exit_witness :
  @downloadToFile heap_unbounded sd_card hi_url hi_path loop_transfer dl_reset ∅ =
    Ok (-1, dl_reset, ∅, [EvPrint "Error in: curl"; EvFree]) /\
  dl_reset = dl_reset /\ (-1 = 0 \/ -1 = -1) /\
  last [EvPrint "Error in: curl"; EvFree] = Some EvFree /\
  ((∅ : files) = ∅ \/ exists d, (∅ : files) = <[hi_path := d]> ∅).
Proof.
  split; [vm_compute; reflexivity |].
  apply (@downloadToFile_exit heap_unbounded sd_card hi_url hi_path loop_transfer dl_reset ∅).
  vm_compute. reflexivity.
Defined.

Lemma length_concat_repeat {A} (l : list A) n : length (concat (repeat l n)) = (n * length l)%nat.
Proof. induction n as [| n IH]; cbn; [reflexivity | rewrite length_app, IH; reflexivity]. Qed.

Lemma giant_body_size : body_size giant_transfer = 3 * 2 ^ 30.
Proof.
  unfold body_size, giant_transfer. cbn [xfer_body].
  rewrite length_concat_repeat, repeat_length, Nat2Z.inj_mul, Z2Nat.id by lia. reflexivity.
Qed.

Lemma giant_chunks : Forall (λ c, Z.of_nat (length c) < 2 ^ 31) (xfer_body giant_transfer).
Proof.
  unfold giant_transfer. cbn [xfer_body]. apply Forall_forall. intros c Hc.
  apply list_elem_of_In, repeat_spec in Hc. subst c. rewrite repeat_length, Z2Nat.id by lia. lia.
Qed.

Lemma downloadToFile_returns_witness :
  (body_size hi_transfer <= 2 ^ 31 /\
   exists r fs' ev, @downloadToFile one_page_heap sd_card hi_url hi_path hi_transfer dl_reset ∅ =
                    Ok (r, dl_reset, fs', ev)) /\
  @downloadToFile heap_unbounded sd_card hi_url hi_path giant_transfer dl_reset ∅ = Hang.
Proof.
  split.
  - split; [vm_compute; discriminate |].
    apply (proj1 (@downloadToFile_returns one_page_heap sd_card hi_url hi_path hi_transfer ∅)).
    vm_compute. discriminate.
  - apply (proj2 (@downloadToFile_returns heap_unbounded sd_card hi_url hi_path giant_transfer ∅));
      [intros; reflexivity | cbn; lia | exact giant_chunks | rewrite giant_body_size; lia].
Defined.

End Download.
