(* ===== verification/EchoServer.v ===== *)
(** * The Wi-Fi echo server of UniversalUpdater.cpp

    [appwifi_echoserver] opens the listening socket (socket, bind to port
    1234 on every address, listen with a backlog of 20) and spins forever
    on any failure; [appwifi_echoserver_tick], called once per frame by the
    main loop, makes the listening socket non-blocking, accepts at most one
    client and echoes what the client sends, 256 bytes at a time, until
    [recv] returns 0 or an error, then closes the client.

    The socket layer (lwIP) is not code of this repository.  What the code
    depends on is modelled from its documented behaviour: the return codes
    of [socket], [bind], [listen] and [accept] come from the environment,
    and a client is a [Peer]: the segments it sends, in order, and how it
    ends.  [recv] on the (blocking) client socket returns at most [len]
    bytes of the first pending segment, keeps the rest for the next call,
    returns 0 once the client closed, -1 after an error, and blocks forever
    on a client that neither sends nor closes.  [send] is recorded with the
    bytes it is given; its return value is ignored by the code.  The two
    globals [lSocket] and [sLocalAddr] are the record [echo_globals],
    passed to and returned by the functions that use them. *)

From S2P Require Import Prelude.
From Stdlib Require Import Btauto.
From coqutil.Z Require Import bitblast.

Module EchoServer.
Open Scope Z_scope.

(** ** Byte order *)

(** [htons] / [ntohs] on the little-endian ARM9: swap the two bytes of a
    16-bit value. *)
Definition htons (x : Z) : Z :=
  Z.lor (Z.shiftl (Z.land x 255) 8) (Z.land (Z.shiftr x 8) 255).

(** [htonl]: reverse the four bytes of a 32-bit value. *)
Definition htonl (x : Z) : Z :=
  Z.lor (Z.lor (Z.shiftl (Z.land x 255) 24) (Z.shiftl (Z.land (Z.shiftr x 8) 255) 16))
        (Z.lor (Z.shiftl (Z.land (Z.shiftr x 16) 255) 8) (Z.land (Z.shiftr x 24) 255)).

(** ** The listening socket *)

Definition AF_INET : Z := 2.
Definition INADDR_ANY : Z := 0.

(** [struct sockaddr_in] of lwIP (16 bytes; the padding is zero). *)
Record sockaddr_in := MkSockaddr {
  sin_len : Z; sin_family : Z; sin_port : Z; sin_addr : Z
}.

(** Lines 64-68: what [memset] to zero and the four assignments leave in
    [sLocalAddr]. *)
Definition local_addr : sockaddr_in :=
  MkSockaddr 16 AF_INET (htons 1234) (htonl INADDR_ANY).

(** Lines 40-41: the globals [int lSocket; struct sockaddr_in sLocalAddr;]
    that [appwifi_echoserver] writes and every tick reads. *)
Record echo_globals := MkGlobals { lSocket : Z; sLocalAddr : sockaddr_in }.

(** Objects of static storage start zeroed. *)
Definition globals0 : echo_globals := MkGlobals 0 (MkSockaddr 0 0 0 0).

(** The socket calls of the server, in order. *)
Inductive net_event :=
| NSocket (fd : Z)                       (* lSocket = socket(AF_INET, SOCK_STREAM, 0) *)
| NBind (fd : Z) (a : sockaddr_in)       (* bind(lSocket, &sLocalAddr, ...) *)
| NListen (fd : Z) (backlog : Z)         (* listen(lSocket, 20) *)
| NNonblock (fd : Z)                     (* fcntl(lSocket, F_SETFL, O_NONBLOCK) *)
| NAccept (fd : Z) (client : Z)          (* clientfd = accept(lSocket, ...) *)
| NLogAccept (client : Z)                (* iprintf("echo_server: Accept %x\n", clientfd) *)
| NRecv (client : Z) (n : Z)             (* nbytes = recv(clientfd, buffer, 256, 0) *)
| NLogGot (n : Z)                        (* iprintf("echo_server: Got %x bytes\n", nbytes) *)
| NSend (client : Z) (data : list byte)  (* send(clientfd, buffer, nbytes, 0) *)
| NClose (fd : Z).                       (* close(...) *)

(** What [socket], [bind] and [listen] return. *)
Record NetEnv := MkNetEnv { socket_ret : Z; bind_ret : Z; listen_ret : Z }.

(** [void appwifi_echoserver(void)] from the globals [g]: the globals it
    leaves and the calls made, or [Hang] on the [fail:] path ([while(1)
    swiWaitForVBlank();]).  [lSocket] is assigned before it is checked;
    [sLocalAddr] only once the socket exists. *)
Definition appwifi_echoserver (n : NetEnv) (g : echo_globals) : res (echo_globals * list net_event) :=
  let g1 := MkGlobals (socket_ret n) (sLocalAddr g) in
  if lSocket g1 <? 0 then Hang
  else
    let g2 := MkGlobals (lSocket g1) local_addr in
    if bind_ret n <? 0 then Hang
    else if negb (listen_ret n =? 0) then Hang
    else Ok (g2, [NSocket (lSocket g2); NBind (lSocket g2) (sLocalAddr g2); NListen (lSocket g2) 20]).

(** ** The Wi-Fi library's callbacks *)

(** What the callbacks registered with DSiWifi do. *)
Inductive wifi_event :=
| WLog (s : string)      (* iprintf("%s", s) *)
| RpcInit                (* rpc_init() *)
| RpcDeinit.             (* rpc_deinit() *)

(** [void appwifi_log(const char* s)] *)
Definition appwifi_log (s : string) : list wifi_event := [WLog s].

(** [void appwifi_connect(void)] *)
Definition appwifi_connect : list wifi_event := [RpcInit].

(** [void appwifi_reconnect(void)] *)
Definition appwifi_reconnect : list wifi_event := [RpcDeinit; RpcInit].

(** ** A client and [recv] *)

Inductive peer_end := PeerClosed | PeerError | PeerSilent.

(** The segments a client sends, in order, and how it ends. *)
Record Peer := MkPeer { segs : list (list byte); fin : peer_end }.

(** [recv(clientfd, buffer, len, 0)] on a blocking stream socket: the
    value returned, the bytes placed in [buffer], and what is left. *)
Fixpoint recv_segs (len : nat) (ss : list (list byte)) (e : peer_end)
  : res (Z * list byte * list (list byte)) :=
  match ss with
  | [] => match e with
          | PeerClosed => Ok (0, [], [])
          | PeerError => Ok (-1, [], [])
          | PeerSilent => Hang
          end
  | [] :: ss' => recv_segs len ss' e
  | s :: ss' => Ok (Z.of_nat (length (take len s)), take len s, drop len s :: ss')
  end.

Definition recv (len : Z) (p : Peer) : res (Z * list byte * Peer) :=
  (λ '(n, buf, ss), (n, buf, MkPeer ss (fin p))) <$> recv_segs (Z.to_nat len) (segs p) (fin p).

(** [char buffer[256];] *)
Definition BUFFER_SIZE : Z := 256.

(** The [do { ... } while (nbytes > 0);] loop of lines 102-108, with fuel:
    [None] when the fuel ran out (never with [peer_fuel],
    [echo_loop_fuel]). *)
Fixpoint echo_loop (fuel : nat) (clientfd : Z) (p : Peer) : option (res (list net_event)) :=
  match fuel with
  | O => None
  | S fuel' =>
      match recv BUFFER_SIZE p with
      | Hang => Some Hang
      | Fault => Some Fault
      | Ok (nbytes, buffer, p') =>
          let ev := [NRecv clientfd nbytes; NLogGot nbytes] ++
                    (if 0 <? nbytes then [NSend clientfd buffer] else []) in
          if 0 <? nbytes then
            match echo_loop fuel' clientfd p' with
            | Some r => Some ((λ l, ev ++ l) <$> r)
            | None => None
            end
          else Some (Ok ev)
      end
  end.

(** Every [recv] that returns data consumes at least one byte. *)
Definition peer_fuel (p : Peer) : nat := S (length (concat (segs p))).

(** [void appwifi_echoserver_tick(void)] with the globals, the value
    [accept] returns and the client behind it. *)
Definition appwifi_echoserver_tick (g : echo_globals) (clientfd : Z) (p : Peer) : res (list net_event) :=
  let ev0 := [NNonblock (lSocket g); NAccept (lSocket g) clientfd] in
  if 0 <? clientfd then
    match echo_loop (peer_fuel p) clientfd p with
    | Some r => (λ l, ev0 ++ [NLogAccept clientfd] ++ l ++ [NClose clientfd]) <$> r
    | None => Hang
    end
  else Ok ev0.

(** ** Reference definitions *)

(** The bytes sent to [fd], in order. *)
Fixpoint sent (fd : Z) (ev : list net_event) : list byte :=
  match ev with
  | [] => []
  | NSend fd' d :: ev' => (if bool_decide (fd' = fd) then d else []) ++ sent fd ev'
  | _ :: ev' => sent fd ev'
  end.

(** Every [send] passes between 1 and 256 bytes. *)
Definition sends_bounded (ev : list net_event) : Prop :=
  Forall (λ e, match e with
               | NSend _ d => 1 <= Z.of_nat (length d) <= BUFFER_SIZE
               | _ => True
               end) ev.

(** The calls on the listening socket name [fd]. *)
Definition on_listener (fd : Z) (e : net_event) : Prop :=
  match e with
  | NNonblock fd' | NAccept fd' _ => fd' = fd
  | _ => True
  end.

(** Fixtures: a client that sends 300 bytes in one segment, then "hi". *)
Definition hello_peer (e : peer_end) : Peer :=
  MkPeer [repeat Byte.x61 300; [Byte.x68; Byte.x69]] e.

(** ** Lemmas *)

Lemma htons_involutive x : 0 <= x < 2 ^ 16 -> htons (htons x) = x.
Proof.
  intros Hx. unfold htons. change 255 with (Z.ones 8). Z.bitblast.
  - rewrite (Z.testbit_neg_r _ l) by lia. btauto.
  - rewrite (testbit_small x 16 l0) by lia. btauto.
Qed.

(** One call of [recv] with room for [S len] bytes: it blocks on a silent
    client with nothing pending, returns 0 or -1 once nothing is pending
    and the client ended, or returns between 1 and [S len] pending bytes,
    in order. *)
Lemma recv_segs_cases (len : nat) (ss : list (list byte)) (e : peer_end) :
  (concat ss = [] /\ e = PeerSilent /\ recv_segs (S len) ss e = Hang) \/
  (concat ss = [] /\ e <> PeerSilent /\
     exists n, n <= 0 /\ recv_segs (S len) ss e = Ok (n, [], [])) \/
  (exists buf ss', recv_segs (S len) ss e = Ok (Z.of_nat (length buf), buf, ss') /\
     (1 <= length buf <= S len)%nat /\ concat ss = buf ++ concat ss').
Proof.
  induction ss as [| [| b s] ss IH]; cbn [recv_segs concat].
  - destruct e; [right; left | right; left | left]; (split; [reflexivity |]);
      try (split; [discriminate |]); [exists 0 | exists (-1) | ]; split; try reflexivity; lia.
  - exact IH.
  - right; right. exists (take (S len) (b :: s)), (drop (S len) (b :: s) :: ss).
    split; [reflexivity |]. cbn [concat]. rewrite app_assoc, take_drop.
    split; [| reflexivity]. rewrite length_take. cbn. lia.
Qed.

Lemma sent_app fd a b : sent fd (a ++ b) = sent fd a ++ sent fd b.
Proof.
  induction a as [| [] a IH]; cbn; rewrite ?IH, ?app_assoc; reflexivity.
Qed.

Lemma recv_peer p :
  recv BUFFER_SIZE p =
    (λ '(n, buf, ss), (n, buf, MkPeer ss (fin p))) <$> recv_segs 256 (segs p) (fin p).
Proof. reflexivity. Qed.

(** Within its fuel, the loop echoes every byte of a client that ends,
    in order, at most 256 bytes per [send]. *)
Lemma echo_loop_ok fuel fd p :
  (length (concat (segs p)) < fuel)%nat -> fin p <> PeerSilent ->
  exists ev, echo_loop fuel fd p = Some (Ok ev) /\
    sent fd ev = concat (segs p) /\ sends_bounded ev.
Proof.
  revert p. induction fuel as [| fuel IH]; intros p Hf He; [lia |].
  cbn [echo_loop]. rewrite recv_peer.
  destruct (recv_segs_cases 255 (segs p) (fin p))
    as [(_ & Hs & _) | [(Hc & _ & n & Hn & Hr) | (buf & ss' & Hr & Hl & Hc)]];
    [contradiction | |].
  - rewrite Hr. cbn -[Z.ltb]. destruct (Z.ltb_spec 0 n); [lia |].
    eexists. split; [reflexivity |]. rewrite Hc. split; [reflexivity |].
    repeat constructor.
  - rewrite Hr. cbn -[Z.ltb]. destruct (Z.ltb_spec 0 (Z.of_nat (length buf))); [| lia].
    rewrite Hc, length_app in Hf.
    destruct (IH (MkPeer ss' (fin p)) ltac:(cbn; lia) He) as (ev & Hev & Hsent & Hb).
    rewrite Hev. eexists. split; [reflexivity |]. split.
    + cbn [sent app]. rewrite bool_decide_true, Hsent, Hc by reflexivity. reflexivity.
    + cbn [app]. constructor; [exact I |]. constructor; [exact I |].
      constructor; [unfold BUFFER_SIZE; lia | exact Hb].
Qed.

(** A client that stops sending without closing blocks the loop in
    [recv] for ever. *)
Lemma echo_loop_silent fuel fd p :
  (length (concat (segs p)) < fuel)%nat -> fin p = PeerSilent ->
  echo_loop fuel fd p = Some Hang.
Proof.
  revert p. induction fuel as [| fuel IH]; intros p Hf He; [lia |].
  cbn [echo_loop]. rewrite recv_peer.
  destruct (recv_segs_cases 255 (segs p) (fin p))
    as [(_ & _ & Hr) | [(_ & Hs & _) | (buf & ss' & Hr & Hl & Hc)]];
    [rewrite Hr; reflexivity | contradiction |].
  rewrite Hr. cbn -[Z.ltb]. destruct (Z.ltb_spec 0 (Z.of_nat (length buf))); [| lia].
  rewrite Hc, length_app in Hf.
  rewrite (IH (MkPeer ss' (fin p))) by (cbn; first [lia | exact He]). reflexivity.
Qed.

Lemma peer_fuel_enough p : (length (concat (segs p)) < peer_fuel p)%nat.
Proof. unfold peer_fuel. lia. Qed.

(** When it returns, [appwifi_echoserver] leaves the new socket and the
    address of lines 64-68 in the globals, whatever they held. *)
Lemma appwifi_echoserver_ok n g g' ev :
  appwifi_echoserver n g = Ok (g', ev) ->
  g' = MkGlobals (socket_ret n) local_addr /\ 0 <= socket_ret n /\
  ev = [NSocket (socket_ret n); NBind (socket_ret n) local_addr; NListen (socket_ret n) 20].
Proof.
  unfold appwifi_echoserver. cbn [lSocket sLocalAddr].
  destruct (Z.ltb_spec (socket_ret n) 0); [discriminate |].
  repeat case_match; intros Hr; simplify_eq; auto.
Qed.

(** The echo loop works on the client only: it makes no call on the
    listening socket. *)
Lemma echo_loop_listener fuel clientfd p ev fd :
  echo_loop fuel clientfd p = Some (Ok ev) -> Forall (on_listener fd) ev.
Proof.
  revert p ev. induction fuel as [| fuel IH]; intros p ev H; cbn [echo_loop] in H; [discriminate |].
  destruct (recv BUFFER_SIZE p) as [[[nbytes buf] p'] | |]; [| discriminate | discriminate].
  destruct (0 <? nbytes).
  - destruct (echo_loop fuel clientfd p') as [[l | |] |] eqn:E; try discriminate.
    injection H as <-. repeat constructor. exact (IH p' l E).
  - injection H as <-. repeat constructor.
Qed.

(** A tick returns unless the client it accepted stays silent. *)
Lemma appwifi_echoserver_tick_returns g clientfd p :
  clientfd <= 0 \/ fin p <> PeerSilent -> exists ev, appwifi_echoserver_tick g clientfd p = Ok ev.
Proof.
  intros Hc. unfold appwifi_echoserver_tick.
  destruct (Z.ltb_spec 0 clientfd); [| eauto].
  destruct (echo_loop_ok (peer_fuel p) clientfd p (peer_fuel_enough p)) as (ev & -> & _);
    [destruct Hc; [lia | assumption] |].
  eauto.
Qed.

(** A tick hangs on an accepted client that stays silent. *)
Lemma appwifi_echoserver_tick_silent g clientfd p :
  0 < clientfd -> fin p = PeerSilent -> appwifi_echoserver_tick g clientfd p = Hang.
Proof.
  intros Hc He. unfold appwifi_echoserver_tick.
  destruct (Z.ltb_spec 0 clientfd); [| lia].
  rewrite echo_loop_silent by (exact (peer_fuel_enough p) || exact He). reflexivity.
Qed.

(** Every call a tick makes on the listening socket uses [lSocket]. *)
Lemma appwifi_echoserver_tick_listener g clientfd p ev :
  appwifi_echoserver_tick g clientfd p = Ok ev -> Forall (on_listener (lSocket g)) ev.
Proof.
  unfold appwifi_echoserver_tick. intros H.
  destruct (0 <? clientfd); [| injection H as <-; repeat constructor].
  destruct (echo_loop _ clientfd p) as [[l | |] |] eqn:E; try discriminate.
  injection H as <-. cbn. repeat constructor.
  apply Forall_app. split; [exact (echo_loop_listener _ _ _ _ _ E) | repeat constructor].
Qed.

(** ** Properties *)

(** C23. Setting up the server: whatever the globals held before,
    [appwifi_echoserver] returns exactly when [socket] gives a descriptor
    and [bind] and [listen] succeed; it then leaves that descriptor in
    [lSocket], has bound it to the address left in [sLocalAddr], port 1234
    (in network byte order, as [ntohs] reads it back) of every address,
    and listens with a backlog of 20.  On any failure it spins for ever. *)
Theorem appwifi_echoserver_spec n g :
  match appwifi_echoserver n g with
  | Ok (g', ev) =>
      lSocket g' = socket_ret n /\ 0 <= lSocket g' /\ 0 <= bind_ret n /\ listen_ret n = 0 /\
      ev = [NSocket (lSocket g'); NBind (lSocket g') (sLocalAddr g'); NListen (lSocket g') 20] /\
      sin_family (sLocalAddr g') = AF_INET /\ htons (sin_port (sLocalAddr g')) = 1234 /\
      sin_addr (sLocalAddr g') = INADDR_ANY
  | Hang => socket_ret n < 0 \/ bind_ret n < 0 \/ listen_ret n <> 0
  | Fault => False
  end.
Proof.
  unfold appwifi_echoserver. cbn [lSocket sLocalAddr].
  destruct (Z.ltb_spec (socket_ret n) 0); [lia |].
  destruct (Z.ltb_spec (bind_ret n) 0); [lia |].
  destruct (Z.eqb_spec (listen_ret n) 0); cbn; [| lia].
  repeat split; try lia; apply htons_involutive; lia.
Qed.

(** C24. Echo round trip: when [accept] returns a client that ends (closes
    or fails), the tick returns, has sent back every byte the client sent,
    in order, in [send]s of 1 to 256 bytes, and closes the client last. *)
Theorem appwifi_echoserver_tick_echoes g clientfd p :
  0 < clientfd -> fin p <> PeerSilent ->
  exists ev, appwifi_echoserver_tick g clientfd p = Ok ev /\
    sent clientfd ev = concat (segs p) /\ sends_bounded ev /\
    last ev = Some (NClose clientfd).
Proof.
  intros Hc He. unfold appwifi_echoserver_tick.
  destruct (Z.ltb_spec 0 clientfd); [| lia].
  destruct (echo_loop_ok (peer_fuel p) clientfd p (peer_fuel_enough p) He)
    as (ev & -> & Hs & Hb).
  eexists. split; [reflexivity |]. split; [| split].
  - rewrite !sent_app, Hs. cbn. rewrite app_nil_r. reflexivity.
  - unfold sends_bounded. rewrite !Forall_app. repeat split; repeat constructor; exact Hb.
  - rewrite !app_assoc, last_app. reflexivity.
Qed.

(** C25. A client that connects and then neither sends nor closes blocks
    the tick in [recv] for ever: only the listening socket is made
    non-blocking, so the main loop stops at that frame. *)
Theorem appwifi_echoserver_tick_blocks g clientfd p :
  0 < clientfd -> fin p = PeerSilent ->
  appwifi_echoserver_tick g clientfd p = Hang.
Proof. exact (appwifi_echoserver_tick_silent g clientfd p). Qed.

(** ** Examples and witnesses *)

(** 300 bytes then "hi": three [recv]s of 256, 44 and 2 bytes are echoed,
    the fourth returns 0. *)
Example echo_hello :
  appwifi_echoserver_tick globals0 1 (hello_peer PeerClosed) =
    Ok ([NNonblock 0; NAccept 0 1; NLogAccept 1;
         NRecv 1 256; NLogGot 256; NSend 1 (repeat Byte.x61 256);
         NRecv 1 44; NLogGot 44; NSend 1 (repeat Byte.x61 44);
         NRecv 1 2; NLogGot 2; NSend 1 [Byte.x68; Byte.x69];
         NRecv 1 0; NLogGot 0; NClose 1]).
Proof. vm_compute. reflexivity. Qed.

(** [accept] returning the descriptor 0, which [appwifi_echoserver]
    accepts as a valid result of [socket], is taken for "no client": the
    connection is neither served nor closed. *)
Example tick_descriptor_zero g p :
  appwifi_echoserver_tick g 0 p = Ok [NNonblock (lSocket g); NAccept (lSocket g) 0].
Proof. reflexivity. Qed.

Lemma appwifi_echoserver_tick_echoes_witness :
  0 < 1 /\ fin (hello_peer PeerError) <> PeerSilent /\
  exists ev, appwifi_echoserver_tick globals0 1 (hello_peer PeerError) = Ok ev /\
    sent 1 ev = concat (segs (hello_peer PeerError)) /\ sends_bounded ev /\
    last ev = Some (NClose 1).
Proof.
  split; [lia |]. split; [discriminate |].
  apply appwifi_echoserver_tick_echoes; [lia | discriminate].
Defined.

Lemma appwifi_echoserver_tick_blocks_witness :
  0 < 3 /\ fin (hello_peer PeerSilent) = PeerSilent /\
  appwifi_echoserver_tick globals0 3 (hello_peer PeerSilent) = Hang.
Proof.
  split; [lia |]. split; [reflexivity |].
  apply appwifi_echoserver_tick_blocks; [lia | reflexivity].
Defined.

End EchoServer.
