(* ===== verification/Input.v ===== *)
(** * Buttons and the touch screen

    What settings.cpp reads of the console's input: the key masks
    [hDown] / [hRepeat] tested with [&] against libctru's [KEY_*] constants,
    the touch position, the hit rectangles [Structs::ButtonPos] and the
    function [touching] that tests a touch against one.  The constants are
    libctru's (hid.h) and [touching] is defined in a file of the repository
    that is not in this excerpt: both are modelled from their documented
    meaning. *)

From S2P Require Import Prelude.

Module Input.
Open Scope Z_scope.

(** ** Key masks (libctru hid.h: [KEY_x = BIT(n)]) *)

Definition KEY_A : Z := Z.shiftl 1 0.
Definition KEY_B : Z := Z.shiftl 1 1.
Definition KEY_DRIGHT : Z := Z.shiftl 1 4.
Definition KEY_DLEFT : Z := Z.shiftl 1 5.
Definition KEY_DUP : Z := Z.shiftl 1 6.
Definition KEY_DDOWN : Z := Z.shiftl 1 7.
Definition KEY_TOUCH : Z := Z.shiftl 1 20.
Definition KEY_CPAD_RIGHT : Z := Z.shiftl 1 28.
Definition KEY_CPAD_LEFT : Z := Z.shiftl 1 29.
Definition KEY_CPAD_UP : Z := Z.shiftl 1 30.
Definition KEY_CPAD_DOWN : Z := Z.shiftl 1 31.

(** The directions answer to the D-pad and to the circle pad. *)
Definition KEY_UP : Z := Z.lor KEY_DUP KEY_CPAD_UP.
Definition KEY_DOWN : Z := Z.lor KEY_DDOWN KEY_CPAD_DOWN.
Definition KEY_LEFT : Z := Z.lor KEY_DLEFT KEY_CPAD_LEFT.
Definition KEY_RIGHT : Z := Z.lor KEY_DRIGHT KEY_CPAD_RIGHT.

(** [if (mask & KEY)]: some bit of the key is set in the mask. *)
Definition pressed (mask key : Z) : bool := negb (Z.land mask key =? 0).

(** ** Touch *)

(** [touchPosition]: the stylus position in pixels. *)
Record touchPosition := MkTouch { px : Z; py : Z }.

(** [Structs::ButtonPos]: [{ x, y, w, h }]. *)
Record ButtonPos := MkButton { bx : Z; by_ : Z; bw : Z; bh : Z }.

(** [bool touching(touchPosition touch, Structs::ButtonPos button)]: the
    touch lies in the closed rectangle. *)
Definition touching (t : touchPosition) (b : ButtonPos) : bool :=
  (bx b <=? px t) && (px t <=? bx b + bw b) && (by_ b <=? py t) && (py t <=? by_ b + bh b).

(** ** Lemmas *)

Lemma pressed_zero key : pressed 0 key = false.
Proof. reflexivity. Qed.

Lemma pressed_self key : key <> 0 -> pressed key key = true.
Proof. intros H. unfold pressed. rewrite Z.land_diag. destruct (Z.eqb_spec key 0); easy. Qed.

End Input.
