(* ===== verification/Settings.v ===== *)
(** * The settings menu of settings.cpp

    The handler [StoreUtils::SettingsHandle] and the five page handlers it
    dispatches to, one frame at a time.  The variables the C++ code passes
    by reference ([page], [dspSettings], [storeMode], [selection], [sPos])
    and the globals it writes ([config], [GFX::SelectedTheme], [exiting])
    are the record [Menu]; the calls to overlays, prompts, the font loader,
    the language loader and the downloader are events appended to
    [menu_log], in order; what those calls answer (the prompt's answer, the
    directory chosen, whether the font file exists) comes from the
    environment [Env].  A frame's keys and touch are [Inputs].
    [langsTemp[...]] is read through [lookupZ], so an index out of range is
    [None]: [LanguageLogic] and [SettingsHandle] return [option Menu]. *)

From S2P Require Import Prelude Input.

Module Settings.
Import Input.
Open Scope Z_scope.

(** ** Data of settings.cpp *)

Definition mainButtons : list ButtonPos :=
  [MkButton 45 32 271 22; MkButton 45 62 271 22; MkButton 45 92 271 22;
   MkButton 45 122 271 22; MkButton 45 152 271 22; MkButton 45 182 271 22;
   MkButton 45 212 271 22].

Definition langButtons : list ButtonPos :=
  [MkButton 45 32 271 22; MkButton 45 62 271 22; MkButton 45 92 271 22;
   MkButton 45 122 271 22; MkButton 45 152 271 22; MkButton 45 182 271 22;
   MkButton 45 220 16 16].

Definition toggleAbles : list ButtonPos := [MkButton 288 44 24 24; MkButton 288 120 24 24].

Definition back : ButtonPos := MkButton 45 0 24 24.
Definition Themes : ButtonPos := MkButton 40 220 280 24.

Definition mainStrings : list string :=
  ["LANGUAGE"; "SELECT_UNISTORE"; "AUTO_UPDATE_SETTINGS_BTN"; "GUI_SETTINGS_BTN";
   "DIRECTORY_SETTINGS_BTN"; "CREDITS"; "EXIT_APP"].

Definition dirStrings : list string :=
  ["CHANGE_3DSX_PATH"; "CHANGE_NDS_PATH"; "CHANGE_ARCHIVE_PATH"; "CHANGE_SHORTCUT_PATH";
   "CHANGE_FIRM_PATH"].

(** [languages.size()], which the handlers use, and the language names,
    which only the drawing reads ([languages_size_eq]). *)
Definition languages_size : Z := 12.

Definition languages : list string :=
  ["Bruh"; "Deutsch"; "English"; "Español"; "Français"; "Italiano"; "Magyar"; "Polski";
   "Português (Brasil)"; "Русский"; "Украïнська"; "日本語"].

Definition langsTemp : list string :=
  ["br"; "de"; "en"; "es"; "fr"; "it"; "hu"; "pl"; "pt-BR"; "ru"; "uk"; "jp"].

Definition ThemeNames : list string := ["THEME_DEFAULT"].

(** [v[i]] for an [int] index: [None] when out of range. *)
Definition lookupZ {A} (l : list A) (i : Z) : option A :=
  if i <? 0 then None else l !! Z.to_nat i.

(** [mainButtons[i]] and friends, read at indices the code knows are in
    range; the default is never used ([nth_buttons_in_range]). *)
Definition btn (l : list ButtonPos) (i : nat) : ButtonPos := nth i l back.

(** ** The persisted configuration ([config->...]) *)

Inductive Toggle := AutoUpdate | UpdateCheck | UseBg | CustomFont.
Inductive DirKind := Dir3dsx | DirNds | DirArch | DirShortcut | DirFirm.

#[export] Instance Toggle_eq_dec : EqDecision Toggle.
Proof. solve_decision. Defined.
#[export] Instance DirKind_eq_dec : EqDecision DirKind.
Proof. solve_decision. Defined.

Record Config := MkConfig {
  toggles : Toggle -> bool;     (* autoupdate(), updatecheck(), usebg(), customfont() *)
  paths : DirKind -> string;    (* _3dsxPath(), ndsPath(), archPath(), shortcut(), firmPath() *)
  language : string;            (* language() *)
  theme : Z                     (* theme() *)
}.

Definition set_toggle (c : Config) (k : Toggle) (v : bool) : Config :=
  MkConfig (fun k' => if decide (k = k') then v else toggles c k') (paths c) (language c) (theme c).
Definition set_path (c : Config) (k : DirKind) (v : string) : Config :=
  MkConfig (toggles c) (fun k' => if decide (k = k') then v else paths c k') (language c) (theme c).
Definition set_language (c : Config) (l : string) : Config :=
  MkConfig (toggles c) (paths c) l (theme c).
Definition set_theme (c : Config) (t : Z) : Config :=
  MkConfig (toggles c) (paths c) (language c) t.

(** ** Events and environment *)

Inductive effect :=
| EvSelectStore                     (* Overlays::SelectStore() *)
| EvShowCredits                     (* Overlays::ShowCredits() *)
| EvPrompt                          (* Msg::promptMsg(Lang::get("FEATURE_SIDE_EFFECTS")) *)
| EvSelectDir (current : string)    (* Overlays::SelectDir(current, ...) *)
| EvLoadFont                        (* Init::LoadFont() *)
| EvUnloadFont                      (* Init::UnloadFont() *)
| EvDownloadFont (overwrite : bool) (* ScriptUtils::downloadFile(<font url>, ...) *)
| EvLangLoad (l : string).          (* Lang::load(l) *)

Record Env := MkEnv {
  QueueRuns : bool;                 (* extern bool QueueRuns *)
  prompt_answer : bool;             (* what Msg::promptMsg returns *)
  select_dir : string -> string;    (* what Overlays::SelectDir returns *)
  font_present : bool               (* access(<font>, F_OK) == 0 *)
}.

Record Inputs := MkInputs { hDown : Z; hRepeat : Z; touch : touchPosition }.

(** ** The menu's state *)

Record Menu := MkMenu {
  page : Z;
  dspSettings : bool;
  storeMode : Z;
  selection : Z;
  sPos : Z;
  config : Config;
  SelectedTheme : Z;                (* GFX::SelectedTheme *)
  exiting : bool;                   (* extern bool exiting *)
  menu_log : list effect
}.

Definition set_page m v := MkMenu v (dspSettings m) (storeMode m) (selection m) (sPos m) (config m) (SelectedTheme m) (exiting m) (menu_log m).
Definition set_storeMode m v := MkMenu (page m) (dspSettings m) v (selection m) (sPos m) (config m) (SelectedTheme m) (exiting m) (menu_log m).
Definition set_selection m v := MkMenu (page m) (dspSettings m) (storeMode m) v (sPos m) (config m) (SelectedTheme m) (exiting m) (menu_log m).
Definition set_sPos m v := MkMenu (page m) (dspSettings m) (storeMode m) (selection m) v (config m) (SelectedTheme m) (exiting m) (menu_log m).
Definition set_config m v := MkMenu (page m) (dspSettings m) (storeMode m) (selection m) (sPos m) v (SelectedTheme m) (exiting m) (menu_log m).
Definition set_SelectedTheme m v := MkMenu (page m) (dspSettings m) (storeMode m) (selection m) (sPos m) (config m) v (exiting m) (menu_log m).
Definition set_exiting m v := MkMenu (page m) (dspSettings m) (storeMode m) (selection m) (sPos m) (config m) (SelectedTheme m) v (menu_log m).
Definition emit m e := MkMenu (page m) (dspSettings m) (storeMode m) (selection m) (sPos m) (config m) (SelectedTheme m) (exiting m) (menu_log m ++ [e]).

(** [selection = s; page = p;] *)
Definition goto (m : Menu) (p s : Z) : Menu := set_page (set_selection m s) p.

(** ** The handlers, for one frame *)

Section Handlers.
(** [_THEME_AMOUNT] is a constant of a header outside this excerpt. *)
Context (THEME_AMOUNT : Z) (env : Env) (inp : Inputs).

(** [if (hDown & key) { ... }] and [if (hRepeat & key) { ... }] *)
Definition on_down (key : Z) (f : Menu -> Menu) (m : Menu) : Menu :=
  if pressed (hDown inp) key then f m else m.
Definition on_repeat (key : Z) (f : Menu -> Menu) (m : Menu) : Menu :=
  if pressed (hRepeat inp) key then f m else m.
Definition touched (b : ButtonPos) : bool := touching (touch inp) b.

(** The cursor moves shared by the pages. *)
(** [if (selection < last) selection++; else selection = 0;] *)
Definition wrap_down (last : Z) (m : Menu) : Menu :=
  if selection m <? last then set_selection m (selection m + 1) else set_selection m 0.
(** [if (selection > 0) selection--; else selection = last;] *)
Definition wrap_up (last : Z) (m : Menu) : Menu :=
  if 0 <? selection m then set_selection m (selection m - 1) else set_selection m last.
(** [if (selection + n < bound) selection += n; else selection = last;] *)
Definition right_by (n bound last : Z) (m : Menu) : Menu :=
  if selection m + n <? bound then set_selection m (selection m + n) else set_selection m last.
(** [if (selection - n > 0) selection -= n; else selection = 0;] *)
Definition left_by (n : Z) (m : Menu) : Menu :=
  if 0 <? selection m - n then set_selection m (selection m - n) else set_selection m 0.
(** [if (selection < hi) selection++;] and [if (selection > 0) selection--;] *)
Definition step_down (hi : Z) (m : Menu) : Menu :=
  if selection m <? hi then set_selection m (selection m + 1) else m.
Definition step_up (m : Menu) : Menu :=
  if 0 <? selection m then set_selection m (selection m - 1) else m.

(** *** Main page (SettingsHandleMain) *)

(** [if (QueueRuns) { if (Msg::promptMsg(..)) Overlays::SelectStore(); }
     else Overlays::SelectStore();] *)
Definition select_store (m : Menu) : Menu :=
  if QueueRuns env then
    let m := emit m EvPrompt in
    if prompt_answer env then emit m EvSelectStore else m
  else emit m EvSelectStore.

(** [if (QueueRuns) exiting = Msg::promptMsg(..); else exiting = true;] *)
Definition exit_app (m : Menu) : Menu :=
  if QueueRuns env then set_exiting (emit m EvPrompt) (prompt_answer env)
  else set_exiting m true.

Definition main_b (m : Menu) : Menu := set_storeMode (set_selection m 0) 0.

Definition main_touch (m : Menu) : Menu :=
  if touched (btn mainButtons 0) then goto m 4 0
  else if touched (btn mainButtons 1) then select_store m
  else if touched (btn mainButtons 2) then goto m 2 0
  else if touched (btn mainButtons 3) then goto m 3 0
  else if touched (btn mainButtons 4) then goto m 1 0
  else if touched (btn mainButtons 5) then emit m EvShowCredits
  else if touched (btn mainButtons 6) then exit_app m
  else m.

Definition main_a (m : Menu) : Menu :=
  match selection m with
  | 0 => goto m 4 0
  | 1 => select_store m
  | 2 => goto m 2 0
  | 3 => goto m 3 0
  | 4 => goto m 1 0
  | 5 => emit m EvShowCredits
  | 6 => exit_app m
  | _ => m
  end.

(** [static void SettingsHandleMain(int &page, bool &dspSettings,
     int &storeMode, int &selection)] *)
Definition SettingsHandleMain (m : Menu) : Menu :=
  let n := Z.of_nat (length mainStrings) in
  let m := on_down KEY_B main_b m in
  let m := on_repeat KEY_DOWN (wrap_down 6) m in
  let m := on_repeat KEY_UP (wrap_up (n - 1)) m in
  let m := on_repeat KEY_RIGHT (right_by 8 n (n - 1)) m in
  let m := on_repeat KEY_LEFT (left_by 8) m in
  let m := on_down KEY_TOUCH main_touch m in
  on_down KEY_A main_a m.

(** *** Directory page (SettingsHandleDir) *)

(** [const std::string path = Overlays::SelectDir(config->x(), ..);
     if (path != "") config->x(path);] *)
Definition choose_dir (k : DirKind) (m : Menu) : Menu :=
  let cur := paths (config m) k in
  let path := select_dir env cur in
  let m := emit m (EvSelectDir cur) in
  if String.eqb path "" then m else set_config m (set_path (config m) k path).

Definition dir_touch (m : Menu) : Menu :=
  if touched back then goto m 0 4
  else if touched (btn mainButtons 0) then choose_dir Dir3dsx m
  else if touched (btn mainButtons 1) then choose_dir DirNds m
  else if touched (btn mainButtons 2) then choose_dir DirArch m
  else if touched (btn mainButtons 3) then choose_dir DirShortcut m
  else if touched (btn mainButtons 4) then choose_dir DirFirm m
  else m.

Definition dir_a (m : Menu) : Menu :=
  match selection m with
  | 0 => choose_dir Dir3dsx m
  | 1 => choose_dir DirNds m
  | 2 => choose_dir DirArch m
  | 3 => choose_dir DirShortcut m
  | 4 => choose_dir DirFirm m
  | _ => m
  end.

(** [static void SettingsHandleDir(int &page, int &selection)] *)
Definition SettingsHandleDir (m : Menu) : Menu :=
  let n := Z.of_nat (length dirStrings) in
  let m := on_down KEY_B (fun m => goto m 0 4) m in
  let m := on_repeat KEY_DOWN (wrap_down 4) m in
  let m := on_repeat KEY_UP (wrap_up (n - 1)) m in
  let m := on_repeat KEY_RIGHT (right_by 8 (n - 1) (n - 1)) m in
  let m := on_repeat KEY_LEFT (left_by 8) m in
  let m := on_down KEY_TOUCH dir_touch m in
  on_down KEY_A dir_a m.

(** *** Auto-update page (AutoUpdateLogic) *)

(** [config->x(!config->x());] *)
Definition flip (k : Toggle) (m : Menu) : Menu :=
  set_config m (set_toggle (config m) k (negb (toggles (config m) k))).

Definition auto_touch (m : Menu) : Menu :=
  if touched back then goto m 0 2
  else if touched (btn toggleAbles 0) then flip AutoUpdate m
  else if touched (btn toggleAbles 1) then flip UpdateCheck m
  else m.

Definition auto_a (m : Menu) : Menu :=
  match selection m with
  | 0 => flip AutoUpdate m
  | 1 => flip UpdateCheck m
  | _ => m
  end.

(** [static void AutoUpdateLogic(int &page, int &selection)] *)
Definition AutoUpdateLogic (m : Menu) : Menu :=
  let m := on_down KEY_B (fun m => goto m 0 2) m in
  let m := on_repeat KEY_DOWN (step_down 1) m in
  let m := on_repeat KEY_UP step_up m in
  let m := on_down KEY_TOUCH auto_touch m in
  on_down KEY_A auto_a m.

(** *** GUI page (GUISettingsLogic) *)

(** [config->customfont(!config->customfont());
     (config->customfont() ? Init::LoadFont() : Init::UnloadFont());] *)
Definition flip_font (m : Menu) : Menu :=
  let m := flip CustomFont m in
  if toggles (config m) CustomFont then emit m EvLoadFont else emit m EvUnloadFont.

(** [if (GFX::SelectedTheme < (_THEME_AMOUNT - 1)) GFX::SelectedTheme++;
     else GFX::SelectedTheme = 0; config->theme(GFX::SelectedTheme);] *)
Definition next_theme (m : Menu) : Menu :=
  let t := if SelectedTheme m <? THEME_AMOUNT - 1 then SelectedTheme m + 1 else 0 in
  let m := set_SelectedTheme m t in
  set_config m (set_theme (config m) t).

Definition gui_touch (m : Menu) : Menu :=
  if touched back then goto m 0 3
  else if touched (btn toggleAbles 0) then flip UseBg m
  else if touched (btn toggleAbles 1) then flip_font m
  else if touched Themes then next_theme m
  else m.

Definition gui_a (m : Menu) : Menu :=
  match selection m with
  | 0 => flip UseBg m
  | 1 => flip_font m
  | 2 => next_theme m
  | _ => m
  end.

(** [static void GUISettingsLogic(int &page, int &selection)] *)
Definition GUISettingsLogic (m : Menu) : Menu :=
  let m := on_down KEY_B (fun m => goto m 0 3) m in
  let m := on_repeat KEY_DOWN (step_down 2) m in
  let m := on_repeat KEY_UP step_up m in
  let m := on_down KEY_TOUCH gui_touch m in
  on_down KEY_A gui_a m.

(** *** Language page (LanguageLogic) *)

(** [selection = 0; sPos = 0; page = 0;] *)
Definition lang_leave (m : Menu) : Menu := set_page (set_sPos (set_selection m 0) 0) 0.

(** The body shared by the A button and the touched rows, for the code
    [l = langsTemp[...]]: the Ukrainian font is fetched when missing and
    enabled, the language is stored and loaded, and the page is left. *)
Definition select_language (l : string) (m : Menu) : Menu :=
  let m :=
    if String.eqb l "uk" then
      let m := if font_present env then m else emit m (EvDownloadFont false) in
      emit (set_config m (set_toggle (config m) CustomFont true)) EvLoadFont
    else m in
  let m := set_config m (set_language (config m) l) in
  let m := emit m (EvLangLoad (language (config m))) in
  lang_leave m.

(** [if ((hDown & KEY_B) || (hDown & KEY_TOUCH && touching(touch, back)))] *)
Definition lang_back (m : Menu) : Menu :=
  if pressed (hDown inp) KEY_B || (pressed (hDown inp) KEY_TOUCH && touched back)
  then lang_leave m else m.

(** [if (hDown & KEY_A) { const std::string l = langsTemp[selection]; ... }] *)
Definition lang_a (m : Menu) : option Menu :=
  if pressed (hDown inp) KEY_A then
    l ← lookupZ langsTemp (selection m); Some (select_language l m)
  else Some m.

(** One iteration [i] of [for (int i = 0; i < 6; i++)] over the rows. *)
Definition lang_touch_row (m : Menu) (i : nat) : option Menu :=
  if touched (btn mainButtons i) then
    if Z.of_nat i + sPos m <? languages_size then
      l ← lookupZ langsTemp (Z.of_nat i + sPos m); Some (select_language l m)
    else Some m
  else Some m.

Definition lang_touch (m : Menu) : option Menu :=
  if pressed (hDown inp) KEY_TOUCH then
    foldl (fun acc i => acc ≫= fun m => lang_touch_row m i) (Some m) (seq 0 6)
  else Some m.

(** The "add font" button: [ScriptUtils::downloadFile(.., true);
    config->customfont(true); Init::LoadFont();] *)
Definition lang_font (m : Menu) : Menu :=
  if pressed (hDown inp) KEY_TOUCH && touched (btn langButtons 6) then
    let m := emit m (EvDownloadFont true) in
    emit (set_config m (set_toggle (config m) CustomFont true)) EvLoadFont
  else m.

(** [if (selection < sPos) sPos = selection;
     else if (selection > sPos + 6 - 1) sPos = selection - 6 + 1;] *)
Definition lang_scroll (m : Menu) : Menu :=
  if selection m <? sPos m then set_sPos m (selection m)
  else if sPos m + 6 - 1 <? selection m then set_sPos m (selection m - 6 + 1)
  else m.

(** [static void LanguageLogic(int &page, int &selection, int &sPos)];
    [None] when [langsTemp] is read out of range. *)
Definition LanguageLogic (m : Menu) : option Menu :=
  let last := languages_size - 1 in
  let m := on_repeat KEY_DOWN (wrap_down last) m in
  let m := on_repeat KEY_UP (wrap_up last) m in
  let m := on_repeat KEY_RIGHT (right_by 6 last last) m in
  let m := on_repeat KEY_LEFT (left_by 6) m in
  let m := lang_back m in
  m ← lang_a m;
  m ← lang_touch m;
  Some (lang_scroll (lang_font m)).

(** *** The dispatcher *)

(** [void StoreUtils::SettingsHandle(int &page, bool &dspSettings,
     int &storeMode, int &selection, int &sPos)] *)
Definition SettingsHandle (m : Menu) : option Menu :=
  match page m with
  | 0 => Some (SettingsHandleMain m)
  | 1 => Some (SettingsHandleDir m)
  | 2 => Some (AutoUpdateLogic m)
  | 3 => Some (GUISettingsLogic m)
  | 4 => LanguageLogic m
  | _ => Some m
  end.

End Handlers.

(** ** Inputs of one frame used by the statements below *)

(** A frame where only [key] went down, and one where only [key] repeats. *)
Definition press (key : Z) : Inputs := MkInputs key 0 (MkTouch 0 0).
Definition hold (key : Z) : Inputs := MkInputs 0 key (MkTouch 0 0).

(** The directory each item of the directory page changes. *)
Definition dir_of (k : Z) : DirKind :=
  match k with 0 => Dir3dsx | 1 => DirNds | 2 => DirArch | 3 => DirShortcut | _ => DirFirm end.

(** The page each main-page item opens. *)
Definition opens (k : Z) : Z := match k with 0 => 4 | 2 => 2 | 3 => 3 | 4 => 1 | _ => 0 end.

(** Concrete states for the witnesses: a default configuration, the
    menu on page [p] with cursor [sel], window [sp] and theme [th], and an
    environment where the queue is idle and every chooser picks "sdmc:/3ds". *)
Definition cfg0 : Config := MkConfig (fun _ => false) (fun _ => "sdmc:/") "en" 0.
Definition menu_at (p sel sp th : Z) : Menu := MkMenu p false 0 sel sp cfg0 th false [].
Definition env0 : Env := MkEnv false true (fun _ => "sdmc:/3ds") true.

(** ** The menu's invariant *)

(** The largest selection of each page: the number of its items less one. *)
Definition sel_max (p : Z) : Z :=
  match p with 0 => 6 | 1 => 4 | 2 => 1 | 3 => 2 | 4 => 11 | _ => 0 end.

(** Well-formed menu state: a page of the five, a selection among its
    items, on the language page a six-row window [sPos .. sPos + 5] of the
    twelve languages that contains the selection, [sPos = 0] elsewhere, and
    a theme index below [_THEME_AMOUNT]. *)
Definition menu_wf (THEME_AMOUNT : Z) (m : Menu) : Prop :=
  0 <= page m <= 4 /\ 0 <= selection m <= sel_max (page m) /\
  (page m = 4 -> 0 <= sPos m <= 6 /\ sPos m <= selection m <= sPos m + 5) /\
  (page m <> 4 -> sPos m = 0) /\
  0 <= SelectedTheme m < THEME_AMOUNT.

(** Where each handler may leave the view (page, selection, window, theme)
    while its statements run. *)
Definition main_region (s0 t0 : Z) (m : Menu) : Prop :=
  sPos m = s0 /\ SelectedTheme m = t0 /\
  ((page m = 0 /\ 0 <= selection m <= 6) \/ (1 <= page m <= 4 /\ selection m = 0)).
Definition dir_region (s0 t0 : Z) (m : Menu) : Prop :=
  sPos m = s0 /\ SelectedTheme m = t0 /\ (page m = 0 \/ page m = 1) /\ 0 <= selection m <= 4.
Definition auto_region (s0 t0 : Z) (m : Menu) : Prop :=
  sPos m = s0 /\ SelectedTheme m = t0 /\
  ((page m = 2 /\ 0 <= selection m <= 1) \/ (page m = 0 /\ 0 <= selection m <= 2)).
Definition gui_region (THEME_AMOUNT s0 : Z) (m : Menu) : Prop :=
  sPos m = s0 /\ 0 <= SelectedTheme m < THEME_AMOUNT /\
  ((page m = 3 /\ 0 <= selection m <= 2) \/ (page m = 0 /\ 0 <= selection m <= 3)).
Definition lang_region (t0 : Z) (m : Menu) : Prop :=
  SelectedTheme m = t0 /\
  ((page m = 4 /\ 0 <= selection m <= 11 /\ 0 <= sPos m <= 6) \/
   (page m = 0 /\ selection m = 0 /\ sPos m = 0)).

(** [f] keeps [P]. *)
Definition preserves (P : Menu -> Prop) (f : Menu -> Menu) : Prop := forall m, P m -> P (f m).

(** Where the main and language pages start a frame. *)
Definition main_start (s0 t0 : Z) (m : Menu) : Prop :=
  page m = 0 /\ 0 <= selection m <= 6 /\ sPos m = s0 /\ SelectedTheme m = t0.

Definition lang_start (t0 : Z) (m : Menu) : Prop :=
  page m = 4 /\ 0 <= selection m <= 11 /\ 0 <= sPos m <= 6 /\ SelectedTheme m = t0.

(** ** Tactics for the menu *)

Ltac menu_cbn :=
  cbn [page selection sPos SelectedTheme storeMode config exiting menu_log
       set_page set_storeMode set_selection set_sPos set_config set_SelectedTheme
       set_exiting emit goto lang_leave flip] in *.

(** Unfold the region, split every [if] and [match] of the block, close by
    arithmetic. *)
Ltac menu_auto :=
  unfold preserves, main_region, dir_region, auto_region, gui_region, lang_region in *;
  intros; repeat (menu_cbn; first [ progress case_cmp | case_match ]); menu_cbn; lia.

(** Evaluate the key tests of a frame whose masks are constants. *)
Ltac keys_compute :=
  repeat match goal with
  | |- context [pressed ?a ?b] =>
      let v := eval vm_compute in (pressed a b) in change (pressed a b) with v
  | |- context [Z.of_nat (length ?l)] =>
      let v := eval vm_compute in (Z.of_nat (length l)) in change (Z.of_nat (length l)) with v
  end.

(** Run one frame of [SettingsHandle] on a state whose page is known. *)
Ltac run_frame :=
  unfold SettingsHandle; cbn -[pressed];
  unfold SettingsHandleMain, SettingsHandleDir, AutoUpdateLogic, GUISettingsLogic,
    LanguageLogic, on_down, on_repeat;
  keys_compute; cbn [andb orb negb].

Create HintDb menu.

(** ** Lemmas: blocks *)

Lemma on_down_pres inp P key f m : preserves P f -> P m -> P (on_down inp key f m).
Proof. intros Hf Hm. unfold on_down. destruct (pressed _ _); auto. Qed.

Lemma on_repeat_pres inp P key f m : preserves P f -> P m -> P (on_repeat inp key f m).
Proof. intros Hf Hm. unfold on_repeat. destruct (pressed _ _); auto. Qed.

(** A block that moves the view from [P] to [Q]. *)
Lemma on_down_step inp (P Q : Menu -> Prop) key f m :
  (forall m, P m -> Q (f m)) -> (forall m, P m -> Q m) -> P m -> Q (on_down inp key f m).
Proof. intros Hf Hpq Hm. unfold on_down. destruct (pressed _ _); auto. Qed.

#[export] Hint Extern 1 =>
  match goal with
  | |- _ (on_down _ _ _ _) => eapply on_down_pres
  | |- _ (on_repeat _ _ _ _) => eapply on_repeat_pres
  end : menu.

(** *** Main page *)

Lemma main_cursor_pres s0 t0 :
  preserves (main_start s0 t0) main_b /\ preserves (main_start s0 t0) (wrap_down 6) /\
  preserves (main_start s0 t0) (wrap_up 6) /\ preserves (main_start s0 t0) (right_by 8 7 6) /\
  preserves (main_start s0 t0) (left_by 8).
Proof.
  unfold main_start, main_b, wrap_down, wrap_up, right_by, left_by.
  repeat split; menu_auto.
Qed.

Lemma main_touch_region env inp s0 t0 m :
  main_start s0 t0 m -> main_region s0 t0 (main_touch env inp m).
Proof. unfold main_start, main_touch, select_store, exit_app. menu_auto. Qed.

Lemma main_a_region env s0 t0 : preserves (main_region s0 t0) (main_a env).
Proof. unfold main_a, select_store, exit_app. menu_auto. Qed.

Lemma main_start_region s0 t0 m : main_start s0 t0 m -> main_region s0 t0 m.
Proof. unfold main_start. menu_auto. Qed.

Lemma SettingsHandleMain_region env inp s0 t0 m :
  main_start s0 t0 m -> main_region s0 t0 (SettingsHandleMain env inp m).
Proof.
  intros Hm. destruct (main_cursor_pres s0 t0) as (Hb & Hd & Hu & Hr & Hl).
  unfold SettingsHandleMain. cbv zeta. change (Z.of_nat (length mainStrings)) with 7.
  apply on_down_pres; [apply main_a_region |].
  apply (on_down_step inp (main_start s0 t0));
    [apply main_touch_region | apply main_start_region |].
  eauto 10 with menu.
Qed.

(** *** Directory, auto-update and GUI pages *)

Lemma SettingsHandleDir_region env inp s0 t0 m :
  dir_region s0 t0 m -> dir_region s0 t0 (SettingsHandleDir env inp m).
Proof.
  intros Hm. unfold SettingsHandleDir. cbv zeta. change (Z.of_nat (length dirStrings)) with 5.
  assert (Hb : preserves (dir_region s0 t0) (fun m => goto m 0 4)) by menu_auto.
  assert (Hd : preserves (dir_region s0 t0) (wrap_down 4)) by (unfold wrap_down; menu_auto).
  assert (Hu : preserves (dir_region s0 t0) (wrap_up (5 - 1))) by (unfold wrap_up; menu_auto).
  assert (Hr : preserves (dir_region s0 t0) (right_by 8 (5 - 1) (5 - 1))) by (unfold right_by; menu_auto).
  assert (Hl : preserves (dir_region s0 t0) (left_by 8)) by (unfold left_by; menu_auto).
  assert (Ht : preserves (dir_region s0 t0) (dir_touch env inp)) by (unfold dir_touch, choose_dir; menu_auto).
  assert (Ha : preserves (dir_region s0 t0) (dir_a env)) by (unfold dir_a, choose_dir; menu_auto).
  eauto 10 with menu.
Qed.

Lemma AutoUpdateLogic_region inp s0 t0 m :
  auto_region s0 t0 m -> auto_region s0 t0 (AutoUpdateLogic inp m).
Proof.
  intros Hm. unfold AutoUpdateLogic. cbv zeta.
  assert (Hb : preserves (auto_region s0 t0) (fun m => goto m 0 2)) by menu_auto.
  assert (Hd : preserves (auto_region s0 t0) (step_down 1)) by (unfold step_down; menu_auto).
  assert (Hu : preserves (auto_region s0 t0) step_up) by (unfold step_up; menu_auto).
  assert (Ht : preserves (auto_region s0 t0) (auto_touch inp)) by (unfold auto_touch, flip; menu_auto).
  assert (Ha : preserves (auto_region s0 t0) auto_a) by (unfold auto_a, flip; menu_auto).
  eauto 10 with menu.
Qed.

Lemma GUISettingsLogic_region THEME_AMOUNT inp s0 m :
  gui_region THEME_AMOUNT s0 m -> gui_region THEME_AMOUNT s0 (GUISettingsLogic THEME_AMOUNT inp m).
Proof.
  intros Hm. unfold GUISettingsLogic. cbv zeta.
  assert (Hb : preserves (gui_region THEME_AMOUNT s0) (fun m => goto m 0 3)) by menu_auto.
  assert (Hd : preserves (gui_region THEME_AMOUNT s0) (step_down 2)) by (unfold step_down; menu_auto).
  assert (Hu : preserves (gui_region THEME_AMOUNT s0) step_up) by (unfold step_up; menu_auto).
  assert (Ht : preserves (gui_region THEME_AMOUNT s0) (gui_touch THEME_AMOUNT inp))
    by (unfold gui_touch, flip, flip_font, next_theme; menu_auto).
  assert (Ha : preserves (gui_region THEME_AMOUNT s0) (gui_a THEME_AMOUNT))
    by (unfold gui_a, flip, flip_font, next_theme; menu_auto).
  eauto 10 with menu.
Qed.

(** *** Language page *)

Lemma languages_size_eq : Z.of_nat (length languages) = languages_size.
Proof. reflexivity. Qed.

Lemma lookupZ_langsTemp i : 0 <= i < languages_size -> exists l, lookupZ langsTemp i = Some l.
Proof.
  intros Hi. unfold lookupZ. case_cmp; [lia |].
  destruct (lookup_lt_is_Some_2 langsTemp (Z.to_nat i)) as [l Hl];
    [cbn; unfold languages_size in Hi; lia | eauto].
Qed.

Lemma select_language_leaves env l m :
  page (select_language env l m) = 0 /\ selection (select_language env l m) = 0 /\
  sPos (select_language env l m) = 0 /\ SelectedTheme (select_language env l m) = SelectedTheme m.
Proof. unfold select_language. repeat case_match; menu_cbn; auto. Qed.

Lemma lang_a_region env inp t0 m :
  lang_region t0 m -> exists m', lang_a env inp m = Some m' /\ lang_region t0 m'.
Proof.
  intros Hm. unfold lang_a. destruct (pressed _ _); [| eauto].
  destruct (lookupZ_langsTemp (selection m)) as [l ->];
    [unfold lang_region, languages_size in *; lia |].
  eexists; split; [reflexivity |].
  pose proof (select_language_leaves env l m). unfold lang_region in *. lia.
Qed.

Lemma lang_touch_row_region env inp t0 m i :
  lang_region t0 m -> exists m', lang_touch_row env inp m i = Some m' /\ lang_region t0 m'.
Proof.
  intros Hm. unfold lang_touch_row. destruct (touched _ _); [| eauto].
  destruct (Z.ltb_spec (Z.of_nat i + sPos m) languages_size); [| eauto].
  destruct (lookupZ_langsTemp (Z.of_nat i + sPos m)) as [l ->];
    [unfold lang_region in *; lia |].
  eexists; split; [reflexivity |].
  pose proof (select_language_leaves env l m). unfold lang_region in *. lia.
Qed.

Lemma lang_touch_region env inp t0 m :
  lang_region t0 m -> exists m', lang_touch env inp m = Some m' /\ lang_region t0 m'.
Proof.
  intros Hm. unfold lang_touch. destruct (pressed _ _); [| eauto].
  generalize (seq 0 6). intros l. revert m Hm. induction l as [| i l IH]; intros m Hm; [eauto |].
  cbn [foldl]. destruct (lang_touch_row_region env inp t0 m i Hm) as (m1 & Hr & Hm1).
  cbn. rewrite Hr. apply IH. exact Hm1.
Qed.

Lemma lang_scroll_wf THEME_AMOUNT t0 m :
  0 <= t0 < THEME_AMOUNT -> lang_region t0 m -> menu_wf THEME_AMOUNT (lang_scroll m).
Proof. intros Ht. unfold menu_wf, lang_scroll, sel_max. menu_auto. Qed.

Lemma LanguageLogic_wf THEME_AMOUNT env inp m :
  page m = 4 -> menu_wf THEME_AMOUNT m ->
  exists m', LanguageLogic env inp m = Some m' /\ menu_wf THEME_AMOUNT m'.
Proof.
  intros Hp Hwf. set (t0 := SelectedTheme m).
  assert (Hs : lang_start t0 m) by (unfold menu_wf, lang_start, sel_max in *; rewrite Hp in *; lia).
  assert (Hc : lang_start t0
    (on_repeat inp KEY_LEFT (left_by 6) (on_repeat inp KEY_RIGHT (right_by 6 (languages_size - 1) (languages_size - 1))
      (on_repeat inp KEY_UP (wrap_up (languages_size - 1)) (on_repeat inp KEY_DOWN (wrap_down (languages_size - 1)) m))))).
  { unfold lang_start, languages_size in *.
    repeat (eapply on_repeat_pres; [unfold wrap_down, wrap_up, right_by, left_by; menu_auto |]). exact Hs. }
  assert (Hb : forall m, lang_start t0 m -> lang_region t0 (lang_back inp m))
    by (intros m0; unfold lang_start, lang_back; menu_auto).
  unfold LanguageLogic. cbv zeta.
  destruct (lang_a_region env inp t0 _ (Hb _ Hc)) as (m1 & -> & H1).
  cbn [mbind option_bind].
  destruct (lang_touch_region env inp t0 m1 H1) as (m2 & -> & H2).
  cbn [mbind option_bind].
  eexists; split; [reflexivity |].
  apply (lang_scroll_wf _ t0); [unfold menu_wf in Hwf; lia |].
  unfold lang_font. revert H2. menu_auto.
Qed.

(** *** The invariant, page by page *)

Lemma menu_wf_by_page THEME_AMOUNT m :
  (page m = 0 /\ 0 <= selection m <= 6 /\ sPos m = 0 \/
   page m = 1 /\ 0 <= selection m <= 4 /\ sPos m = 0 \/
   page m = 2 /\ 0 <= selection m <= 1 /\ sPos m = 0 \/
   page m = 3 /\ 0 <= selection m <= 2 /\ sPos m = 0 \/
   page m = 4 /\ 0 <= sPos m <= 6 /\ sPos m <= selection m <= sPos m + 5 /\ selection m <= 11) ->
  0 <= SelectedTheme m < THEME_AMOUNT -> menu_wf THEME_AMOUNT m.
Proof.
  intros Hp Ht. unfold menu_wf.
  destruct Hp as [(-> & ?) | [(-> & ?) | [(-> & ?) | [(-> & ?) | (-> & ?)]]]]; cbn [sel_max]; lia.
Qed.

Lemma menu_wf_cases THEME_AMOUNT m :
  menu_wf THEME_AMOUNT m ->
  (page m = 0 /\ 0 <= selection m <= 6 /\ sPos m = 0 \/
   page m = 1 /\ 0 <= selection m <= 4 /\ sPos m = 0 \/
   page m = 2 /\ 0 <= selection m <= 1 /\ sPos m = 0 \/
   page m = 3 /\ 0 <= selection m <= 2 /\ sPos m = 0 \/
   page m = 4 /\ 0 <= sPos m <= 6 /\ sPos m <= selection m <= sPos m + 5 /\ selection m <= 11) /\
  0 <= SelectedTheme m < THEME_AMOUNT.
Proof.
  unfold menu_wf. intros (Hp & Hs & H4 & Hn4 & Ht). split; [| exact Ht].
  assert (page m = 0 \/ page m = 1 \/ page m = 2 \/ page m = 3 \/ page m = 4) as Hc by lia.
  destruct Hc as [E | [E | [E | [E | E]]]]; rewrite E in Hs; cbn [sel_max] in Hs;
    (destruct (Z.eq_dec (page m) 4) as [E4 | E4]; [specialize (H4 E4) | specialize (Hn4 E4)]); lia.
Qed.

(** One frame of [SettingsHandle] from a well-formed state. *)
Lemma SettingsHandle_step_wf THEME_AMOUNT env inp m :
  menu_wf THEME_AMOUNT m ->
  exists m', SettingsHandle THEME_AMOUNT env inp m = Some m' /\ menu_wf THEME_AMOUNT m'.
Proof.
  intros Hwf. pose proof (menu_wf_cases _ _ Hwf) as [Hc Ht].
  unfold SettingsHandle.
  destruct Hc as [(Hp & ?) | [(Hp & ?) | [(Hp & ?) | [(Hp & ?) | (Hp & ?)]]]]; rewrite Hp.
  - eexists; split; [reflexivity |].
    pose proof (SettingsHandleMain_region env inp 0 (SelectedTheme m) m ltac:(unfold main_start; lia)) as R.
    apply menu_wf_by_page; unfold main_region in R; lia.
  - eexists; split; [reflexivity |].
    pose proof (SettingsHandleDir_region env inp 0 (SelectedTheme m) m ltac:(unfold dir_region; lia)) as R.
    apply menu_wf_by_page; unfold dir_region in R; lia.
  - eexists; split; [reflexivity |].
    pose proof (AutoUpdateLogic_region inp 0 (SelectedTheme m) m ltac:(unfold auto_region; lia)) as R.
    apply menu_wf_by_page; unfold auto_region in R; lia.
  - eexists; split; [reflexivity |].
    pose proof (GUISettingsLogic_region THEME_AMOUNT inp 0 m ltac:(unfold gui_region; lia)) as R.
    apply menu_wf_by_page; unfold gui_region in R; lia.
  - apply LanguageLogic_wf; assumption.
Qed.

(** C4. The menu's invariant: from a well-formed state, every frame of
    [SettingsHandle] returns (no out-of-range read of [langsTemp]) and
    leaves a well-formed state: a page of the five, a selection among the
    page's items, the language window around the selection, a theme index
    below [_THEME_AMOUNT]. *)
Theorem SettingsHandle_wf THEME_AMOUNT env inp m :
  menu_wf THEME_AMOUNT m ->
  exists m', SettingsHandle THEME_AMOUNT env inp m = Some m' /\ menu_wf THEME_AMOUNT m'.
Proof. exact (SettingsHandle_step_wf THEME_AMOUNT env inp m). Qed.

(** ** Behaviour of the handlers *)

(** On the main page the down key moves the cursor to the next of the
    seven items and wraps from the last to the first; nothing else
    changes. *)
Theorem main_down_wraps THEME_AMOUNT env m :
  page m = 0 -> 0 <= selection m <= 6 ->
  SettingsHandle THEME_AMOUNT env (hold KEY_DOWN) m =
    Some (set_selection m ((selection m + 1) mod 7)).
Proof.
  intros Hp Hs. unfold SettingsHandle. rewrite Hp.
  unfold SettingsHandleMain, on_down, on_repeat, wrap_down. cbn -[set_selection pressed].
  keys_compute. cbn [andb orb negb].
  destruct (Z.ltb_spec (selection m) 6); do 2 f_equal;
    [rewrite Z.mod_small by lia | replace (selection m) with 6 by lia]; reflexivity.
Qed.

(** C17. On the language page the down key moves the cursor to the next of
    the twelve languages, wrapping to the first, and the six-row window
    follows it: it scrolls down by one when the cursor leaves it at the
    bottom and jumps back to the top on the wrap. *)
Theorem language_down_scrolls THEME_AMOUNT env m :
  page m = 4 -> menu_wf THEME_AMOUNT m ->
  exists m', SettingsHandle THEME_AMOUNT env (hold KEY_DOWN) m = Some m' /\
    page m' = 4 /\ selection m' = (selection m + 1) mod 12 /\
    sPos m' = (if selection m =? 11 then 0 else Z.max (sPos m) (selection m - 4)).
Proof.
  intros Hp Hwf. pose proof (menu_wf_cases _ _ Hwf) as [Hc _].
  unfold SettingsHandle. rewrite Hp. unfold LanguageLogic.
  unfold on_repeat, lang_back, lang_a, lang_touch, lang_font, lang_scroll, wrap_down, languages_size.
  cbn -[set_selection set_sPos pressed]. keys_compute. cbn [andb orb negb].
  eexists; split; [reflexivity |]. menu_cbn.
  destruct (Z.ltb_spec (selection m) 11); menu_cbn; case_cmp; menu_cbn;
    repeat split; try lia; rewrite ?Z.mod_small by lia; try lia;
    replace (selection m) with 11 in * by lia; reflexivity.
Qed.

(** C14. Round trip: pressing A on the main-page item that opens a
    sub-page (language, auto-update, GUI, directories) opens it with the
    cursor on its first item, and pressing B there returns to the main
    page with the cursor back on that item. *)
Theorem open_then_back THEME_AMOUNT env m k :
  page m = 0 -> selection m = k -> sPos m = 0 -> k = 0 \/ k = 2 \/ k = 3 \/ k = 4 ->
  exists m1 m2,
    SettingsHandle THEME_AMOUNT env (press KEY_A) m = Some m1 /\
    page m1 = opens k /\ selection m1 = 0 /\
    SettingsHandle THEME_AMOUNT env (press KEY_B) m1 = Some m2 /\
    page m2 = 0 /\ selection m2 = k.
Proof.
  destruct m as [p d sm sel sp c th ex lg]; cbn; intros -> -> -> Hk.
  destruct Hk as [-> | [-> | [-> | ->]]]; do 2 eexists;
    (split; [run_frame; reflexivity |]); (split; [reflexivity |]); (split; [reflexivity |]);
    (split; [run_frame; reflexivity |]); split; reflexivity.
Qed.

(** C18. On the auto-update page, A flips the toggle under the cursor
    (auto-update of the UniStore, or the update check) and changes nothing
    else. *)
Theorem auto_update_toggle THEME_AMOUNT env m :
  page m = 2 -> selection m = 0 \/ selection m = 1 ->
  SettingsHandle THEME_AMOUNT env (press KEY_A) m =
    Some (flip (if selection m =? 0 then AutoUpdate else UpdateCheck) m).
Proof.
  destruct m as [p d sm sel sp c th ex lg]; cbn; intros -> [-> | ->]; run_frame; reflexivity.
Qed.

(** C19. On the directory page, A opens the directory chooser on the
    current path of the item under the cursor; the path is replaced by the
    chosen one unless the chooser returned the empty string. *)
Theorem directory_choose THEME_AMOUNT env m :
  page m = 1 -> 0 <= selection m <= 4 ->
  exists m', SettingsHandle THEME_AMOUNT env (press KEY_A) m = Some m' /\
    let k := dir_of (selection m) in
    let chosen := select_dir env (paths (config m) k) in
    menu_log m' = menu_log m ++ [EvSelectDir (paths (config m) k)] /\
    page m' = 1 /\ selection m' = selection m /\
    forall d, paths (config m') d =
      if decide (d = k) then (if String.eqb chosen "" then paths (config m) d else chosen)
      else paths (config m) d.
Proof.
  destruct m as [p d sm sel sp c th ex lg]; cbn; intros -> Hs.
  assert (sel = 0 \/ sel = 1 \/ sel = 2 \/ sel = 3 \/ sel = 4) as Hc by lia.
  destruct Hc as [-> | [-> | [-> | [-> | ->]]]];
    run_frame; (eexists; split; [reflexivity |]); cbn;
    unfold choose_dir; cbn; destruct (String.eqb _ _); cbn;
    (split; [reflexivity |]); (split; [reflexivity |]); (split; [reflexivity |]);
    intros d'; repeat case_decide; subst; congruence.
Qed.

(** C20. Exit from the main page: A on the last item sets [exiting], after
    asking for confirmation when the queue is running (then [exiting] is
    the answer). *)
Theorem exit_item THEME_AMOUNT env m :
  page m = 0 -> selection m = 6 ->
  exists m', SettingsHandle THEME_AMOUNT env (press KEY_A) m = Some m' /\
    exiting m' = (if QueueRuns env then prompt_answer env else true) /\
    menu_log m' = menu_log m ++ (if QueueRuns env then [EvPrompt] else []) /\ page m' = 0.
Proof.
  destruct m as [p d sm sel sp c th ex lg]; cbn; intros -> ->.
  run_frame. eexists; split; [reflexivity |].
  cbn. unfold exit_app. destruct (QueueRuns env); cbn; rewrite ?app_nil_r; repeat split.
Qed.

(** C21. On the GUI page, A on the theme item selects the next theme,
    cycling through [_THEME_AMOUNT] themes, and stores it in the
    configuration. *)
Theorem theme_cycles THEME_AMOUNT env m :
  page m = 3 -> selection m = 2 -> 0 <= SelectedTheme m < THEME_AMOUNT ->
  exists m', SettingsHandle THEME_AMOUNT env (press KEY_A) m = Some m' /\
    SelectedTheme m' = (SelectedTheme m + 1) mod THEME_AMOUNT /\
    theme (config m') = SelectedTheme m' /\ page m' = 3.
Proof.
  destruct m as [p d sm sel sp c th ex lg]; cbn; intros -> -> Ht.
  run_frame. eexists; split; [reflexivity |].
  unfold next_theme; cbn. case_cmp; cbn; (split; [| split; reflexivity]).
  - rewrite Z.mod_small; lia.
  - replace (th + 1) with THEME_AMOUNT by lia. rewrite Z.mod_same; lia.
Qed.

(** C22. Back and A in the same frame on the directory page: B returns to
    the main page with the cursor on the directory item (index 4), but the
    A switch still runs with that index and opens the chooser for the FIRM
    path. *)
Theorem directory_back_and_a THEME_AMOUNT env m :
  page m = 1 -> 0 <= selection m <= 4 ->
  exists m', SettingsHandle THEME_AMOUNT env (press (Z.lor KEY_B KEY_A)) m = Some m' /\
    page m' = 0 /\ selection m' = 4 /\
    menu_log m' = menu_log m ++ [EvSelectDir (paths (config m) DirFirm)].
Proof.
  destruct m as [p d sm sel sp c th ex lg]; cbn; intros -> Hs.
  run_frame. eexists; split; [reflexivity |].
  cbn. unfold choose_dir; cbn. case_match; cbn; repeat split.
Qed.

Lemma select_language_spec env l m :
  language (config (select_language env l m)) = l /\
  last (menu_log (select_language env l m)) = Some (EvLangLoad l) /\
  (l = "uk" -> toggles (config (select_language env l m)) CustomFont = true).
Proof.
  unfold select_language, lang_leave. destruct (String.eqb_spec l "uk") as [-> | Hne].
  - destruct (font_present env); cbn; rewrite last_app; cbn; repeat split.
  - cbn. rewrite last_app. cbn. split; [reflexivity | split; [reflexivity | congruence]].
Qed.

(** C15. On the language page, A selects the language under the cursor:
    its code [langsTemp[selection]] becomes the configured language and is
    loaded last, the page is left with cursor and window reset, and the
    Ukrainian entry also turns the custom font on. *)
Theorem language_select THEME_AMOUNT env m :
  page m = 4 -> menu_wf THEME_AMOUNT m ->
  exists l m', lookupZ langsTemp (selection m) = Some l /\
    SettingsHandle THEME_AMOUNT env (press KEY_A) m = Some m' /\
    language (config m') = l /\ last (menu_log m') = Some (EvLangLoad l) /\
    page m' = 0 /\ selection m' = 0 /\ sPos m' = 0 /\
    (l = "uk" -> toggles (config m') CustomFont = true).
Proof.
  intros Hp Hwf. pose proof (menu_wf_cases _ _ Hwf) as [Hc _].
  destruct (lookupZ_langsTemp (selection m)) as [l Hl]; [unfold languages_size; lia |].
  pose proof (select_language_leaves env l m) as (H1 & H2 & H3 & _).
  pose proof (select_language_spec env l m) as (H4 & H5 & H6).
  exists l, (select_language env l m). split; [exact Hl |].
  split; [| auto 10].
  unfold SettingsHandle. rewrite Hp.
  unfold LanguageLogic, on_repeat, lang_back, lang_a, lang_touch, lang_font.
  keys_compute. cbn [andb orb negb]. rewrite Hl. cbn [mbind option_bind].
  unfold lang_scroll. rewrite H2, H3. reflexivity.
Qed.

(** ** Witnesses *)

Lemma SettingsHandle_wf_witness :
  menu_wf 1 (menu_at 4 7 3 0) /\
  exists m', SettingsHandle 1 env0 (hold KEY_DOWN) (menu_at 4 7 3 0) = Some m' /\ menu_wf 1 m'.
Proof.
  split; [unfold menu_wf; simpl; lia |].
  apply SettingsHandle_wf. unfold menu_wf; simpl; lia.
Defined.

Lemma main_down_wraps_witness :
  page (menu_at 0 6 0 0) = 0 /\ 0 <= selection (menu_at 0 6 0 0) <= 6 /\
  SettingsHandle 1 env0 (hold KEY_DOWN) (menu_at 0 6 0 0) =
    Some (set_selection (menu_at 0 6 0 0) ((selection (menu_at 0 6 0 0) + 1) mod 7)).
Proof.
  split; [reflexivity |]. split; [simpl; lia |].
  apply main_down_wraps; [reflexivity | simpl; lia].
Defined.

Lemma language_down_scrolls_witness :
  page (menu_at 4 5 0 0) = 4 /\ menu_wf 1 (menu_at 4 5 0 0) /\
  exists m', SettingsHandle 1 env0 (hold KEY_DOWN) (menu_at 4 5 0 0) = Some m' /\
    page m' = 4 /\ selection m' = (selection (menu_at 4 5 0 0) + 1) mod 12 /\
    sPos m' = (if selection (menu_at 4 5 0 0) =? 11 then 0
               else Z.max (sPos (menu_at 4 5 0 0)) (selection (menu_at 4 5 0 0) - 4)).
Proof.
  split; [reflexivity |]. split; [unfold menu_wf; simpl; lia |].
  apply language_down_scrolls; [reflexivity | unfold menu_wf; simpl; lia].
Defined.

Lemma open_then_back_witness :
  page (menu_at 0 3 0 0) = 0 /\ selection (menu_at 0 3 0 0) = 3 /\ sPos (menu_at 0 3 0 0) = 0 /\
  exists m1 m2,
    SettingsHandle 1 env0 (press KEY_A) (menu_at 0 3 0 0) = Some m1 /\
    page m1 = opens 3 /\ selection m1 = 0 /\
    SettingsHandle 1 env0 (press KEY_B) m1 = Some m2 /\ page m2 = 0 /\ selection m2 = 3.
Proof.
  split; [reflexivity |]. split; [reflexivity |]. split; [reflexivity |].
  apply open_then_back; [reflexivity | reflexivity | reflexivity | lia].
Defined.

Lemma auto_update_toggle_witness :
  page (menu_at 2 1 0 0) = 2 /\
  SettingsHandle 1 env0 (press KEY_A) (menu_at 2 1 0 0) =
    Some (flip (if selection (menu_at 2 1 0 0) =? 0 then AutoUpdate else UpdateCheck) (menu_at 2 1 0 0)).
Proof.
  split; [reflexivity |]. apply auto_update_toggle; [reflexivity | right; reflexivity].
Defined.

Lemma directory_choose_witness :
  page (menu_at 1 4 0 0) = 1 /\ 0 <= selection (menu_at 1 4 0 0) <= 4 /\
  exists m', SettingsHandle 1 env0 (press KEY_A) (menu_at 1 4 0 0) = Some m' /\
    let k := dir_of (selection (menu_at 1 4 0 0)) in
    let chosen := select_dir env0 (paths (config (menu_at 1 4 0 0)) k) in
    menu_log m' = menu_log (menu_at 1 4 0 0) ++ [EvSelectDir (paths (config (menu_at 1 4 0 0)) k)] /\
    page m' = 1 /\ selection m' = selection (menu_at 1 4 0 0) /\
    forall d, paths (config m') d =
      if decide (d = k) then (if String.eqb chosen "" then paths (config (menu_at 1 4 0 0)) d else chosen)
      else paths (config (menu_at 1 4 0 0)) d.
Proof.
  split; [reflexivity |]. split; [simpl; lia |].
  apply directory_choose; [reflexivity | simpl; lia].
Defined.

Lemma exit_item_witness :
  page (menu_at 0 6 0 0) = 0 /\ selection (menu_at 0 6 0 0) = 6 /\
  exists m', SettingsHandle 1 env0 (press KEY_A) (menu_at 0 6 0 0) = Some m' /\
    exiting m' = (if QueueRuns env0 then prompt_answer env0 else true) /\
    menu_log m' = menu_log (menu_at 0 6 0 0) ++ (if QueueRuns env0 then [EvPrompt] else []) /\
    page m' = 0.
Proof.
  split; [reflexivity |]. split; [reflexivity |].
  apply exit_item; reflexivity.
Defined.

Lemma theme_cycles_witness :
  page (menu_at 3 2 0 1) = 3 /\ selection (menu_at 3 2 0 1) = 2 /\
  0 <= SelectedTheme (menu_at 3 2 0 1) < 2 /\
  exists m', SettingsHandle 2 env0 (press KEY_A) (menu_at 3 2 0 1) = Some m' /\
    SelectedTheme m' = (SelectedTheme (menu_at 3 2 0 1) + 1) mod 2 /\
    theme (config m') = SelectedTheme m' /\ page m' = 3.
Proof.
  split; [reflexivity |]. split; [reflexivity |]. split; [simpl; lia |].
  apply theme_cycles; [reflexivity | reflexivity | simpl; lia].
Defined.

Lemma directory_back_and_a_witness :
  page (menu_at 1 2 0 0) = 1 /\ 0 <= selection (menu_at 1 2 0 0) <= 4 /\
  exists m', SettingsHandle 1 env0 (press (Z.lor KEY_B KEY_A)) (menu_at 1 2 0 0) = Some m' /\
    page m' = 0 /\ selection m' = 4 /\
    menu_log m' = menu_log (menu_at 1 2 0 0) ++ [EvSelectDir (paths (config (menu_at 1 2 0 0)) DirFirm)].
Proof.
  split; [reflexivity |]. split; [simpl; lia |].
  apply directory_back_and_a; [reflexivity | simpl; lia].
Defined.

Lemma language_select_witness :
  page (menu_at 4 10 5 0) = 4 /\ menu_wf 1 (menu_at 4 10 5 0) /\
  exists l m', lookupZ langsTemp (selection (menu_at 4 10 5 0)) = Some l /\
    SettingsHandle 1 env0 (press KEY_A) (menu_at 4 10 5 0) = Some m' /\
    language (config m') = l /\ last (menu_log m') = Some (EvLangLoad l) /\
    page m' = 0 /\ selection m' = 0 /\ sPos m' = 0 /\
    (l = "uk" -> toggles (config m') CustomFont = true).
Proof.
  split; [reflexivity |]. split; [unfold menu_wf; simpl; lia |].
  apply language_select; [reflexivity | unfold menu_wf; simpl; lia].
Defined.

End Settings.
