(* ===== verification/SettingsDraw.v ===== *)
(** * The drawing of the settings menu (settings.cpp, lines 77-185 and 612-634)

    [StoreUtils::DrawSettings] and the five page draw functions it
    dispatches to, as the list of drawing calls each makes, in order.  A
    call's colour is a field of the current theme [GFX::Themes[
    GFX::SelectedTheme]]; the first statement of every draw function reads
    that array, so a theme index outside [0 .. _THEME_AMOUNT - 1] (the
    array's length, a header constant) makes the whole drawing [None], as
    does any other read past the end of an array ([mainButtons],
    [languages], [ThemeNames], ...).  Text sizes, fonts and the word-wrap
    flag are not modelled: they do not depend on the menu's state.

    The theorems connect the drawing with the handlers' invariant
    [Settings.menu_wf]: every well-formed state draws without reading out
    of range while there is a single theme, the language page always shows
    the cursor's row, and with more than one theme the GUI page reads
    [ThemeNames] out of range. *)

From S2P Require Import Prelude Input Settings.

Module SettingsDraw.
Import Input Settings.
Open Scope Z_scope.

(** ** Drawing calls *)

(** The fields of a theme the menu draws with. *)
Inductive color_field := EntryBar | EntryOutline | TextColor | MarkSelected | MarkUnselected.

Inductive sprite := sprites_arrow_idx | sprites_add_font_idx.

(** [Lang::get(key)], a literal string, and [+] on strings. *)
Inductive text := LangGet (key : string) | Str (s : string) | Cat (a b : text).

Inductive gfx :=
| Draw_Rect (x y w h : Z) (c : color_field)
| DrawStringCentered (x y : Z) (c : color_field) (t : text) (width : Z)
| DrawString (x y : Z) (c : color_field) (t : text) (width : Z)
| DrawSprite (s : sprite) (x y : Z)
| DrawToggle (x y : Z) (on : bool).

#[export] Instance color_field_eq_dec : EqDecision color_field.
Proof. solve_decision. Defined.
#[export] Instance sprite_eq_dec : EqDecision sprite.
Proof. solve_decision. Defined.
#[export] Instance text_eq_dec : EqDecision text.
Proof. solve_decision. Defined.
#[export] Instance gfx_eq_dec : EqDecision gfx.
Proof. solve_decision. Defined.

Section Draw.
(** [_THEME_AMOUNT]: the number of entries of [GFX::Themes]. *)
Context (THEME_AMOUNT : Z).

(** [GFX::Themes[t]] can be read. *)
Definition theme_ok (t : Z) : bool := (0 <=? t) && (t <? THEME_AMOUNT).

(** The two lines of the title bar, lines 83-84 and the like. *)
Definition title_bar : list gfx :=
  [Draw_Rect 40 0 280 25 EntryBar; Draw_Rect 40 25 280 1 EntryOutline].

(** [if (i == selection) Gui::Draw_Rect(b.x, b.y, b.w, b.h, MarkSelected);] *)
Definition mark_if (i selection : Z) (b : ButtonPos) : list gfx :=
  if i =? selection then [Draw_Rect (bx b) (by_ b) (bw b) (bh b) MarkSelected] else [].

(** The body of the loop of [DrawSettingsMain] and [DrawSettingsDir]. *)
Definition label_row (strings : list string) (selection i : Z) : option (list gfx) :=
  b ← lookupZ mainButtons i;
  s ← lookupZ strings i;
  Some (mark_if i selection b ++ [DrawStringCentered 20 (by_ b + 4) TextColor (LangGet s) 255]).

(** [static void DrawSettingsMain(int selection)] *)
Definition DrawSettingsMain (t selection : Z) : option (list gfx) :=
  if negb (theme_ok t) then None
  else
    rows ← mapM (label_row mainStrings selection) (seqZ 0 7);
    Some (title_bar ++ [DrawStringCentered 20 2 TextColor (LangGet "SETTINGS") 280] ++ concat rows).

(** The body of the loop of [DrawLanguageSettings]. *)
Definition lang_row (selection sPos i : Z) : option (list gfx) :=
  b ← lookupZ langButtons i;
  name ← lookupZ languages (sPos + i);
  Some (mark_if (sPos + i) selection b ++
        [DrawStringCentered 20 (by_ b + 4) TextColor (Str name) 280]).

(** The rows the loop [for (i = 0; i < 6 && i < languages.size(); i++)]
    draws. *)
Definition lang_rows (selection sPos : Z) : option (list gfx) :=
  rows ← mapM (lang_row selection sPos) (seqZ 0 (Z.min 6 languages_size));
  Some (concat rows).

(** [static void DrawLanguageSettings(int selection, int sPos)] *)
Definition DrawLanguageSettings (t selection sPos : Z) : option (list gfx) :=
  if negb (theme_ok t) then None
  else
    add ← lookupZ langButtons 6;
    rows ← lang_rows selection sPos;
    Some (title_bar ++
          [DrawSprite sprites_arrow_idx (bx back) (by_ back);
           DrawSprite sprites_add_font_idx (bx add) (by_ add);
           DrawStringCentered 20 2 TextColor (LangGet "SELECT_LANG") 248] ++ rows).

(** [static void DrawSettingsDir(int selection)] *)
Definition DrawSettingsDir (t selection : Z) : option (list gfx) :=
  if negb (theme_ok t) then None
  else
    rows ← mapM (label_row dirStrings selection) (seqZ 0 5);
    Some (title_bar ++
          [DrawSprite sprites_arrow_idx (bx back) (by_ back);
           DrawStringCentered 20 2 TextColor (LangGet "DIRECTORY_SETTINGS") 248] ++ concat rows).

(** [(selection == i ? MarkSelected : MarkUnselected)] *)
Definition box_color (i selection : Z) : color_field :=
  if selection =? i then MarkSelected else MarkUnselected.

(** One toggle box of the auto-update and GUI pages: its frame, title,
    switch and description. *)
Definition toggle_box (y : Z) (i selection : Z) (title desc : string) (b : ButtonPos) (on : bool)
  : list gfx :=
  [Draw_Rect 40 y 280 24 (box_color i selection);
   DrawString 47 (y + 4) TextColor (LangGet title) 210;
   DrawToggle (bx b) (by_ b) on;
   DrawString 47 (y + 31) TextColor (LangGet desc) 265].

(** [static void DrawAutoUpdate(int selection)] *)
Definition DrawAutoUpdate (t selection : Z) (c : Config) : option (list gfx) :=
  if negb (theme_ok t) then None
  else
    t0 ← lookupZ toggleAbles 0;
    t1 ← lookupZ toggleAbles 1;
    Some (title_bar ++
          [DrawSprite sprites_arrow_idx (bx back) (by_ back);
           DrawStringCentered 20 2 TextColor (LangGet "AUTO_UPDATE_SETTINGS") 240] ++
          toggle_box 44 0 selection "AUTO_UPDATE_UNISTORE" "AUTO_UPDATE_UNISTORE_DESC" t0
            (toggles c AutoUpdate) ++
          toggle_box 120 1 selection "AUTO_UPDATE_UU" "AUTO_UPDATE_UU_DESC" t1
            (toggles c UpdateCheck)).

(** [static void DrawGUISettings(int selection)] *)
Definition DrawGUISettings (t selection : Z) (c : Config) : option (list gfx) :=
  if negb (theme_ok t) then None
  else
    t0 ← lookupZ toggleAbles 0;
    t1 ← lookupZ toggleAbles 1;
    name ← lookupZ ThemeNames t;
    Some (title_bar ++
          [DrawSprite sprites_arrow_idx (bx back) (by_ back);
           DrawStringCentered 20 2 TextColor (LangGet "GUI_SETTINGS") 248] ++
          toggle_box 44 0 selection "UNISTORE_BG" "UNISTORE_BG_DESC" t0 (toggles c UseBg) ++
          toggle_box 120 1 selection "CUSTOM_FONT" "CUSTOM_FONT_DESC" t1 (toggles c CustomFont) ++
          [Draw_Rect 40 196 280 24 (box_color 2 selection);
           DrawString 47 200 TextColor
             (Cat (Cat (LangGet "ACTIVE_THEME") (Str ": ")) (LangGet name)) 210]).

(** [void StoreUtils::DrawSettings(int page, int selection, int sPos)],
    with the theme and configuration it reads from [m]. *)
Definition DrawSettings (m : Menu) : option (list gfx) :=
  let t := SelectedTheme m in
  match page m with
  | 0 => DrawSettingsMain t (selection m)
  | 1 => DrawSettingsDir t (selection m)
  | 2 => DrawAutoUpdate t (selection m) (config m)
  | 3 => DrawGUISettings t (selection m) (config m)
  | 4 => DrawLanguageSettings t (selection m) (sPos m)
  | _ => Some []
  end.

End Draw.

(** ** Reference definitions *)

(** The corners of the rectangles drawn in the selection colour. *)
Definition highlighted (l : list gfx) : list (Z * Z) :=
  omap (λ g, match g with Draw_Rect x y _ _ MarkSelected => Some (x, y) | _ => None end) l.

(** The language page at window [sPos] shows the cursor's row: exactly
    one row is highlighted, the [selection - sPos]-th, and the name drawn
    in it is [languages[selection]]. *)
Definition lang_view_ok (selection sPos : Z) : bool :=
  match lang_rows selection sPos, lookupZ languages selection with
  | Some l, Some name =>
      bool_decide (highlighted l = [(45, 32 + 30 * (selection - sPos))]) &&
      bool_decide (DrawStringCentered 20 (36 + 30 * (selection - sPos)) TextColor (Str name) 280 ∈ l)
  | _, _ => false
  end.

(** ** Lemmas *)

(** Every window position of a well-formed language page, checked by
    evaluation: seven positions of the window, six rows each. *)
Lemma lang_view_all :
  Forall (λ sp, Forall (λ d, lang_view_ok (sp + d) sp = true) (seqZ 0 6)) (seqZ 0 7).
Proof. apply (bool_decide_unpack _). vm_compute. reflexivity. Qed.

Lemma lang_view_ok_wf selection sPos :
  0 <= sPos <= 6 -> sPos <= selection <= sPos + 5 -> lang_view_ok selection sPos = true.
Proof.
  intros Hp Hs. pose proof lang_view_all as H.
  rewrite Forall_forall in H. specialize (H sPos ltac:(apply elem_of_seqZ; lia)).
  rewrite Forall_forall in H. specialize (H (selection - sPos) ltac:(apply elem_of_seqZ; lia)).
  by replace (sPos + (selection - sPos)) with selection in H by lia.
Qed.

Lemma lang_view_ok_spec selection sPos :
  lang_view_ok selection sPos = true ->
  exists l name, lang_rows selection sPos = Some l /\ lookupZ languages selection = Some name /\
    highlighted l = [(45, 32 + 30 * (selection - sPos))] /\
    DrawStringCentered 20 (36 + 30 * (selection - sPos)) TextColor (Str name) 280 ∈ l.
Proof.
  unfold lang_view_ok. destruct (lang_rows _ _) as [l |]; [| discriminate].
  destruct (lookupZ languages selection) as [name |]; [| discriminate].
  rewrite andb_true_iff, !bool_decide_eq_true. intros [H1 H2]. eauto 6.
Qed.

(** The theme of a well-formed menu can be read. *)
Lemma theme_ok_wf THEME_AMOUNT m :
  menu_wf THEME_AMOUNT m -> theme_ok THEME_AMOUNT (SelectedTheme m) = true.
Proof. unfold menu_wf, theme_ok. intros (_ & _ & _ & _ & Ht). cmp_lia. Qed.

(** ** Properties *)

(** A well-formed state with one theme can be drawn. *)
Lemma DrawSettings_some THEME_AMOUNT m :
  menu_wf THEME_AMOUNT m -> THEME_AMOUNT <= 1 ->
  exists l, DrawSettings THEME_AMOUNT m = Some l.
Proof.
  intros Hwf Hn. pose proof (theme_ok_wf THEME_AMOUNT m Hwf) as Ht.
  destruct Hwf as (Hp & Hs & Hl & _ & Hth).
  assert (Ht0 : SelectedTheme m = 0) by lia.
  unfold DrawSettings. rewrite Ht0 in *.
  assert (page m = 0 \/ page m = 1 \/ page m = 2 \/ page m = 3 \/ page m = 4) as Hcase by lia.
  destruct Hcase as [Hq | [Hq | [Hq | [Hq | Hq]]]]; rewrite Hq;
    unfold DrawSettingsMain, DrawSettingsDir, DrawAutoUpdate, DrawGUISettings,
      DrawLanguageSettings; rewrite Ht; cbn -[lang_rows]; eauto.
  destruct (Hl Hq) as [Hsp Hsel].
  destruct (lang_view_ok_spec _ _ (lang_view_ok_wf (selection m) (sPos m) Hsp Hsel))
    as (l & _ & -> & _). eauto.
Qed.

(** C35. Drawing never reads out of range: with a single theme, every
    well-formed menu state (the states the handlers keep, [SettingsHandle_wf])
    is drawn by [DrawSettings] without reading past the end of
    [GFX::Themes], [mainButtons], [langButtons], [languages],
    [mainStrings], [dirStrings], [toggleAbles] or [ThemeNames]. *)
Theorem DrawSettings_total THEME_AMOUNT m :
  menu_wf THEME_AMOUNT m -> THEME_AMOUNT <= 1 ->
  exists l, DrawSettings THEME_AMOUNT m = Some l.
Proof. exact (DrawSettings_some THEME_AMOUNT m). Qed.

(** C36. The theme label is read past the end of [ThemeNames]: the GUI
    page draws [ThemeNames[GFX::SelectedTheme]], and [ThemeNames] has one
    entry, so every state on that page whose theme is not the first one
    (which [next_theme] reaches whenever [_THEME_AMOUNT > 1]) reads out of
    range. *)
Theorem DrawGUISettings_theme_out_of_range THEME_AMOUNT m :
  menu_wf THEME_AMOUNT m -> page m = 3 -> 1 <= SelectedTheme m ->
  DrawSettings THEME_AMOUNT m = None.
Proof.
  intros Hwf Hp Ht. pose proof (theme_ok_wf THEME_AMOUNT m Hwf) as Hok.
  unfold DrawSettings. rewrite Hp. unfold DrawGUISettings. rewrite Hok. cbn.
  unfold lookupZ. destruct (Z.ltb_spec (SelectedTheme m) 0); [lia |].
  rewrite lookup_ge_None_2; [reflexivity | cbn; lia].
Qed.

(** C37. The cursor is always visible on the language page: in a
    well-formed state exactly one of the six rows is highlighted, the
    [selection - sPos]-th, and it shows the name of [languages[selection]],
    the language A would select. *)
Theorem language_cursor_visible THEME_AMOUNT m :
  menu_wf THEME_AMOUNT m -> page m = 4 ->
  exists l name, DrawSettings THEME_AMOUNT m = Some l /\
    lookupZ languages (selection m) = Some name /\
    highlighted l = [(45, 32 + 30 * (selection m - sPos m))] /\
    DrawStringCentered 20 (36 + 30 * (selection m - sPos m)) TextColor (Str name) 280 ∈ l.
Proof.
  intros Hwf Hp. pose proof (theme_ok_wf THEME_AMOUNT m Hwf) as Hok.
  destruct Hwf as (_ & _ & Hl & _). destruct (Hl Hp) as [Hsp Hsel].
  destruct (lang_view_ok_spec _ _ (lang_view_ok_wf (selection m) (sPos m) Hsp Hsel))
    as (l & name & Hr & Hn & Hh & Hin).
  unfold DrawSettings. rewrite Hp. unfold DrawLanguageSettings. rewrite Hok, Hr. cbn -[highlighted].
  eexists _, name. split; [reflexivity |]. split; [exact Hn |]. split.
  - exact Hh.
  - do 5 apply list_elem_of_further. exact Hin.
Qed.

(** ** Witnesses *)

Lemma DrawSettings_total_witness :
  exists l, DrawSettings 1 (menu_at 4 9 4 0) = Some l.
Proof.
  apply (DrawSettings_total 1 (menu_at 4 9 4 0)); [| lia].
  unfold menu_wf, menu_at. cbn. lia.
Defined.

Lemma DrawGUISettings_theme_out_of_range_witness :
  DrawSettings 2 (menu_at 3 2 0 1) = None.
Proof.
  apply (DrawGUISettings_theme_out_of_range 2 (menu_at 3 2 0 1)); [| reflexivity | cbn; lia].
  unfold menu_wf, menu_at. cbn. lia.
Defined.

Lemma language_cursor_visible_witness :
  exists l name, DrawSettings 1 (menu_at 4 9 4 0) = Some l /\
    lookupZ languages (selection (menu_at 4 9 4 0)) = Some name /\
    highlighted l = [(45, 32 + 30 * (selection (menu_at 4 9 4 0) - sPos (menu_at 4 9 4 0)))] /\
    DrawStringCentered 20 (36 + 30 * (selection (menu_at 4 9 4 0) - sPos (menu_at 4 9 4 0)))
      TextColor (Str name) 280 ∈ l.
Proof.
  apply (language_cursor_visible 1 (menu_at 4 9 4 0)); [| reflexivity].
  unfold menu_wf, menu_at. cbn. lia.
Defined.

End SettingsDraw.
