(* ===== verification/App.v ===== *)
(** * The application of UniversalUpdater.cpp: bootstrap and main loop

    [UU::Initialize] brings up the FAT and NitroFS file systems (trying
    three locations of the .nds file), creates the application's
    directories, loads graphics and classes, starts Wi-Fi and the echo
    server of [EchoServer].  [UU::Handler] then draws once and runs the
    main loop: each frame waits for the vertical blank, runs one tick of
    the echo server, prints the console's IP address and, once that
    address is on a 10.x.x.x network, downloads a fixed file with
    [Download.downloadToFile], prints the result and waits for ever;
    otherwise START leaves the loop, after which the configuration is
    saved and [Handler] returns 0.

    The object's members the code reads or writes ([Exiting], [TMode],
    whether the store is valid), the globals of the echo server and of
    Downloading.cpp and the SD card are the record [UU]; what
    the libraries draw, print or create is an ordered trace of
    [app_event]s.  A frame's inputs (what [accept] returns and the client
    behind it, the IP address, the transfer the network performs, the
    keys) are a [Frame].  [frame] is one iteration of the [while] loop,
    [run] a sequence of them, and [reachable] the states a run reaches, so
    the invariant of the loop is proved by induction on [reachable]. *)

From S2P Require Import Prelude Buffer Curl Download EchoServer Input.
From Stdlib Require Import Btauto.
From coqutil.Z Require Import bitblast.

Module App.
Import Buffer Curl Download EchoServer.
Open Scope Z_scope.

(** ** Data *)

(** [enum class TopMode { Grid, List }] of UniversalUpdater.hpp. *)
Inductive TopMode := Grid | List.

(** libnds key masks (input.h: [KEY_x = BIT(n)]). *)
Definition KEY_B : Z := Z.shiftl 1 1.
Definition KEY_START : Z := Z.shiftl 1 3.

(** [constexpr uint16_t Palette[]] (lines 150-153). *)
Definition Palette : list Z :=
  [0x0000; 0xFFFF; 0xFFFF; 0xFFFF; 0xB126; 0xB126; 0xB126; 0xB126;
   0x9883; 0x9883; 0x9883; 0x9883; 0xA4A5; 0xA4A5; 0xA4A5; 0xA4A5;
   0xFFFF; 0xB9CE; 0xD6B5; 0xFFFF; 0xCE0D; 0xCE0D; 0xCE0D; 0xCE0D;
   0xC189; 0xC189; 0xC189; 0xC189; 0xF735; 0xC1CC; 0xD22E; 0xF735].

(** The directories created by [Initialize], in order. *)
Definition uu_dirs : list string :=
  ["/_nds"; "/_nds/Universal-Updater"; "/_nds/Universal-Updater/stores";
   "/_nds/Universal-Updater/shortcuts"].

(** The fonts passed to [Gui::init]. *)
Definition uu_fonts : list string :=
  ["sd:/_nds/Universal-Updater/font.nftr"; "fat:/_nds/Universal-Updater/font.nftr";
   "nitro:/graphics/font/default.nftr"].

Definition NITRO_LOCAL : string := "Universal-Updater.nds".
Definition NITRO_NDS : string := "/_nds/Universal-Updater/Universal-Updater.nds".

(** What [UU::Draw] asks the graphics classes to draw, in order. *)
Inductive draw_call :=
| DTop                       (* GData->DrawTop() *)
| DTitle                     (* DrawStringCentered(..., Store->GetUniStoreTitle(), ...) *)
| DInvalidStore              (* DrawStringCentered(..., "Invalid UniStore", ...) *)
| DGrid                      (* TGrid->Draw() *)
| DList                      (* TList->Draw() *)
| DTabsTop                   (* _Tabs->DrawTop() *)
| DUpdateFont (b : bool)     (* GData->UpdateFont(b) *)
| DBottom                    (* GData->DrawBottom() *)
| DTabsBottom.               (* _Tabs->DrawBottom() *)

(** What the application does outside its own state, in order. *)
Inductive app_event :=
| AKeysSetRepeat (delay rate : Z)         (* keysSetRepeat(20, 8) *)
| AFatInit                                (* fatInitDefault() *)
| ANitroFSInit (path : string)            (* nitroFSInit(path) *)
| AMkdir (path : string)                  (* mkdir(path, 0x777) *)
| AGuiInit (fonts : list string)          (* Gui::init({...}) *)
| APalette (sub : bool) (p : list Z)      (* tonccpy(BG_PALETTE(_SUB), Palette, ...) *)
| ALoadClasses                            (* the make_unique of lines 158-166 *)
| AConsoleDemoInit                        (* consoleDemoInit() *)
| AWifiInit                               (* DSiWifi_Set*Handler, DSiWifi_InitDefault(true) *)
| ANet (e : net_event)                    (* the echo server's socket calls *)
| ADraw (c : draw_call)                   (* UU::Draw *)
| AUpdate (m : TopMode)                   (* TGrid->Update() / TList->Update() *)
| AUpdateSprites                          (* GData->UpdateUniStoreSprites() *)
| AVBlank                                 (* swiWaitForVBlank() *)
| APrintIP (a b c d : Z)                  (* iprintf("... Cur IP: %u.%u.%u.%u ...") *)
| ADownload (e : dl_event)                (* what downloadToFile does *)
| APrintResult (r : Z)                    (* printf("%d\n", downloadToFile(...)) *)
| APrintAsdf                              (* iprintf("asdf\n") *)
| ASave.                                  (* CData->Sav() *)

(** Where the main loop is: running, spinning in [while(1)
    swiWaitForVBlank();] after the download, or returned from [Handler]. *)
Inductive phase := Looping | Stalled | Returned (r : Z).

Record UU := MkUU {
  ph : phase;
  Exiting : bool;
  TMode : TopMode;
  StoreValid : bool;          (* this->Store && this->Store->UniStoreValid() *)
  echo : echo_globals;        (* the globals lSocket and sLocalAddr *)
  dl : DlState;               (* ResultBuf, Result_Size, Result_Written *)
  disk : files;
  trace : list app_event
}.

Definition emit (u : UU) (ev : list app_event) : UU :=
  MkUU (ph u) (Exiting u) (TMode u) (StoreValid u) (echo u) (dl u) (disk u) (trace u ++ ev).

Definition set_ph (u : UU) (p : phase) : UU :=
  MkUU p (Exiting u) (TMode u) (StoreValid u) (echo u) (dl u) (disk u) (trace u).

Definition set_download (u : UU) (s : DlState) (fs : files) : UU :=
  MkUU (ph u) (Exiting u) (TMode u) (StoreValid u) (echo u) s fs (trace u).

Definition set_TMode (u : UU) (m : TopMode) : UU :=
  MkUU (ph u) (Exiting u) m (StoreValid u) (echo u) (dl u) (disk u) (trace u).

(** ** Initialization *)

(** What the file systems and the network answer during [Initialize]. *)
Record InitEnv := MkInitEnv {
  fat_ok : bool;                  (* fatInitDefault() *)
  nitro_ok : string -> bool;      (* nitroFSInit(path) *)
  ARGV0 : string;                 (* ARGV[0] *)
  net : NetEnv
}.

(** Lines 127-139: the locations tried, in order, up to the first that
    works; [None] when none does. *)
Definition nitro_attempts (e : InitEnv) : option (list string) :=
  if nitro_ok e (ARGV0 e) then Some [ARGV0 e]
  else if nitro_ok e NITRO_LOCAL then Some [ARGV0 e; NITRO_LOCAL]
  else if nitro_ok e NITRO_NDS then Some [ARGV0 e; NITRO_LOCAL; NITRO_NDS]
  else None.

(** [void UU::Initialize(char *ARGV[])] from the echo server's globals
    [g]: the globals it leaves and the events, or [Hang] where the code
    spins in [while (1) swiWaitForVBlank();]. *)
Definition Initialize (e : InitEnv) (g : echo_globals) : res (echo_globals * list app_event) :=
  if negb (fat_ok e) then Hang
  else
    match nitro_attempts e with
    | None => Hang
    | Some tried =>
        '(g', nev) ← appwifi_echoserver (net e) g;
        Ok (g', [AKeysSetRepeat 20 8; AFatInit] ++ map ANitroFSInit tried ++
                map AMkdir uu_dirs ++
                [AGuiInit uu_fonts; APalette false Palette; APalette true Palette;
                 ALoadClasses; AConsoleDemoInit; AWifiInit] ++ map ANet nev)
    end.

(** ** Input *)

(** [touchPosition] of libnds: [px], [py] are [u16]. *)
Definition u16 (z : Z) : Z := z mod 2 ^ 16.

(** [void UU::ScanInput()]: [Down], [Repeat] and the touch position scaled
    by 5/4 in [int] arithmetic and stored back into the [u16] fields. *)
Definition ScanInput (keysDown keysDownRepeat : Z) (raw : Z * Z) : Z * Z * (Z * Z) :=
  (keysDown, keysDownRepeat, (u16 (Z.quot (fst raw * 5) 4), u16 (Z.quot (snd raw * 5) 4))).

(** [memcpy(addr_bytes, &addr, 4)] on the little-endian ARM9. *)
Definition addr_byte (addr : Z) (i : Z) : Z := Z.land (Z.shiftr addr (8 * i)) 255.

(** ** Drawing *)

(** [void UU::Draw()] *)
Definition Draw (u : UU) : list draw_call :=
  [DTop] ++
  (if StoreValid u then
     [DTitle; match TMode u with Grid => DGrid | List => DList end; DTabsTop]
   else [DInvalidStore]) ++
  [DUpdateFont true; DBottom; DTabsBottom; DUpdateFont false].

(** [void UU::SwitchTopMode(const UU::TopMode TMode)] *)
Definition SwitchTopMode (u : UU) (m : TopMode) : UU :=
  emit (set_TMode u m) [AUpdate m; AUpdateSprites].

(** ** The main loop *)

(** The inputs of one frame. *)
Record Frame := MkFrame {
  accept_ret : Z;          (* accept(lSocket, ...) *)
  client : Peer;           (* the client behind it *)
  ip : Z;                  (* DSiWifi_GetIP() *)
  transfer : Transfer;     (* what the network does for the download *)
  keys : Z                 (* keysDown() after scanKeys() *)
}.

(** [break;] out of the loop, then [this->CData->Sav(); return 0;]. *)
Definition leave (u : UU) : UU := set_ph (emit u [ASave]) (Returned 0).

(** One iteration of [while (!this->Exiting) { ... }] (lines 236-279). *)
Definition frame `{Heap} `{Storage} (u : UU) (f : Frame) : res UU :=
  match ph u with
  | Returned _ => Ok u
  | Stalled => Ok (emit u [AVBlank])
  | Looping =>
      if Exiting u then Ok (leave u)
      else
        nev ← appwifi_echoserver_tick (echo u) (accept_ret f) (client f);
        let a := ip f in
        let u1 := emit u ([AVBlank] ++ map ANet nev ++
                          [APrintIP (addr_byte a 0) (addr_byte a 1) (addr_byte a 2) (addr_byte a 3)]) in
        if addr_byte a 0 =? 10 then
          '(r, s', fs', dev) ← downloadToFile hi_url hi_path (transfer f) (dl u1) (disk u1);
          Ok (set_ph (emit (set_download u1 s' fs') (map ADownload dev ++ [APrintResult r])) Stalled)
        else
          let u2 := emit u1 [AVBlank] in
          if Input.pressed (keys f) KEY_START then Ok (leave u2)
          else if Input.pressed (keys f) KEY_B then Ok (emit u2 [APrintAsdf])
          else Ok u2
  end.

(** The loop over a sequence of frames. *)
Fixpoint run `{Heap} `{Storage} (u : UU) (frames : list Frame) : res UU :=
  match frames with
  | [] => Ok u
  | f :: frames' => frame u f ≫= λ u', run u' frames'
  end.

(** [int UU::Handler(char *ARGV[])] from the members [u0] the constructor
    left and the SD card, over the given frames.  The download globals
    start as their static initializers, [dl_reset]. *)
Definition Handler `{Heap} `{Storage} (e : InitEnv) (u0 : UU) (frames : list Frame) : res UU :=
  '(g, ev) ← Initialize e (echo u0);
  let u1 := MkUU Looping (Exiting u0) (TMode u0) (StoreValid u0) g dl_reset (disk u0)
                 (trace u0 ++ ev) in
  run (emit u1 (map ADraw (Draw u1) ++ [AConsoleDemoInit])) frames.

(** The states the loop reaches from [u0], one frame at a time. *)
Inductive reachable `{Heap} `{Storage} (u0 : UU) : UU -> Prop :=
| reach_start : reachable u0 u0
| reach_frame u f u' : reachable u0 u -> frame u f = Ok u' -> reachable u0 u'.

(** ** Reference definitions *)

(** The number of downloads in a trace (one [printf] of a result each). *)
Definition is_result (e : app_event) : bool :=
  match e with APrintResult _ => true | _ => false end.

Definition downloads (ev : list app_event) : nat := length (List.filter is_result ev).

(** The calls on the listening socket in the application's events name
    [fd]. *)
Definition on_app_listener (fd : Z) (e : app_event) : Prop :=
  match e with ANet ne => on_listener fd ne | _ => True end.

(** A frame the loop gets through: [accept] finds no client or one that
    ends, and a download stays within [2^31] bytes. *)
Definition frame_ok (f : Frame) : Prop :=
  (accept_ret f <= 0 \/ fin (client f) <> PeerSilent) /\ body_size (transfer f) <= 2 ^ 31.

(** The invariant of the loop from a running state [u0] with clear
    download globals: the members and globals are unchanged, the trace
    only grows, no file but [sd:/hi.txt] changes, and the phase tells how
    many downloads ran: none while looping or after returning (which
    returns 0 after saving), exactly one once stalled. *)
Definition loop_inv (u0 u : UU) : Prop :=
  Exiting u = Exiting u0 /\ TMode u = TMode u0 /\ StoreValid u = StoreValid u0 /\
  echo u = echo u0 /\ dl u = dl_reset /\ trace u0 `prefix_of` trace u /\
  (forall p, p <> hi_path -> disk u !! p = disk u0 !! p) /\
  match ph u with
  | Looping => downloads (trace u) = downloads (trace u0)
  | Stalled => downloads (trace u) = S (downloads (trace u0))
  | Returned r => r = 0 /\ last (trace u) = Some ASave /\
                  downloads (trace u) = downloads (trace u0)
  end.

(** The IPv4 address [o0.o1.o2.o3] as lwIP stores it: in network byte
    order, so [o0] is the byte at the lowest address. *)
Definition ip4 (o0 o1 o2 o3 : Z) : Z :=
  Z.lor (Z.lor o0 (Z.shiftl o1 8)) (Z.lor (Z.shiftl o2 16) (Z.shiftl o3 24)).

(** Fixtures. *)
Definition boot_env : InitEnv :=
  MkInitEnv true (λ p, String.eqb p NITRO_NDS) "fat:/boot.nds" (MkNetEnv 0 0 0).
Definition no_nitro_env : InitEnv :=
  MkInitEnv true (λ _, false) "fat:/boot.nds" (MkNetEnv 0 0 0).
(** The events of a boot from [boot_env]. *)
Definition boot_events : list app_event :=
  match Initialize boot_env globals0 with Ok (_, ev) => ev | _ => [] end.
Definition boot_globals : echo_globals :=
  match Initialize boot_env globals0 with Ok (g, _) => g | _ => globals0 end.

Definition uu0 : UU := MkUU Looping false Grid true globals0 dl_reset ∅ [].
Definition idle_frame (addr k : Z) : Frame :=
  MkFrame (-1) (MkPeer [] PeerClosed) addr hi_transfer k.
(** A frame whose [accept] returns a client that connects and stays
    silent. *)
Definition silent_frame : Frame :=
  MkFrame 1 (MkPeer [] PeerSilent) (ip4 192 168 1 2) hi_transfer 0.

(** ** Lemmas on traces *)

Lemma downloads_app a b : downloads (a ++ b) = (downloads a + downloads b)%nat.
Proof. unfold downloads. rewrite List.filter_app, length_app. reflexivity. Qed.

Lemma downloads_map {A} (g : A -> app_event) l :
  (forall x, is_result (g x) = false) -> downloads (map g l) = 0%nat.
Proof. intros Hg. induction l as [| x l IH]; cbn; [reflexivity | rewrite Hg; exact IH]. Qed.

Lemma downloads_nil : downloads [] = 0%nat.
Proof. reflexivity. Qed.

Lemma downloads_cons e l : downloads (e :: l) = ((if is_result e then 1 else 0) + downloads l)%nat.
Proof. unfold downloads. cbn. destruct (is_result e); reflexivity. Qed.

Create Rewrite HintDb app_rw.
#[export] Hint Rewrite downloads_app downloads_nil downloads_cons : app_rw.
#[export] Hint Rewrite @downloads_map using (intros; reflexivity) : app_rw.

(** A download changes no file but its destination. *)
Lemma disk_after_download (fs0 fs fs' : files) :
  (forall p, p <> hi_path -> fs !! p = fs0 !! p) ->
  (fs' = fs \/ exists d, fs' = <[hi_path := d]> fs) ->
  forall p, p <> hi_path -> fs' !! p = fs0 !! p.
Proof.
  intros Hfs [-> | [d ->]] p Hp; [auto |]. rewrite lookup_insert_ne by congruence. auto.
Qed.

(** Unfolds the state updates of a frame. *)
Ltac uu_cbn :=
  unfold loop_inv, leave, set_ph, emit, set_download in *;
  cbn -[downloads downloadToFile] in *.

(** Closes the field goals of [loop_inv] after a frame. *)
Ltac inv_close :=
  repeat split; auto using prefix_app_r; try congruence;
  rewrite ?app_assoc, ?last_snoc; try reflexivity; autorewrite with app_rw; cbn; lia.

(** The frame's branches, as the invariant needs them. *)
Lemma frame_inv_step `{Heap} `{Storage} u0 u f u' :
  loop_inv u0 u -> frame u f = Ok u' -> loop_inv u0 u'.
Proof.
  intros (HE & HT & HS & HL & Hdl & Hpre & Hdisk & Hph) Hf.
  unfold frame in Hf. destruct (ph u) eqn:Eph.
  - destruct (Exiting u) eqn:Ex.
    + injection Hf as <-. uu_cbn. inv_close.
    + destruct (appwifi_echoserver_tick _ _ _) as [nev | |]; [| discriminate | discriminate].
      rewrite res_bind_Ok in Hf. uu_cbn. rewrite Hdl in Hf.
      destruct (addr_byte (ip f) 0 =? 10).
      * destruct (downloadToFile _ _ _ _ _) as [[[[r s'] fs'] dev] | |] eqn:Ed;
          [| discriminate | discriminate].
        injection Hf as <-. cbn -[downloads].
        destruct (downloadToFile_resets _ _ _ _ _ _ _ _ _ Ed) as (-> & _ & _ & Hfs).
        split; [congruence |]. do 5 (split; [auto using prefix_app_r |]).
        split; [exact (disk_after_download _ _ _ Hdisk Hfs) |]. inv_close.
      * repeat case_match; injection Hf as <-; uu_cbn; inv_close.
  - injection Hf as <-. uu_cbn. rewrite Eph. inv_close.
  - injection Hf as <-. unfold loop_inv. rewrite Eph. auto 10.
Qed.

(** A stalled loop only waits for the vertical blank. *)
Lemma run_stalled `{Heap} `{Storage} u frames :
  ph u = Stalled ->
  run u frames = Ok (emit u (repeat AVBlank (length frames))).
Proof.
  revert u. induction frames as [| f frames IH]; intros u Hp; cbn [run length repeat].
  - unfold emit. cbn [repeat]. rewrite app_nil_r. destruct u; reflexivity.
  - unfold frame at 1. rewrite Hp, res_bind_Ok, IH by exact Hp.
    unfold emit. cbn. rewrite <- app_assoc. reflexivity.
Qed.

Lemma Forall_on_app_listener_net fd nev :
  Forall (on_listener fd) nev -> Forall (on_app_listener fd) (map ANet nev).
Proof. intros H. apply Forall_map. exact H. Qed.

(** Closes [Forall (on_app_listener fd) ev] for the events of a frame. *)
Ltac listener_tac :=
  repeat first [ apply Forall_app; split
               | apply Forall_on_app_listener_net; assumption
               | apply Forall_map, Forall_true; intros; exact I
               | constructor ].

(** A frame keeps the echo server's globals, and every call it makes on
    the listening socket uses [lSocket]. *)
Lemma frame_echo `{Heap} `{Storage} u f u' :
  frame u f = Ok u' ->
  echo u' = echo u /\ exists ev, trace u' = trace u ++ ev /\ Forall (on_app_listener (lSocket (echo u))) ev.
Proof.
  intros Hf. unfold frame in Hf. destruct (ph u).
  - destruct (Exiting u).
    + injection Hf as <-. uu_cbn. split; [reflexivity |]. eexists; split; [reflexivity | repeat constructor].
    + destruct (appwifi_echoserver_tick _ _ _) as [nev | |] eqn:Et; [| discriminate | discriminate].
      apply appwifi_echoserver_tick_listener in Et.
      rewrite res_bind_Ok in Hf. uu_cbn.
      destruct (addr_byte (ip f) 0 =? 10).
      * destruct (downloadToFile _ _ _ _ _) as [[[[r s'] fs'] dev] | |]; [| discriminate | discriminate].
        injection Hf as <-. cbn. split; [reflexivity |]. eexists. rewrite <- app_assoc.
        split; [reflexivity |]. listener_tac.
      * repeat case_match; injection Hf as <-; cbn; (split; [reflexivity |]); eexists;
          rewrite <- ?app_assoc; (split; [reflexivity |]); listener_tac.
  - injection Hf as <-. uu_cbn. split; [reflexivity |]. eexists; split; [reflexivity | repeat constructor].
  - injection Hf as <-. split; [reflexivity |]. exists []. rewrite app_nil_r. auto.
Qed.

Lemma run_echo `{Heap} `{Storage} u frames u' :
  run u frames = Ok u' ->
  echo u' = echo u /\ exists ev, trace u' = trace u ++ ev /\ Forall (on_app_listener (lSocket (echo u))) ev.
Proof.
  revert u. induction frames as [| f frames IH]; intros u Hr; cbn [run] in Hr.
  - injection Hr as <-. split; [reflexivity |]. exists []. rewrite app_nil_r. auto.
  - destruct (frame u f) as [u1 | |] eqn:Ef; [| discriminate | discriminate].
    rewrite res_bind_Ok in Hr.
    destruct (frame_echo u f u1 Ef) as (He1 & ev1 & Ht1 & Hl1).
    destruct (IH u1 Hr) as (He2 & ev2 & Ht2 & Hl2).
    split; [congruence |]. exists (ev1 ++ ev2). rewrite Ht2, Ht1, app_assoc.
    split; [reflexivity |]. rewrite He1 in Hl2. apply Forall_app. auto.
Qed.

(** A frame the loop gets through returns, with the download globals
    clear again. *)
Lemma frame_returns `{Heap} `{Storage} u f :
  dl u = dl_reset -> frame_ok f -> exists u', frame u f = Ok u' /\ dl u' = dl_reset.
Proof.
  intros Hd [Hc Hb]. unfold frame. destruct (ph u); [| eauto | eauto].
  destruct (Exiting u); [eauto |].
  destruct (appwifi_echoserver_tick_returns (echo u) _ _ Hc) as [nev ->].
  rewrite res_bind_Ok. uu_cbn. destruct (addr_byte (ip f) 0 =? 10).
  - rewrite Hd. destruct (downloadToFile_total hi_url hi_path (transfer f) (disk u) Hb)
      as (r & fs' & ev & ->).
    rewrite res_bind_Ok. eauto.
  - repeat case_match; eauto.
Qed.

(** [Initialize] leaves the socket and address of [appwifi_echoserver] in
    the globals; it makes no call on the listening socket but [socket],
    [bind] and [listen]. *)
Lemma Initialize_echo e g g' ev :
  Initialize e g = Ok (g', ev) ->
  g' = MkGlobals (socket_ret (net e)) local_addr /\ 0 <= socket_ret (net e) /\
  Forall (on_app_listener (socket_ret (net e))) ev.
Proof.
  unfold Initialize. destruct (negb (fat_ok e)); [discriminate |].
  destruct (nitro_attempts e); [| discriminate].
  destruct (appwifi_echoserver (net e) g) as [[g1 nev] | |] eqn:Es; [| discriminate | discriminate].
  destruct (appwifi_echoserver_ok _ _ _ _ Es) as (-> & Hs & ->).
  rewrite res_bind_Ok. intros Hi. injection Hi as <- <-. split; [reflexivity |].
  split; [exact Hs | listener_tac].
Qed.

(** ** Properties of the main loop *)

(** C26. Invariant of the main loop, by induction on the frames run from
    a looping state with clear download globals: the members and the
    globals of Downloading.cpp stay as they were (the buffer is freed
    after every download), the trace only grows, no file other than
    [sd:/hi.txt] changes, at most one download ever runs (exactly one
    once the loop is stalled), and a loop that returned returned 0 after
    saving the configuration. *)
Theorem reachable_loop_inv `{Heap} `{Storage} u0 u :
  ph u0 = Looping -> dl u0 = dl_reset -> reachable u0 u -> loop_inv u0 u.
Proof.
  intros Hp Hd Hr. induction Hr as [| u f u' _ IH Hf].
  - unfold loop_inv. rewrite Hp. repeat split; auto.
  - exact (frame_inv_step u0 u f u' IH Hf).
Qed.

(** C27. The download frame: on a 10.x.x.x network, after the echo tick
    returns, a transfer that succeeds (every allocation works, the card
    opens [sd:/hi.txt], at most 50 redirects, at most [2^31] bytes) leaves
    the body in [sd:/hi.txt], clears the download globals, prints 0 and
    stalls the loop. *)
Theorem frame_downloads `{Heap} `{Storage} u f nev :
  ph u = Looping -> Exiting u = false -> dl u = dl_reset ->
  appwifi_echoserver_tick (echo u) (accept_ret f) (client f) = Ok nev ->
  addr_byte (ip f) 0 = 10 ->
  (forall n, alloc_ok n = true) -> fopen_ok hi_path = true ->
  xfer_redirects (transfer f) <= 50 -> xfer_result (transfer f) = CURLE_OK ->
  body_size (transfer f) <= 2 ^ 31 ->
  exists ev, frame u f =
    Ok (MkUU Stalled (Exiting u) (TMode u) (StoreValid u) (echo u) dl_reset
             (<[hi_path := concat (xfer_body (transfer f))]> (disk u)) (trace u ++ ev)) /\
    last ev = Some (APrintResult 0).
Proof.
  intros Hp Hx Hd Ht Hip Hok Hopen Hr Hres Hb.
  destruct (downloadToFile_success hi_url hi_path (transfer f) (disk u) Hok Hopen Hr Hres Hb)
    as [dev Hdev].
  unfold frame. rewrite Hp, Hx, Ht, res_bind_Ok, Hip. cbn -[downloadToFile].
  rewrite Hd, Hdev, res_bind_Ok. eexists. split.
  - unfold set_ph, emit, set_download. cbn. rewrite <- app_assoc, Hx. reflexivity.
  - rewrite !app_assoc, last_snoc. reflexivity.
Qed.

(** C28. The download frame stalls the loop for good: on a 10.x.x.x
    network, after the echo tick returns, the frame runs the download
    (whatever its outcome, for every allocator, within [2^31] bytes),
    prints its result and enters [while(1) swiWaitForVBlank();]; every
    later frame only waits for the vertical blank, so no file is written,
    the configuration is never saved and [Handler] never returns. *)
Theorem download_stalls_forever `{Heap} `{Storage} u f nev frames :
  ph u = Looping -> Exiting u = false -> dl u = dl_reset ->
  appwifi_echoserver_tick (echo u) (accept_ret f) (client f) = Ok nev ->
  addr_byte (ip f) 0 = 10 -> body_size (transfer f) <= 2 ^ 31 ->
  exists u1 r, frame u f = Ok u1 /\ ph u1 = Stalled /\ last (trace u1) = Some (APrintResult r) /\
    run u (f :: frames) = Ok (emit u1 (repeat AVBlank (length frames))).
Proof.
  intros Hp Hx Hd Ht Hip Hb.
  destruct (downloadToFile_total hi_url hi_path (transfer f) (disk u) Hb) as (r & fs' & dev & Hdev).
  assert (Hf : frame u f =
    Ok (set_ph (emit (set_download (emit u ([AVBlank] ++ map ANet nev ++
          [APrintIP (addr_byte (ip f) 0) (addr_byte (ip f) 1) (addr_byte (ip f) 2) (addr_byte (ip f) 3)]))
          dl_reset fs') (map ADownload dev ++ [APrintResult r])) Stalled)).
  { unfold frame. rewrite Hp, Hx, Ht, res_bind_Ok, Hip. cbn -[downloadToFile].
    rewrite Hd, Hdev, res_bind_Ok. reflexivity. }
  eexists _, r. split; [exact Hf |]. split; [reflexivity |]. split.
  - unfold set_ph, emit, set_download. cbn. rewrite app_assoc, last_snoc. reflexivity.
  - cbn [run]. rewrite Hf, res_bind_Ok. apply run_stalled. reflexivity.
Qed.

(** C29. START leaves the loop: when the frame's address is not on a
    10.x.x.x network and the echo tick returns, START makes [Handler] save
    the configuration and return 0, without a download. *)
Theorem start_leaves `{Heap} `{Storage} u f nev :
  ph u = Looping -> Exiting u = false ->
  appwifi_echoserver_tick (echo u) (accept_ret f) (client f) = Ok nev ->
  addr_byte (ip f) 0 <> 10 -> Input.pressed (keys f) KEY_START = true ->
  exists ev, frame u f = Ok (set_ph (emit u ev) (Returned 0)) /\
    last ev = Some ASave /\ downloads ev = 0%nat.
Proof.
  intros Hp Hx Ht Hip Hs.
  unfold frame. rewrite Hp, Hx, Ht, res_bind_Ok.
  destruct (Z.eqb_spec (addr_byte (ip f) 0) 10) as [| _]; [contradiction |]. rewrite Hs.
  eexists. split; [| split].
  - unfold leave, emit, set_ph. cbn. rewrite <- !app_assoc. reflexivity.
  - rewrite !app_assoc, last_snoc. reflexivity.
  - autorewrite with app_rw. reflexivity.
Qed.

(** C32. The main loop hangs only on a silent client: from clear download
    globals, a run of frames in each of which [accept] finds no client or
    one that ends and the download stays within [2^31] bytes returns, for
    every allocator and every card; and a looping frame whose [accept]
    returns a client that neither sends nor closes hangs the run there. *)
Theorem run_hangs_only_on_silent_client `{Heap} `{Storage} u frames :
  (dl u = dl_reset -> Forall frame_ok frames -> exists u', run u frames = Ok u') /\
  (forall f, ph u = Looping -> Exiting u = false -> 0 < accept_ret f ->
     fin (client f) = PeerSilent -> run u (f :: frames) = Hang).
Proof.
  split.
  - revert u. induction frames as [| f frames IH]; intros u Hd Hf; [eauto |].
    apply Forall_cons in Hf as [Hf Hfs]. cbn [run].
    destruct (frame_returns u f Hd Hf) as (u1 & -> & Hd1).
    rewrite res_bind_Ok. exact (IH u1 Hd1 Hfs).
  - intros f Hp Hx Hc Hs. cbn [run]. unfold frame.
    rewrite Hp, Hx, (appwifi_echoserver_tick_silent _ _ _ Hc Hs). reflexivity.
Qed.

(** C34. The listening socket the loop serves is the one
    [appwifi_echoserver] bound: when [UU::Handler] returns, the globals
    hold the descriptor [socket] gave and the address of port 1234 on
    every interface, and every [fcntl] and [accept] of every frame was
    made on that descriptor, whatever the globals held before. *)
Theorem Handler_serves_bound_socket `{Heap} `{Storage} e u0 frames u :
  Handler e u0 frames = Ok u ->
  0 <= socket_ret (net e) /\ echo u = MkGlobals (socket_ret (net e)) local_addr /\
  exists ev, trace u = trace u0 ++ ev /\ Forall (on_app_listener (socket_ret (net e))) ev.
Proof.
  unfold Handler. destruct (Initialize e (echo u0)) as [[g ev0] | |] eqn:Ei; [| discriminate | discriminate].
  destruct (Initialize_echo _ _ _ _ Ei) as (-> & Hs & Hl0).
  rewrite res_bind_Ok. cbv beta iota. intros Hr.
  destruct (run_echo _ _ _ Hr) as (He & ev & Ht & Hl). cbn in He, Ht, Hl.
  split; [exact Hs |]. split; [exact He |].
  eexists. rewrite Ht, <- !app_assoc. split; [reflexivity |].
  apply Forall_app. split; [exact Hl0 |]. apply Forall_app. split; [listener_tac | exact Hl].
Qed.

(** ** Properties of the bootstrap and of the input helpers *)

(** C30. [UU::Initialize] spins for ever exactly when the FAT file system
    does not come up, or NitroFS mounts from none of its three locations,
    or the echo server cannot listen; it never faults. *)
Theorem Initialize_hangs_iff e g :
  Initialize e g <> Fault /\
  (Initialize e g = Hang <->
   fat_ok e = false \/
   (nitro_ok e (ARGV0 e) = false /\ nitro_ok e NITRO_LOCAL = false /\
    nitro_ok e NITRO_NDS = false) \/
   appwifi_echoserver (net e) g = Hang).
Proof.
  unfold Initialize, nitro_attempts, appwifi_echoserver.
  destruct (fat_ok e); cbn; [| split; [discriminate | tauto]].
  repeat case_match; cbn; (split; [discriminate |]); split; intuition congruence.
Qed.

(** C31. A successful [UU::Initialize] tries the NitroFS locations in
    order ([ARGV[0]], then [Universal-Updater.nds], then
    [/_nds/Universal-Updater/Universal-Updater.nds]) up to the first that
    mounts, then creates the four directories parent first, and keeps the
    echo server's socket. *)
Theorem Initialize_order e g g' ev :
  Initialize e g = Ok (g', ev) ->
  fat_ok e = true /\ lSocket g' = socket_ret (net e) /\
  exists tried rest,
    ev = [AKeysSetRepeat 20 8; AFatInit] ++ map ANitroFSInit tried ++ map AMkdir uu_dirs ++ rest /\
    tried `prefix_of` [ARGV0 e; NITRO_LOCAL; NITRO_NDS] /\
    Forall (λ p, nitro_ok e p = false) (removelast tried) /\
    (exists p, last tried = Some p /\ nitro_ok e p = true).
Proof.
  unfold Initialize. destruct (fat_ok e) eqn:Ef; [| discriminate]. cbn [negb].
  destruct (nitro_attempts e) as [tried |] eqn:En; [| discriminate].
  destruct (appwifi_echoserver (net e) g) as [[g1 nev] | |] eqn:Es; [| discriminate | discriminate].
  intros H. rewrite res_bind_Ok in H. cbv beta iota in H. injection H as <- <-. split; [reflexivity |].
  split; [destruct (appwifi_echoserver_ok _ _ _ _ Es) as [-> _]; reflexivity |].
  eexists tried, _. split; [reflexivity |].
  unfold nitro_attempts in En. repeat case_match; simplify_eq;
    (split; [eexists; reflexivity |]); cbn; (split; [repeat constructor; assumption | eauto]).
Qed.

(** The touch scaling of [UU::ScanInput] (a helper the loop no longer
    calls): a point of the 256x192
    touch screen becomes, by [* 5 / 4] in [int] arithmetic, a point of the
    320x240 space the menus' hit rectangles use; the [u16] fields never
    wrap. *)
Theorem ScanInput_touch_bounds d r x y :
  0 <= x <= 255 -> 0 <= y <= 191 ->
  ScanInput d r (x, y) = (d, r, (x * 5 / 4, y * 5 / 4)) /\
  0 <= x * 5 / 4 < 320 /\ 0 <= y * 5 / 4 < 240.
Proof.
  intros Hx Hy. unfold ScanInput, u16. cbn [fst snd].
  rewrite !Z.quot_div_nonneg by lia.
  rewrite !Z.mod_small by (Z.div_mod_to_equations; lia).
  split; [reflexivity | Z.div_mod_to_equations; lia].
Qed.

(** Closes bit-level goals on values of at most 8 bits. *)
Ltac byte_bits :=
  repeat match goal with
  | |- context [Z.testbit ?x ?i] =>
      first [ rewrite (Z.testbit_neg_r x i) by lia
            | rewrite (testbit_small x 8 i) by lia ]
  end; btauto.

(** C33. Reading the address back: for an IPv4 address [o0.o1.o2.o3]
    stored by lwIP in network byte order, the bytes [memcpy] copies on the
    little-endian ARM9 are [o0], [o1], [o2], [o3] in that order, so the
    main loop's test [addr_bytes[0] == 10] holds exactly on 10.x.x.x
    networks. *)
Theorem addr_byte_ip4 o0 o1 o2 o3 :
  0 <= o0 < 2 ^ 8 -> 0 <= o1 < 2 ^ 8 -> 0 <= o2 < 2 ^ 8 -> 0 <= o3 < 2 ^ 8 ->
  addr_byte (ip4 o0 o1 o2 o3) 0 = o0 /\ addr_byte (ip4 o0 o1 o2 o3) 1 = o1 /\
  addr_byte (ip4 o0 o1 o2 o3) 2 = o2 /\ addr_byte (ip4 o0 o1 o2 o3) 3 = o3.
Proof.
  intros H0 H1 H2 H3. unfold addr_byte, ip4. change 255 with (Z.ones 8).
  repeat split; Z.bitblast; byte_bits.
Qed.

(** Switching the top view (a helper the loop no longer calls): after [UU::SwitchTopMode m] (which updates
    the chosen view and the store's sprites), [UU::Draw] draws the grid
    exactly when the store is valid and [m] is [Grid], the list exactly
    when it is valid and [m] is [List], and "Invalid UniStore" otherwise. *)
Theorem SwitchTopMode_Draw u m :
  trace (SwitchTopMode u m) = trace u ++ [AUpdate m; AUpdateSprites] /\
  (DGrid ∈ Draw (SwitchTopMode u m) <-> StoreValid u = true /\ m = Grid) /\
  (DList ∈ Draw (SwitchTopMode u m) <-> StoreValid u = true /\ m = List) /\
  (DInvalidStore ∈ Draw (SwitchTopMode u m) <-> StoreValid u = false).
Proof.
  split; [reflexivity |].
  unfold Draw, SwitchTopMode, emit, set_TMode. cbn.
  destruct (StoreValid u), m; cbn; rewrite ?elem_of_cons, ?elem_of_nil; intuition congruence.
Qed.

(** ** Examples and witnesses *)

(** A boot that finds NitroFS at its third location, a frame on a home
    network, then a frame on a 10.x.x.x network: the 10,000-byte file is
    written, one download ran, and the loop is stalled. *)
Example handler_downloads_once :
  match @Handler heap_unbounded sd_card boot_env uu0
          [idle_frame (ip4 192 168 1 2) 0; idle_frame (ip4 10 0 0 1) 0;
           idle_frame (ip4 10 0 0 1) KEY_START] with
  | Ok u => ph u = Stalled /\ downloads (trace u) = 1%nat /\
            (λ d, Z.of_nat (length d)) <$> disk u !! hi_path = Some 10000
  | _ => False
  end.
Proof. vm_compute. repeat split. Qed.

(** START on a home network: the configuration is saved and 0 returned. *)
Example handler_start_exits :
  match @Handler heap_unbounded sd_card boot_env uu0
          [idle_frame (ip4 192 168 1 2) KEY_B; idle_frame (ip4 192 168 1 2) KEY_START] with
  | Ok u => ph u = Returned 0 /\ last (trace u) = Some ASave /\ disk u = ∅
  | _ => False
  end.
Proof. vm_compute. repeat split. Qed.

Lemma reachable_loop_inv_witness :
  exists u, @reachable heap_unbounded sd_card uu0 u /\ ph u = Stalled /\ loop_inv uu0 u.
Proof.
  pose (f := idle_frame (ip4 10 0 0 1) 0).
  pose (u := match @frame heap_unbounded sd_card uu0 f with Ok u => u | _ => uu0 end).
  assert (E : @frame heap_unbounded sd_card uu0 f = Ok u) by (vm_compute; reflexivity).
  exists u. split; [exact (reach_frame uu0 uu0 f u (reach_start uu0) E) |].
  split; [vm_compute; reflexivity |].
  apply (@reachable_loop_inv heap_unbounded sd_card uu0 u);
    [reflexivity | reflexivity | exact (reach_frame uu0 uu0 f u (reach_start uu0) E)].
Defined.

Lemma run_hangs_only_on_silent_client_witness :
  (exists u', @run heap_unbounded sd_card uu0
                [idle_frame (ip4 192 168 1 2) KEY_B; idle_frame (ip4 10 0 0 1) 0] = Ok u') /\
  @run heap_unbounded sd_card uu0 [silent_frame; idle_frame (ip4 10 0 0 1) 0] = Hang.
Proof.
  destruct (@run_hangs_only_on_silent_client heap_unbounded sd_card uu0
              [idle_frame (ip4 10 0 0 1) 0]) as [_ H2].
  destruct (@run_hangs_only_on_silent_client heap_unbounded sd_card uu0
              [idle_frame (ip4 192 168 1 2) KEY_B; idle_frame (ip4 10 0 0 1) 0]) as [H1 _].
  split.
  - apply H1; [reflexivity |].
    repeat constructor; first [left; cbn; lia | vm_compute; discriminate].
  - apply H2; [reflexivity | reflexivity | cbn; lia | reflexivity].
Defined.

Lemma Handler_serves_bound_socket_witness :
  exists u, @Handler heap_unbounded sd_card boot_env uu0
              [idle_frame (ip4 192 168 1 2) KEY_B; idle_frame (ip4 10 0 0 1) 0] = Ok u /\
    0 <= socket_ret (net boot_env) /\ echo u = MkGlobals (socket_ret (net boot_env)) local_addr /\
    exists ev, trace u = trace uu0 ++ ev /\ Forall (on_app_listener (socket_ret (net boot_env))) ev.
Proof.
  pose (fs := [idle_frame (ip4 192 168 1 2) KEY_B; idle_frame (ip4 10 0 0 1) 0]).
  pose (u := match @Handler heap_unbounded sd_card boot_env uu0 fs with Ok u => u | _ => uu0 end).
  assert (E : @Handler heap_unbounded sd_card boot_env uu0 fs = Ok u) by (vm_compute; reflexivity).
  exists u. split; [exact E |].
  exact (@Handler_serves_bound_socket heap_unbounded sd_card boot_env uu0 fs u E).
Defined.

Lemma frame_downloads_witness :
  exists ev, @frame heap_unbounded sd_card uu0 (idle_frame (ip4 10 0 0 1) 0) =
    Ok (MkUU Stalled false Grid true globals0 dl_reset
             (<[hi_path := concat (xfer_body hi_transfer)]> ∅) ([] ++ ev)) /\
    last ev = Some (APrintResult 0).
Proof.
  apply (@frame_downloads heap_unbounded sd_card uu0 (idle_frame (ip4 10 0 0 1) 0)
           [NNonblock 0; NAccept 0 (-1)]);
    [reflexivity | reflexivity | reflexivity | vm_compute; reflexivity |
     vm_compute; reflexivity | intros; reflexivity | reflexivity | cbn; lia |
     reflexivity | vm_compute; discriminate].
Defined.

Lemma download_stalls_forever_witness :
  exists u1 r, @frame one_page_heap sd_card uu0 (idle_frame (ip4 10 0 0 1) 0) = Ok u1 /\
    ph u1 = Stalled /\ last (trace u1) = Some (APrintResult r) /\
    @run one_page_heap sd_card uu0 [idle_frame (ip4 10 0 0 1) 0; idle_frame 0 KEY_START] =
      Ok (emit u1 (repeat AVBlank (length [idle_frame 0 KEY_START]))).
Proof.
  apply (@download_stalls_forever one_page_heap sd_card uu0 (idle_frame (ip4 10 0 0 1) 0)
           [NNonblock 0; NAccept 0 (-1)]);
    [reflexivity | reflexivity | reflexivity | vm_compute; reflexivity |
     vm_compute; reflexivity | vm_compute; discriminate].
Defined.

Lemma start_leaves_witness :
  exists ev, @frame heap_unbounded sd_card uu0 (idle_frame (ip4 192 168 1 2) KEY_START) =
    Ok (set_ph (emit uu0 ev) (Returned 0)) /\ last ev = Some ASave /\ downloads ev = 0%nat.
Proof.
  apply (@start_leaves heap_unbounded sd_card uu0 (idle_frame (ip4 192 168 1 2) KEY_START)
           [NNonblock 0; NAccept 0 (-1)]);
    [reflexivity | reflexivity | vm_compute; reflexivity | vm_compute; discriminate |
     reflexivity].
Defined.

Lemma Initialize_order_witness :
  fat_ok boot_env = true /\ lSocket boot_globals = socket_ret (net boot_env) /\
  exists tried rest,
    boot_events = [AKeysSetRepeat 20 8; AFatInit] ++ map ANitroFSInit tried ++
                  map AMkdir uu_dirs ++ rest /\
    tried `prefix_of` [ARGV0 boot_env; NITRO_LOCAL; NITRO_NDS] /\
    Forall (λ p, nitro_ok boot_env p = false) (removelast tried) /\
    (exists p, last tried = Some p /\ nitro_ok boot_env p = true).
Proof. apply (Initialize_order boot_env globals0 boot_globals boot_events). vm_compute. reflexivity. Defined.

Lemma ScanInput_touch_bounds_witness :
  ScanInput 0 0 (255, 191) = (0, 0, (255 * 5 / 4, 191 * 5 / 4)) /\
  0 <= 255 * 5 / 4 < 320 /\ 0 <= 191 * 5 / 4 < 240.
Proof. apply ScanInput_touch_bounds; lia. Defined.

Lemma addr_byte_ip4_witness :
  addr_byte (ip4 10 0 0 1) 0 = 10 /\ addr_byte (ip4 10 0 0 1) 1 = 0 /\
  addr_byte (ip4 10 0 0 1) 2 = 0 /\ addr_byte (ip4 10 0 0 1) 3 = 1.
Proof. apply addr_byte_ip4; lia. Defined.

End App.
